(** * Session core of the scraper service

    A shallow embedding of the concurrency and lifecycle core of
    modify_v1.py (Facebook) and of the session classes of
    tiktok_scrap_api.py: the per-user session registry, the admission
    layer ([run_for_user] / [run_for_sys]), the idle janitor, the
    re-chrome policy, the background sink job and the webhook job mode.

    Modelling conventions.
    - Python object references are locations ([loc]) into a [store];
      the manager's dict [sessions] maps [username_full] to a location.
      The dict is a finite map: the order in which the janitor visits
      the entries is not observable in any statement below.
    - [time.monotonic()] readings are inputs of the functions that read
      the clock; they are exact rationals ([Q]), and [round(x, 1)] rounds
      to the nearest tenth.
    - An awaited call into the browser driver, the scraper, the file
      system or the network is an input too: it either returns or raises
      an [Exception].  Task cancellation (a [BaseException]) only happens
      at shutdown and is not modelled.
    - [user_dirs] and [record_error_json] create directories and append
      to files outside any [try]; what the file system answers to them is
      given by a class [Files].  A statement that names no instance is
      about [files_ok], the file system on which both return; the others
      quantify over the instance.
    - [log], [warn], [err] and [section] go through a logger of the
      [logging] module, which swallows the I/O errors of its handlers; the
      logger of a user is created once, in a directory that
      [UserSession.__init__] has made.  They are effects that do not
      fail.
    - What a coroutine does to the outside is recorded in a trace of
      events.
    - Attributes read with [getattr(obj, name, default)] are record fields
      initialised to that default.
    - [asyncio.Lock] is its [locked()] flag; waiting for it is a task
      phase of the interleaving semantics.  The context variables
      [CURRENT_USER_SAFE] and [CURRENT_TASK_ID] only feed the log lines and
      are left out. *)

From stdpp Require Import gmap strings list fin_maps.
From Stdlib Require Import Ascii ZArith QArith Qround Qabs Lia Lqa.

Local Open Scope string_scope.
Local Open Scope list_scope.
Local Open Scope Z_scope.

(** ** Exceptions, outcomes of external calls, effect trace *)

(** A raised Python [Exception]: FastAPI's [HTTPException(status_code,
    detail)], or any other subclass with its class name and [str(e)]. *)
Inductive exn :=
| Exception (cls : string) (msg : string)
| HTTPException (status_code : Z) (detail : string).

Definition RuntimeError (msg : string) : exn := Exception "RuntimeError" msg.
Definition AttributeError (msg : string) : exn := Exception "AttributeError" msg.

(** [str(e)] *)
Definition str_exn (e : exn) : string :=
  match e with
  | Exception _ msg => msg
  | HTTPException _ detail => detail
  end.

Inductive res (A : Type) : Type :=
| Ok (a : A)
| Raise (e : exn).
Arguments Ok {A} a.
Arguments Raise {A} e.

(** Outcome of an awaited external call that returns nothing. *)
Definition outcome := res unit.

(** ** to_safe_name *)

(** ["@" in username_full] *)
Fixpoint has_at (s : string) : bool :=
  match s with
  | EmptyString => false
  | String c r => if Ascii.eqb c "@"%char then true else has_at r
  end.

(** [username_full.split("@", 1)[0]] *)
Fixpoint split_at_first (s : string) : string :=
  match s with
  | EmptyString => EmptyString
  | String c r => if Ascii.eqb c "@"%char then EmptyString
                  else String c (split_at_first r)
  end.

Definition to_safe_name (username_full : string) : string :=
  if has_at username_full then split_at_first username_full else username_full.

(** ** The browser object and the session object *)

Record FBScrape := mkFBScrape {
  fb_instance : nat;            (* which FBScrape(...) object this is *)
  _sink_running : bool;         (* getattr(fb, "_sink_running", False) *)
  _sink_last_run : Q;           (* getattr(fb, "_sink_last_run", 0.0) *)
  _sink_count : Z               (* getattr(fb, "_sink_count", 0) *)
}.

Record UserSession := mkUserSession {
  username_full : string;
  username_safe : string;
  fb : option FBScrape;
  lock : bool;                  (* self.lock.locked() *)
  last_used : Q;
  closed : bool;
  _scrape_job_counter : Z;      (* getattr(sess, "_scrape_job_counter", 0) *)
  _sink_hits : Z;               (* getattr(sess, "_sink_hits", 0) *)
  _webhook_queue_len : Z        (* getattr(sess, "_webhook_queue_len", 0) *)
}.

(** [UserSession.__init__] *)
Definition UserSession_init (now : Q) (username_full : string) : UserSession :=
  {| username_full := username_full;
     username_safe := to_safe_name username_full;
     fb := None;
     lock := false;
     last_used := now;
     closed := false;
     _scrape_job_counter := 0;
     _sink_hits := 0;
     _webhook_queue_len := 0 |}.

(** [FBScrape.__init__]: the sink attributes start at their defaults. *)
Definition FBScrape_init (inst : nat) : FBScrape :=
  {| fb_instance := inst;
     _sink_running := false;
     _sink_last_run := 0%Q;
     _sink_count := 0 |}.

(** ** Effects of a job: a trace of observable calls *)

(** Body of a webhook callback: [{"ok": True, ...}] or
    [{"ok": False, ..., "error": ...}]. *)
Inductive payload :=
| PayloadOk (task_id : string) (user_safe : string) (output_file : string)
| PayloadError (task_id : string) (user_safe : string) (error : string).

Inductive event :=
| EvLog (level : string) (what : string)        (* log / warn / err *)
| EvRecordError (site : string) (e : exn)       (* record_error_json *)
| EvFbNew (inst : nat)                          (* FBScrape(...) *)
| EvFbLazyInit (inst : nat)                     (* await fb._lazy_init() *)
| EvFbClose (inst : nat)                        (* await fb.close() *)
| EvRestartBrowser                              (* sess.restart_browser() entered *)
| EvScrape                                      (* scraper.run_task(...) *)
| EvSaveJson (path : string)                    (* save_json *)
| EvAgentRun                                    (* fb.browser_user._run_autoweb *)
| EvHttpPost (url : string) (p : payload)       (* client.post(url, json=payload) *)
| EvLogStatus (url : string) (status_code : Z)  (* log("Webhook POST => url status=...") *)
| EvCreateTask (what : string).                 (* asyncio.create_task *)

(** A coroutine that runs against one object (a session, or the browser
    object for the sink job): state, exception and trace are threaded
    explicitly. *)
Record Run (S : Type) := mkRun { obj : S; trace : list event }.
Arguments mkRun {S} obj trace.
Arguments obj {S} r.
Arguments trace {S} r.

Definition M (S A : Type) : Type := Run S -> res A * Run S.

Section Monad.
Context {S : Type}.

Definition ret {A} (a : A) : M S A := fun j => (Ok a, j).

Definition bind {A B} (m : M S A) (k : A -> M S B) : M S B :=
  fun j => match m j with
           | (Ok a, j') => k a j'
           | (Raise e, j') => (Raise e, j')
           end.

Definition raise {A} (e : exn) : M S A := fun j => (Raise e, j).

(** [try: m  except Exception as e: h e] *)
Definition try_except {A} (m : M S A) (h : exn -> M S A) : M S A :=
  fun j => match m j with
           | (Ok a, j') => (Ok a, j')
           | (Raise e, j') => h e j'
           end.

(** [try: m  finally: f]; an exception of [f] replaces the pending one. *)
Definition try_finally {A} (m : M S A) (f : M S unit) : M S A :=
  fun j => match m j with
           | (r, j') => match f j' with
                        | (Ok _, j'') => (r, j'')
                        | (Raise e, j'') => (Raise e, j'')
                        end
           end.

Definition get : M S S := fun j => (Ok (obj j), j).

Definition modify (f : S -> S) : M S unit :=
  fun j => (Ok tt, mkRun (f (obj j)) (trace j)).

Definition emit (e : event) : M S unit :=
  fun j => (Ok tt, mkRun (obj j) (trace j ++ [e])).

(** An awaited external call whose outcome is given. *)
Definition await {A} (o : res A) : M S A := fun j => (o, j).
End Monad.

(** A coroutine whose every run relates the state before to the state
    after by [R]. *)
Definition respects {S A} (R : Run S -> Run S -> Prop) (m : M S A) : Prop :=
  forall j, R j (m j).2.

Declare Scope job_scope.
Delimit Scope job_scope with job.
Notation "x <- m ;; k" := (bind m (fun x => k))
  (at level 100, m at next level, right associativity) : job_scope.
Notation "m ;;; k" := (bind m (fun _ => k))
  (at level 100, right associativity) : job_scope.
Local Open Scope job_scope.

Definition log {S} (what : string) : M S unit := emit (EvLog "INFO" what).
Definition warn {S} (what : string) : M S unit := emit (EvLog "WARN" what).
Definition err {S} (what : string) : M S unit := emit (EvLog "ERROR" what).

(** What the file system answers to the two helpers that write outside
    any [try]: [user_dirs(username_safe)], three [mkdir], and the two
    appends to errors.jsonl of [record_error_json(user, where, exc)],
    each a [mkdir], an [open] and a [write]. *)
Class Files := mkFiles {
  fs_user_dirs : string -> outcome;
  fs_record_error : string -> outcome
}.

(** A file system on which both return. *)
#[global] Instance files_ok : Files :=
  {| fs_user_dirs := fun _ => Ok tt; fs_record_error := fun _ => Ok tt |}.

(** [user_dirs(username_safe)] *)
Definition user_dirs {L : Files} (username_safe : string) : outcome :=
  fs_user_dirs username_safe.

(** [record_error_json(user, where, exc)], called at [site] *)
Definition record_error_json {S} {L : Files} (site : string) (e : exn) : M S unit :=
  emit (EvRecordError site e) ;;;
  await (fs_record_error site).

(** ** UserSession methods *)

Definition set_fb (o : option FBScrape) (s : UserSession) : UserSession :=
  {| username_full := username_full s; username_safe := username_safe s;
     fb := o; lock := lock s; last_used := last_used s; closed := closed s;
     _scrape_job_counter := _scrape_job_counter s; _sink_hits := _sink_hits s;
     _webhook_queue_len := _webhook_queue_len s |}.

Definition set_lock (b : bool) (s : UserSession) : UserSession :=
  {| username_full := username_full s; username_safe := username_safe s;
     fb := fb s; lock := b; last_used := last_used s; closed := closed s;
     _scrape_job_counter := _scrape_job_counter s; _sink_hits := _sink_hits s;
     _webhook_queue_len := _webhook_queue_len s |}.

Definition set_last_used (t : Q) (s : UserSession) : UserSession :=
  {| username_full := username_full s; username_safe := username_safe s;
     fb := fb s; lock := lock s; last_used := t; closed := closed s;
     _scrape_job_counter := _scrape_job_counter s; _sink_hits := _sink_hits s;
     _webhook_queue_len := _webhook_queue_len s |}.

Definition set_closed (b : bool) (s : UserSession) : UserSession :=
  {| username_full := username_full s; username_safe := username_safe s;
     fb := fb s; lock := lock s; last_used := last_used s; closed := b;
     _scrape_job_counter := _scrape_job_counter s; _sink_hits := _sink_hits s;
     _webhook_queue_len := _webhook_queue_len s |}.

Definition set_scrape_job_counter (n : Z) (s : UserSession) : UserSession :=
  {| username_full := username_full s; username_safe := username_safe s;
     fb := fb s; lock := lock s; last_used := last_used s; closed := closed s;
     _scrape_job_counter := n; _sink_hits := _sink_hits s;
     _webhook_queue_len := _webhook_queue_len s |}.

Definition set_sink_hits (n : Z) (s : UserSession) : UserSession :=
  {| username_full := username_full s; username_safe := username_safe s;
     fb := fb s; lock := lock s; last_used := last_used s; closed := closed s;
     _scrape_job_counter := _scrape_job_counter s; _sink_hits := n;
     _webhook_queue_len := _webhook_queue_len s |}.

Definition set_webhook_queue_len (n : Z) (s : UserSession) : UserSession :=
  {| username_full := username_full s; username_safe := username_safe s;
     fb := fb s; lock := lock s; last_used := last_used s; closed := closed s;
     _scrape_job_counter := _scrape_job_counter s; _sink_hits := _sink_hits s;
     _webhook_queue_len := n |}.

(** [UserSession.touch] *)
Definition touch (now : Q) (s : UserSession) : UserSession := set_last_used now s.

(** What the browser driver does when a job opens or closes a browser:
    outcome of [fb.close()], of the constructor [FBScrape(...)] (with the
    new object), and of [fb._lazy_init()]. *)
Record Driver := mkDriver {
  drv_close : outcome;
  drv_new : res nat;
  drv_lazy_init : outcome
}.

(** [self.fb = FBScrape(self.browser_data_dir, verbose=VERBOSE)]
    followed by [await self.fb._lazy_init()]. *)
Definition open_fb (d : Driver) : M UserSession unit :=
  inst <- await (drv_new d) ;;
  emit (EvFbNew inst) ;;;
  modify (set_fb (Some (FBScrape_init inst))) ;;;
  emit (EvFbLazyInit inst) ;;;
  await (drv_lazy_init d).

(** [UserSession.ensure_fb] *)
Definition ensure_fb {L : Files} (d : Driver) : M UserSession (option FBScrape) :=
  s <- get ;;
  if closed s then raise (RuntimeError "Session closed")
  else
    (match fb s with
     | None =>
         try_except
           (open_fb d ;;; log "browser opened")
           (fun e => err "browser open failed" ;;;
                     record_error_json "UserSession.ensure_fb" e ;;;
                     raise e)
     | Some _ => ret tt
     end) ;;;
    s' <- get ;;
    ret (fb s').

(** [UserSession.restart_browser] *)
Definition restart_browser {L : Files} (d : Driver) : M UserSession unit :=
  emit EvRestartBrowser ;;;
  s <- get ;;
  if closed s then raise (RuntimeError "Session closed (cannot restart)")
  else
    try_except
      ((match fb s with
        | Some f =>
            try_except
              (emit (EvFbClose (fb_instance f)) ;;; await (drv_close d))
              (fun e => warn "closing browser before restart failed") ;;;
            modify (set_fb None)
        | None => ret tt
        end) ;;;
       open_fb d ;;;
       log "RE-CHROME: new browser opened")
      (fun e => err "RE-CHROME: failed" ;;;
                record_error_json "UserSession.restart_browser" e ;;;
                raise e).

(** What the driver answers when [FBScrape.close] closes the page, the
    context and Playwright; [None] where the attribute is [None] and no
    call is made. *)
Record CloseEnv := mkCloseEnv {
  ce_page : option outcome;
  ce_context : option outcome;
  ce_playwright : option outcome
}.

(** [FBScrape.close]: each of the three resources is closed under its
    own [try] with [except Exception], which warns and goes on. *)
Definition FBScrape_close {S} (env : CloseEnv) : M S unit :=
  log "closing the browser resources" ;;;
  match ce_page env with
  | Some page_close =>
      try_except (await page_close ;;; log "page closed")
                 (fun e => warn "closing the page failed")
  | None => ret tt
  end ;;;
  match ce_context env with
  | Some context_close =>
      try_except (await context_close ;;; log "context closed")
                 (fun e => warn "closing the context failed")
  | None => ret tt
  end ;;;
  match ce_playwright env with
  | Some playwright_stop =>
      try_except (await playwright_stop ;;; log "Playwright stopped")
                 (fun e => warn "stopping Playwright failed")
  | None => ret tt
  end.

(** How [await self.fb.close()] ends for the caller when the driver
    answers [env] on the browser object [f]. *)
Definition fb_close_of (env : CloseEnv) (f : FBScrape) : outcome :=
  (FBScrape_close env (mkRun f [])).1.

(** [UserSession.close]; [fb_close] is how [await self.fb.close()]
    ends. *)
Definition close {L : Files} (fb_close : outcome) : M UserSession unit :=
  s <- get ;;
  if closed s then ret tt
  else
    try_finally
      (try_except
         (match fb s with
          | Some f =>
              emit (EvFbClose (fb_instance f)) ;;;
              await fb_close ;;;
              log "browser closed"
          | None => ret tt
          end)
         (fun e => err "closing browser failed" ;;;
                   record_error_json "UserSession.close" e))
      (modify (set_fb None) ;;;
       modify (set_closed true)).

(** [close] is suspended at most once, in [await self.fb.close()], with
    [closed] still [False].  [close_begin] runs it up to there: [true]
    when it is now suspended, [false] when it has returned. *)
Definition close_begin : M UserSession bool :=
  s <- get ;;
  if closed s then ret false
  else
    match fb s with
    | Some f => emit (EvFbClose (fb_instance f)) ;;; ret true
    | None => modify (set_fb None) ;;; modify (set_closed true) ;;; ret false
    end.

(** [close_end] resumes it when [fb.close()] has ended. *)
Definition close_end {L : Files} (fb_close : outcome) : M UserSession unit :=
  try_finally
    (try_except
       (await fb_close ;;;
        log "browser closed")
       (fun e => err "closing browser failed" ;;;
                 record_error_json "UserSession.close" e))
    (modify (set_fb None) ;;;
     modify (set_closed true)).

(** ** SessionManager *)

Definition loc := nat.

(** The manager ([idle_timeout_sec], the dict [sessions]), the session
    objects it and the running coroutines refer to, and the trace of
    effects so far. *)
Record State := mkState {
  idle_timeout_sec : Z;
  sessions : gmap string loc;
  store : gmap loc UserSession;
  syslog : list event
}.

(** [SessionManager.__init__] *)
Definition SessionManager_init (idle_timeout_sec : Z) : State :=
  mkState idle_timeout_sec ∅ ∅ [].

Definition set_sessions (m : gmap string loc) (st : State) : State :=
  mkState (idle_timeout_sec st) m (store st) (syslog st).

Definition set_store (h : gmap loc UserSession) (st : State) : State :=
  mkState (idle_timeout_sec st) (sessions st) h (syslog st).

Definition set_syslog (tr : list event) (st : State) : State :=
  mkState (idle_timeout_sec st) (sessions st) (store st) tr.

(** [self.sessions.get(username_full)]: the location and the object. *)
Definition sessions_get (username_full : string) (st : State)
  : option (loc * UserSession) :=
  match sessions st !! username_full with
  | Some r => match store st !! r with
              | Some s => Some (r, s)
              | None => None
              end
  | None => None
  end.

(** [SessionManager.get_or_create] *)
Definition get_or_create (now : Q) (username_full : string) (st : State)
  : loc * State :=
  match sessions_get username_full st with
  | Some (r, s) =>
      if closed s then
        let r' := fresh (dom (store st)) in
        (r', set_sessions (<[username_full := r']> (sessions st))
               (set_store (<[r' := UserSession_init now username_full]> (store st)) st))
      else (r, st)
  | None =>
      let r' := fresh (dom (store st)) in
      (r', set_sessions (<[username_full := r']> (sessions st))
             (set_store (<[r' := UserSession_init now username_full]> (store st)) st))
  end.

(** Run a coroutine against the session object at [r]. *)
Definition run_on {A} (r : loc) (m : M UserSession A) (st : State)
  : option (res A * State) :=
  match store st !! r with
  | Some s =>
      let '(a, j) := m (mkRun s (syslog st)) in
      Some (a, set_syslog (trace j) (set_store (<[r := obj j]> (store st)) st))
  | None => None
  end.

(** Update the session object at [r] in place. *)
Definition update (r : loc) (f : UserSession -> UserSession) (st : State) : State :=
  match store st !! r with
  | Some s => set_store (<[r := f s]> (store st)) st
  | None => st
  end.

(** [SessionManager.run_for_user], run without interleaving: [None] when
    the gate is held, that is when [async with sess.lock] suspends the
    caller.  [t_new] is the clock reading of [UserSession.__init__],
    [t_in] and [t_out] those of the two [touch()] calls. *)
Definition run_for_user {A} (t_new t_in t_out : Q) (username_full : string)
    (coro_func : M UserSession A) (st : State) : option (res A * State) :=
  let '(r, st1) := get_or_create t_new username_full st in
  match store st1 !! r with
  | Some s =>
      if lock s then None
      else
        let st2 := update r (set_lock true) st1 in      (* async with sess.lock *)
        let st3 := update r (touch t_in) st2 in         (* sess.touch() *)
        match run_on r coro_func st3 with               (* await coro_func(sess) *)
        | Some (a, st4) =>
            let st5 := update r (touch t_out) st4 in    (* finally: sess.touch() *)
            Some (a, update r (set_lock false) st5)
        | None => None
        end
  | None => None
  end.

(** [SessionManager.run_for_sys]: same gate, [finally: pass]. *)
Definition run_for_sys {A} (t_new : Q) (username_full : string)
    (coro_func : M UserSession A) (st : State) : option (res A * State) :=
  let '(r, st1) := get_or_create t_new username_full st in
  match store st1 !! r with
  | Some s =>
      if lock s then None
      else
        let st2 := update r (set_lock true) st1 in      (* async with sess.lock *)
        match run_on r coro_func st2 with               (* await coro_func(sess) *)
        | Some (a, st3) => Some (a, update r (set_lock false) st3)
        | None => None
        end
  | None => None
  end.

(** ** The janitor *)

Definition Qlt_bool (a b : Q) : bool := negb (Qle_bool b a).

(** First loop of [janitor_loop] for one entry of [self.sessions]:
    the names to append to [to_close] and the sink tasks to create. *)
Definition janitor_scan_one (sink_idle_sec : Z) (now : Q) (st : State)
    (item : string * loc) : list string * list string :=
  match store st !! item.2 with
  | None => ([], [])
  | Some s =>
      if closed s then ([item.1], [])
      else
        let idle := (now - last_used s)%Q in
        let timeout := inject_Z (idle_timeout_sec st) in
        let spawn :=
          if Qle_bool (inject_Z sink_idle_sec) idle && Qlt_bool idle timeout
             && bool_decide (is_Some (fb s))
          then match fb s with
               | Some f => if negb (_sink_running f) then [item.1] else []
               | None => []
               end
          else [] in
        let evict :=
          if Qlt_bool timeout idle && negb (lock s) then [item.1] else [] in
        (evict, spawn)
  end.

Definition janitor_scan (sink_idle_sec : Z) (now : Q) (st : State)
  : list string * list string :=
  let rs := map (janitor_scan_one sink_idle_sec now st) (map_to_list (sessions st)) in
  (concat (map fst rs), concat (map snd rs)).

(** Body of the second loop for one name of [to_close], when no other
    coroutine runs while [close()] is suspended. *)
Definition janitor_close_one {L : Files} (fb_close : outcome) (uname_full : string)
    (st : State) : res unit * State :=
  match sessions_get uname_full st with
  | Some (r, s) =>
      if negb (closed s) && negb (lock s) then
        match run_on r (log "[Janitor] Close idle session" ;;; close fb_close) st with
        | Some (Ok _, st') =>
            (Ok tt, set_sessions (delete uname_full (sessions st')) st')
        | Some (Raise e, st') => (Raise e, st')
        | None => (Ok tt, st)
        end
      else (Ok tt, st)
  | None => (Ok tt, st)
  end.

(** Where a coroutine that closes a session stands when it has run up
    to its next suspension: it is over, with a result, or it is
    suspended in [close()] of the session object at [r]. *)
Inductive progress (A : Type) : Type :=
| Done (a : res A)
| InClose (r : loc).
Arguments Done {A} a.
Arguments InClose {A} r.

(** The same body cut at the suspension of [close()].  First the
    re-check, the log line and [sess.close()] as far as it runs; when
    [close()] returns at once, the [pop] follows. *)
Definition janitor_close_begin (uname_full : string) (st : State)
  : progress unit * State :=
  match sessions_get uname_full st with
  | Some (r, s) =>
      if negb (closed s) && negb (lock s) then
        match run_on r (log "[Janitor] Close idle session" ;;; close_begin) st with
        | Some (Ok true, st') => (InClose r, st')
        | Some (Ok false, st') =>
            (Done (Ok tt), set_sessions (delete uname_full (sessions st')) st')
        | Some (Raise e, st') => (Done (Raise e), st')
        | None => (Done (Ok tt), st)
        end
      else (Done (Ok tt), st)
  | None => (Done (Ok tt), st)
  end.

(** Then, when [fb.close()] has ended, the rest of [close()] on the
    session object the janitor holds, and
    [self.sessions.pop(uname_full, None)].  An exception of [close()]
    leaves [janitor_loop], which catches [CancelledError] only. *)
Definition janitor_close_end {L : Files} (fb_close : outcome) (uname_full : string)
    (r : loc) (st : State) : res unit * State :=
  match run_on r (close_end fb_close) st with
  | Some (Ok _, st') =>
      (Ok tt, set_sessions (delete uname_full (sessions st')) st')
  | Some (Raise e, st') => (Raise e, st')
  | None => (Ok tt, st)
  end.

Fixpoint janitor_close_all {L : Files} (fb_close : string -> outcome)
    (to_close : list string) (st : State) : res unit * State :=
  match to_close with
  | [] => (Ok tt, st)
  | uname_full :: rest =>
      match janitor_close_one (fb_close uname_full) uname_full st with
      | (Ok _, st') => janitor_close_all fb_close rest st'
      | (Raise e, st') => (Raise e, st')
      end
  end.

(** One iteration of the [while] loop of [janitor_loop], up to the
    [asyncio.sleep], when no other coroutine runs while it is suspended
    in a [close()].  [fb_close] says how [fb.close()] ends for the
    session registered under a name. *)
Definition janitor_tick {L : Files} (sink_idle_sec : Z) (now : Q)
    (fb_close : string -> outcome) (st : State) : res unit * State :=
  let '(to_close, spawn) := janitor_scan sink_idle_sec now st in
  let st1 := set_syslog (syslog st ++ map (fun u => EvCreateTask u) spawn) st in
  janitor_close_all fb_close to_close st1.

(** ** Closing a session on request *)

(** [close_session] (DELETE /sessions/{username_full}). *)
Definition close_session {L : Files} (fb_close : outcome) (username_full : string)
    (st : State) : res string * State :=
  match sessions_get username_full st with
  | None => (Ok "session not found", st)
  | Some (r, s) =>
      if lock s then (Raise (HTTPException 400 "cannot close: a job is running"), st)
      else
        match run_on r (close fb_close) st with
        | Some (Ok _, st') =>
            (Ok "session closed", set_sessions (delete username_full (sessions st')) st')
        | Some (Raise e, st') => (Raise e, st')
        | None => (Ok "session not found", st)
        end
  end.

(** The same endpoint cut at the suspension of [close()]. *)
Definition close_session_begin (username_full : string) (st : State)
  : progress string * State :=
  match sessions_get username_full st with
  | None => (Done (Ok "session not found"), st)
  | Some (r, s) =>
      if lock s then
        (Done (Raise (HTTPException 400 "cannot close: a job is running")), st)
      else
        match run_on r close_begin st with
        | Some (Ok true, st') => (InClose r, st')
        | Some (Ok false, st') =>
            (Done (Ok "session closed"),
             set_sessions (delete username_full (sessions st')) st')
        | Some (Raise e, st') => (Done (Raise e), st')
        | None => (Done (Ok "session not found"), st)
        end
  end.

Definition close_session_end {L : Files} (fb_close : outcome)
    (username_full : string) (r : loc) (st : State) : res string * State :=
  match run_on r (close_end fb_close) st with
  | Some (Ok _, st') =>
      (Ok "session closed", set_sessions (delete username_full (sessions st')) st')
  | Some (Raise e, st') => (Raise e, st')
  | None => (Ok "session not found", st)
  end.

(** The session part of [delete_profile] (POST /profiles/delete):
    [target_sessions], the busy check and the closing loop. *)
Definition target_sessions (username_safe_ : string) (st : State)
  : list (string * loc) :=
  List.filter (fun item => match store st !! item.2 with
                           | Some s => String.eqb (username_safe s) username_safe_
                           | None => false
                           end)
              (map_to_list (sessions st)).

Definition any_locked (st : State) (targets : list (string * loc)) : bool :=
  existsb (fun item => match store st !! item.2 with
                       | Some s => lock s
                       | None => false
                       end) targets.

(** The [except] clause of the closing loop: the exception of
    [close()] is recorded, and the loop goes on if that returns. *)
Definition delete_profile_except {L : Files} (e : exn) (st : State)
  : res unit * State :=
  (fs_record_error "endpoint.delete_profile.close_session",
   set_syslog (syslog st ++ [EvRecordError "endpoint.delete_profile.close_session" e])
              st).

(** The closing loop when no other coroutine runs while a [close()] is
    suspended; the result is [closed_count]. *)
Fixpoint delete_profile_close {L : Files} (fb_close : string -> outcome)
    (targets : list (string * loc)) (st : State) : res Z * State :=
  match targets with
  | [] => (Ok 0, st)
  | (uname_full, r) :: rest =>
      match run_on r (close (fb_close uname_full)) st with
      | Some (Ok _, st') =>
          match delete_profile_close fb_close rest
                  (set_sessions (delete uname_full (sessions st')) st') with
          | (Ok n, st'') => (Ok (n + 1), st'')
          | (Raise e, st'') => (Raise e, st'')
          end
      | Some (Raise e, st') =>
          match delete_profile_except e st' with
          | (Ok _, st'') => delete_profile_close fb_close rest st''
          | (Raise e', st'') => (Raise e', st'')
          end
      | None => delete_profile_close fb_close rest st
      end
  end.

(** The result is the status code of the response and [sessions_closed];
    [username_full] is the stripped request field. *)
Definition delete_profile {L : Files} (fb_close : string -> outcome) (username_full : string)
    (force : bool) (st : State) : res (Z * Z) * State :=
  if String.eqb username_full "" then (Ok (400, 0), st)
  else
    let targets := target_sessions (to_safe_name username_full) st in
    if any_locked st targets && negb force
    then (Ok (400, 0), st)
    else match delete_profile_close fb_close targets st with
         | (Ok n, st') => (Ok (200, n), st')
         | (Raise e, st') => (Raise e, st')
         end.

(** One iteration of the closing loop cut at the suspension of
    [close()]: the target is the session object the endpoint has
    captured, whatever its lock is by now. *)
Definition delete_close_begin (uname_full : string) (r : loc) (st : State)
  : progress unit * State :=
  match run_on r close_begin st with
  | Some (Ok true, st') => (InClose r, st')
  | Some (Ok false, st') =>
      (Done (Ok tt), set_sessions (delete uname_full (sessions st')) st')
  | Some (Raise e, st') => (Done (Raise e), st')
  | None => (Done (Ok tt), st)
  end.

Definition delete_close_end {L : Files} (fb_close : outcome) (uname_full : string)
    (r : loc) (st : State) : res unit * State :=
  match run_on r (close_end fb_close) st with
  | Some (Ok _, st') =>
      (Ok tt, set_sessions (delete uname_full (sessions st')) st')
  | Some (Raise e, st') => delete_profile_except e st'
  | None => (Ok tt, st)
  end.

(** ** Configuration read from the environment *)

Record Config := mkConfig {
  RECHROME_POLICY : string;          (* "never" | "before_each" | "every_n" *)
  RECHROME_EVERY_N : Z;
  SINK_HITS_BEFORE_TRIGGER : Z;
  SINK_COOLDOWN_SEC : Z;
  SINK_IDLE_SEC : Z
}.

(** ** Re-chrome policy at the start of a scrape job *)

(** The value of [need_restart] for the incremented counter [cnt]. *)
Definition need_restart (cfg : Config) (cnt : Z) : bool :=
  if String.eqb (RECHROME_POLICY cfg) "before_each" then true
  else if String.eqb (RECHROME_POLICY cfg) "every_n"
          && (0 <? RECHROME_EVERY_N cfg)
          && (cnt mod RECHROME_EVERY_N cfg =? 0)
       then true
       else false.

(** The first [try] block of [scrape_posts._job] (and of
    [scrape_posts_webhook._bg_job]). *)
Definition rechrome {L : Files} (cfg : Config) (d : Driver) : M UserSession unit :=
  try_except
    (s <- get ;;
     let cnt := _scrape_job_counter s + 1 in
     modify (set_scrape_job_counter cnt) ;;;
     if need_restart cfg cnt
     then log "RE-CHROME: restarting browser before the job" ;;;
          restart_browser d
     else ret tt)
    (fun e => warn "RE-CHROME: restart skipped").

(** The hit-count trigger of the sink job at the end of a scrape job. *)
Definition sink_trigger (cfg : Config) : M UserSession unit :=
  try_except
    (s <- get ;;
     let hits := _sink_hits s + 1 in
     modify (set_sink_hits hits) ;;;
     s' <- get ;;
     if (SINK_HITS_BEFORE_TRIGGER cfg <=? hits) && bool_decide (is_Some (fb s'))
     then modify (set_sink_hits 0) ;;;
          emit (EvCreateTask "_run_sink_bg")
     else ret tt)
    (fun e => ret tt).

(** [needle in hay] *)
Fixpoint contains (needle hay : string) : bool :=
  if String.prefix needle hay then true
  else match hay with
       | EmptyString => false
       | String _ rest => contains needle rest
       end.

(** What the collaborators of a scrape job do: the driver during
    [restart_browser] and during [ensure_fb], [PostScrape(...)],
    [scraper.is_logged_in()], [scraper.run_task(...)] (its result is kept
    abstract), [save_json], the summary of the result rows, and the
    delivery of the webhook: the status code of the response, or the
    exception of the HTTP client. *)
Record ScrapeEnv := mkScrapeEnv {
  se_restart : Driver;
  se_ensure : Driver;
  se_new_scraper : outcome;
  se_is_logged_in : res bool;
  se_run_task : res string;
  se_save_json : outcome;
  se_summary : outcome;
  se_post : res Z
}.

(** [scrape_posts._job] *)
Definition scrape_posts_job {L : Files} (cfg : Config) (env : ScrapeEnv)
    (task_id output_path : string) : M UserSession string :=
  rechrome cfg (se_restart env) ;;;
  _fb <- ensure_fb (se_ensure env) ;;
  await (se_new_scraper env) ;;;
  logged_in <- await (se_is_logged_in env) ;;
  if negb logged_in
  then raise (HTTPException 401 "not logged in or session expired")
  else
    result <- try_except
                (emit EvScrape ;;; await (se_run_task env))
                (fun e => if contains "FB_SESSION_LOST" (str_exn e)
                          then raise (HTTPException 401 "session lost during the job")
                          else raise e) ;;
    emit (EvSaveJson output_path) ;;;
    await (se_save_json env) ;;;
    log "result saved" ;;;
    sink_trigger cfg ;;;
    await (se_summary env) ;;;
    ret task_id.

(** ** Webhook mode *)

(** [_post_webhook] *)
Definition _post_webhook {S} (url : string) (p : payload) (delivery : res Z)
  : M S unit :=
  if String.eqb url "" then ret tt
  else
    try_except
      (emit (EvHttpPost url p) ;;;
       status_code <- await delivery ;;
       emit (EvLogStatus url status_code))
      (fun e => warn "sending the webhook failed").

(** [scrape_posts_webhook._bg_job]; [username_safe_] is the name computed
    by the endpoint, used by the outer handler. *)
Definition _bg_job {L : Files} (cfg : Config) (env : ScrapeEnv)
    (task_id output_path webhook_url username_safe_ : string)
  : M UserSession unit :=
  try_except
    (rechrome cfg (se_restart env) ;;;
     _fb <- ensure_fb (se_ensure env) ;;
     await (se_new_scraper env) ;;;
     logged_in <- await (se_is_logged_in env) ;;
     s <- get ;;
     if negb logged_in
     then _post_webhook webhook_url
            (PayloadError task_id (username_safe s) "not logged in or session expired")
            (se_post env)
     else
       r <- try_except
              (emit EvScrape ;;;
               result <- await (se_run_task env) ;;
               ret (Some result))
              (fun e =>
                 (if contains "FB_SESSION_LOST" (str_exn e)
                  then _post_webhook webhook_url
                         (PayloadError task_id (username_safe s) "session lost during the job")
                         (se_post env)
                  else _post_webhook webhook_url
                         (PayloadError task_id (username_safe s) (str_exn e))
                         (se_post env)) ;;;
                 ret None) ;;
       match r with
       | None => ret tt
       | Some result =>
           emit (EvSaveJson output_path) ;;;
           await (se_save_json env) ;;;
           log "result saved" ;;;
           await (se_summary env) ;;;
           _post_webhook webhook_url
             (PayloadOk task_id (username_safe s) output_path) (se_post env) ;;;
           sink_trigger cfg
       end)
    (fun e =>
       err "bg scrape (webhook) error" ;;;
       record_error_json "endpoint.scrape_posts_webhook.bg" e ;;;
       try_except
         (_post_webhook webhook_url
            (PayloadError task_id username_safe_ (str_exn e)) (se_post env))
         (fun _ => ret tt)).

(** The immediate answer of [scrape_posts_webhook]. *)
Record WebhookQueuedResponse := mkWebhookQueuedResponse {
  wq_task_id : string;
  wq_username_safe : string;
  wq_status : string;
  wq_queue_position : Z
}.

(** [scrape_posts_webhook]: the endpoint up to its [return].  The
    arguments are the stripped request fields; [profile_has_data] is the
    answer of the file system, asked after [user_dirs]. *)
Definition scrape_posts_webhook {L : Files} (now : Q) (task_id : string)
    (username_full : string) (profile_has_data : bool) (webhook_url : string)
    (st : State) : res WebhookQueuedResponse * State :=
  if String.eqb username_full "" then
    (Raise (HTTPException 400 "username must not be empty"), st)
  else
    match user_dirs (to_safe_name username_full) with
    | Raise e => (Raise e, st)
    | Ok _ =>
        if negb profile_has_data then
          (Raise (HTTPException 400 "profile not found"), st)
        else if String.eqb webhook_url "" then
          (Raise (HTTPException 400 "webhook_url is required"), st)
        else
          let '(r, st1) := get_or_create now username_full st in
          let '(r', st2) := get_or_create now username_full st1 in
          match store st2 !! r, store st2 !! r' with
          | Some sess, Some sess' =>
              let running := lock sess' in
              let queue_len := _webhook_queue_len sess in
              let position := queue_len + (if running then 1 else 0) + 1 in
              let st3 := update r (set_webhook_queue_len (queue_len + 1)) st2 in
              let st4 := set_syslog (syslog st3 ++ [EvCreateTask "_schedule"]) st3 in
              (Ok {| wq_task_id := task_id;
                     wq_username_safe := to_safe_name username_full;
                     wq_status := if 1 <? position then "queued" else "running";
                     wq_queue_position := position |}, st4)
          | _, _ => (Raise (RuntimeError "dangling session reference"), st2)
          end
    end.

(** The [finally] of [_schedule]: the counter of the session object the
    endpoint captured goes down by one, not below zero (the attribute
    exists, the endpoint has set it). *)
Definition _schedule_finally (r : loc) (st : State) : State :=
  update r (fun s => set_webhook_queue_len (Z.max 0 (_webhook_queue_len s - 1)) s) st.

(** [_schedule]: the job goes through [run_for_user], then the counter
    is decremented whatever the job did. *)
Definition _schedule (t_new t_in t_out : Q) (username_full : string)
    (captured : loc) (job : M UserSession unit) (st : State)
  : option (res unit * State) :=
  match run_for_user t_new t_in t_out username_full job st with
  | Some (a, st') => Some (a, _schedule_finally captured st')
  | None => None
  end.

(** ** The sink job (randomtask) *)

(** [max(0.0, x)] *)
Definition max0 (x : Q) : Q := if Qlt_bool 0 x then x else 0%Q.

(** Nearest integer, ties to the even one. *)
Definition round_half_even (x : Q) : Z :=
  let f := Qfloor x in
  let d := (x - inject_Z f)%Q in
  if Qlt_bool d (1 # 2) then f
  else if Qlt_bool (1 # 2) d then f + 1
  else if Z.even f then f else f + 1.

(** [round(x, 1)] on exact rationals. *)
Definition round1 (x : Q) : Q := (inject_Z (round_half_even (x * 10)) / 10)%Q.

Definition set_sink_running (b : bool) (f : FBScrape) : FBScrape :=
  {| fb_instance := fb_instance f; _sink_running := b;
     _sink_last_run := _sink_last_run f; _sink_count := _sink_count f |}.

Definition set_sink_last_run (t : Q) (f : FBScrape) : FBScrape :=
  {| fb_instance := fb_instance f; _sink_running := _sink_running f;
     _sink_last_run := t; _sink_count := _sink_count f |}.

Definition set_sink_count (n : Z) (f : FBScrape) : FBScrape :=
  {| fb_instance := fb_instance f; _sink_running := _sink_running f;
     _sink_last_run := _sink_last_run f; _sink_count := n |}.

(** What [randomtask] returns. *)
Inductive sink_result :=
| SinkCooldown (next_in_sec : Q)     (* {"ok": False, "reason": "cooldown", ...} *)
| SinkNoBrowserPid                   (* {"ok": False, "reason": "no_browser_pid"} *)
| SinkDone                           (* {"ok": True, ...} *)
| SinkError (error : string).        (* {"ok": False, "error": str(e)} *)

(** The collaborators of the sink job: [fb._lazy_init()], the two
    [goto google.com] (before the agent and in [finally]), whether a
    browser PID is found, the agent run and [save_json]. *)
Record SinkEnv := mkSinkEnv {
  sk_lazy_init : outcome;
  sk_goto : outcome;
  sk_browser_pid : bool;
  sk_agent : outcome;
  sk_save_json : outcome;
  sk_goto_finally : outcome
}.

(** [randomtask(fb)].  [now_mono] is the clock read for the cooldown
    check, [t_done] the one stored in [_sink_last_run].  Every caller holds
    the session gate, so [fb._sink_lock] is free when it is taken. *)
Definition randomtask {L : Files} (cfg : Config) (now_mono t_done : Q) (env : SinkEnv)
  : M FBScrape sink_result :=
  await (sk_lazy_init env) ;;;
  f0 <- get ;;
  (if _sink_running f0 then warn "SINK: found running state under the lock" else ret tt) ;;;
  modify (set_sink_running true) ;;;
  try_finally
    (try_except
       (f <- get ;;
        let last_run := _sink_last_run f in
        let cooldown_sec := inject_Z (SINK_COOLDOWN_SEC cfg) in
        if negb (Qeq_bool last_run 0) && Qlt_bool (now_mono - last_run) cooldown_sec
        then
          let remain := max0 (cooldown_sec - (now_mono - last_run)) in
          ret (SinkCooldown (round1 remain))
        else
          try_except (await (sk_goto env)) (fun _ => ret tt) ;;;
          if negb (sk_browser_pid env)
          then warn "SINK: no Chromium PID" ;;; ret SinkNoBrowserPid
          else
            log "SINK: starting agent" ;;;
            emit EvAgentRun ;;;
            await (sk_agent env) ;;;
            emit (EvSaveJson "_sink") ;;;
            await (sk_save_json env) ;;;
            log "SINK: result saved" ;;;
            modify (set_sink_last_run t_done) ;;;
            f' <- get ;;
            modify (set_sink_count (_sink_count f' + 1)) ;;;
            ret SinkDone)
       (fun e =>
          err "SINK: failed" ;;;
          record_error_json "sink" e ;;;
          ret (SinkError (str_exn e))))
    (try_except (await (sk_goto_finally env)) (fun _ => ret tt) ;;;
     modify (set_sink_running false)).

(** Run a coroutine of the browser object on [sess.fb]; with no browser
    the attribute access on [None] raises. *)
Definition on_fb {A} (m : M FBScrape A) : M UserSession A :=
  fun j =>
    match fb (obj j) with
    | Some f =>
        let '(a, j') := m (mkRun f (trace j)) in
        (a, mkRun (set_fb (Some (obj j')) (obj j)) (trace j'))
    | None =>
        (Raise (AttributeError "'NoneType' object has no attribute '_lazy_init'"), j)
    end.

(** [_sink_job(sess_in)]: [await randomtask(sess_in.fb)] *)
Definition _sink_job {L : Files} (cfg : Config) (now_mono t_done : Q) (env : SinkEnv)
  : M UserSession unit :=
  _result <- on_fb (randomtask cfg now_mono t_done env) ;;
  ret tt.

(** ** Interleaving of coroutines

    The event loop runs one coroutine at a time and switches at [await]
    points only.  A job admitted through [run_for_user] or [run_for_sys]
    resolves its session, waits for the gate, runs under it and releases
    it; the janitor and the endpoints run in between.  A coroutine that
    closes a session is suspended in [await self.fb.close()] with
    [closed] still [False]: its close is two steps, and any other
    coroutine can run between them.  The relation admits every run of
    the service and some more (several passes of the janitor at a time):
    what holds in every state it reaches holds in the service, and the
    runs given as examples are runs of the service. *)

Inductive path := UserPath | SysPath.

Inductive phase :=
| Waiting (r : loc)      (* suspended in [async with sess.lock] *)
| Running (r : loc)      (* inside the [async with] block *)
| Finished.

Record task := mkTask { t_path : path; t_user : string; t_phase : phase }.

(** The coroutines that close sessions, where they are suspended or
    about to go on: the janitor and [delete_profile] between two
    iterations of their closing loops, with the names or targets still to
    visit, or inside [close()] of the object at [r]; [close_session]
    inside [close()]. *)
Inductive closing :=
| JanitorLoop (to_close : list string)
| JanitorClose (uname_full : string) (r : loc) (rest : list string)
| SessionClose (username_full : string) (r : loc)
| DeleteLoop (targets : list (string * loc))
| DeleteClose (uname_full : string) (r : loc) (rest : list (string * loc)).

Record System := mkSystem {
  sys_state : State;
  sys_tasks : list task;
  sys_closing : list closing
}.

(** Entering the [async with] block: the lock is taken, and on the user
    path [sess.touch()] follows. *)
Definition enter (p : path) (now : Q) (s : UserSession) : UserSession :=
  match p with
  | UserPath => touch now (set_lock true s)
  | SysPath => set_lock true s
  end.

(** Leaving it: the [finally] clause ([sess.touch()] or [pass]), then the
    lock is released. *)
Definition leave (p : path) (now : Q) (s : UserSession) : UserSession :=
  match p with
  | UserPath => set_lock false (touch now s)
  | SysPath => set_lock false s
  end.

(** What a job body leaves alone: it neither assigns [sess.lock] nor
    calls [acquire]/[release] on it, and [username_full] is set by
    [__init__] only. *)
Definition gate_frame (j j' : Run UserSession) : Prop :=
  lock (obj j') = lock (obj j) /\ username_full (obj j') = username_full (obj j).

Definition job_body {A} (m : M UserSession A) : Prop := respects gate_frame m.

Inductive step : System -> System -> Prop :=
| step_admit p username_full now st tasks cl :
    step (mkSystem st tasks cl)
         (mkSystem (get_or_create now username_full st).2
                   (tasks ++ [mkTask p username_full
                                (Waiting (get_or_create now username_full st).1)])
                   cl)
| step_acquire i p u r s now st tasks cl :
    tasks !! i = Some (mkTask p u (Waiting r)) ->
    store st !! r = Some s ->
    lock s = false ->
    step (mkSystem st tasks cl)
         (mkSystem (update r (enter p now) st) (<[i := mkTask p u (Running r)]> tasks) cl)
| step_work i p u r (A : Type) (m : M UserSession A) a st st' tasks cl :
    tasks !! i = Some (mkTask p u (Running r)) ->
    job_body m ->
    run_on r m st = Some (a, st') ->
    step (mkSystem st tasks cl) (mkSystem st' tasks cl)
| step_release i p u r now st tasks cl :
    tasks !! i = Some (mkTask p u (Running r)) ->
    step (mkSystem st tasks cl)
         (mkSystem (update r (leave p now) st) (<[i := mkTask p u Finished]> tasks) cl)
(* the janitor: first loop, then one name of [to_close] at a time *)
| step_janitor_scan sink_idle_sec now st tasks cl :
    step (mkSystem st tasks cl)
         (mkSystem (set_syslog (syslog st ++ map (fun u => EvCreateTask u)
                                               (janitor_scan sink_idle_sec now st).2) st)
                   tasks
                   (cl ++ [JanitorLoop (janitor_scan sink_idle_sec now st).1]))
| step_janitor_skip k uname_full rest a st st' tasks cl :
    cl !! k = Some (JanitorLoop (uname_full :: rest)) ->
    janitor_close_begin uname_full st = (Done a, st') ->
    step (mkSystem st tasks cl) (mkSystem st' tasks (<[k := JanitorLoop rest]> cl))
| step_janitor_close k uname_full rest r st st' tasks cl :
    cl !! k = Some (JanitorLoop (uname_full :: rest)) ->
    janitor_close_begin uname_full st = (InClose r, st') ->
    step (mkSystem st tasks cl)
         (mkSystem st' tasks (<[k := JanitorClose uname_full r rest]> cl))
| step_janitor_resume (L : Files) k uname_full r rest fb_close st tasks cl :
    cl !! k = Some (JanitorClose uname_full r rest) ->
    step (mkSystem st tasks cl)
         (mkSystem (janitor_close_end fb_close uname_full r st).2 tasks
                   (<[k := JanitorLoop
                            (match (janitor_close_end fb_close uname_full r st).1 with
                             | Ok _ => rest
                             | Raise _ => []
                             end)]> cl))
(* close_session *)
| step_close_session username_full a st st' tasks cl :
    close_session_begin username_full st = (Done a, st') ->
    step (mkSystem st tasks cl) (mkSystem st' tasks cl)
| step_close_session_close username_full r st st' tasks cl :
    close_session_begin username_full st = (InClose r, st') ->
    step (mkSystem st tasks cl)
         (mkSystem st' tasks (cl ++ [SessionClose username_full r]))
| step_close_session_resume (L : Files) k username_full r fb_close st tasks cl :
    cl !! k = Some (SessionClose username_full r) ->
    step (mkSystem st tasks cl)
         (mkSystem (close_session_end fb_close username_full r st).2 tasks
                   (delete k cl))
(* delete_profile: the targets are captured, then closed one at a time *)
| step_delete_profile username_full force st tasks cl :
    username_full <> "" ->
    any_locked st (target_sessions (to_safe_name username_full) st) && negb force
    = false ->
    step (mkSystem st tasks cl)
         (mkSystem st tasks
                   (cl ++ [DeleteLoop (target_sessions (to_safe_name username_full) st)]))
| step_delete_skip k uname_full r rest a st st' tasks cl :
    cl !! k = Some (DeleteLoop ((uname_full, r) :: rest)) ->
    delete_close_begin uname_full r st = (Done a, st') ->
    step (mkSystem st tasks cl) (mkSystem st' tasks (<[k := DeleteLoop rest]> cl))
| step_delete_close k uname_full r rest st st' tasks cl :
    cl !! k = Some (DeleteLoop ((uname_full, r) :: rest)) ->
    delete_close_begin uname_full r st = (InClose r, st') ->
    step (mkSystem st tasks cl)
         (mkSystem st' tasks (<[k := DeleteClose uname_full r rest]> cl))
| step_delete_resume (L : Files) k uname_full r rest fb_close st tasks cl :
    cl !! k = Some (DeleteClose uname_full r rest) ->
    step (mkSystem st tasks cl)
         (mkSystem (delete_close_end fb_close uname_full r st).2 tasks
                   (<[k := DeleteLoop
                            (match (delete_close_end fb_close uname_full r st).1 with
                             | Ok _ => rest
                             | Raise _ => []
                             end)]> cl))
(* the webhook endpoint and the [finally] of [_schedule] *)
| step_webhook (L : Files) now task_id username_full has_profile url st tasks cl :
    step (mkSystem st tasks cl)
         (mkSystem (scrape_posts_webhook now task_id username_full has_profile url st).2
                   tasks cl)
| step_schedule_finally captured st tasks cl :
    step (mkSystem st tasks cl) (mkSystem (_schedule_finally captured st) tasks cl).

Inductive reachable : System -> Prop :=
| reachable_init timeout :
    reachable (mkSystem (SessionManager_init timeout) [] [])
| reachable_step a b :
    reachable a -> step a b -> reachable b.

(** The jobs that hold the gate of the session object at [r]. *)
Definition holds_gate (sys : System) (i : nat) (r : loc) : Prop :=
  exists t, sys_tasks sys !! i = Some t /\ t_phase t = Running r.

(** ** Observations used in the statements *)

(** The webhook deliveries attempted in a trace, in order. *)
Fixpoint posts_of (tr : list event) : list (string * payload) :=
  match tr with
  | [] => []
  | EvHttpPost url p :: rest => (url, p) :: posts_of rest
  | _ :: rest => posts_of rest
  end.

(** How often [restart_browser] was entered in a trace. *)
Fixpoint restarts_of (tr : list event) : nat :=
  match tr with
  | [] => O
  | EvRestartBrowser :: rest => Datatypes.S (restarts_of rest)
  | _ :: rest => restarts_of rest
  end.

(** How often the agent of the sink job ran in a trace. *)
Fixpoint agent_runs_of (tr : list event) : nat :=
  match tr with
  | [] => O
  | EvAgentRun :: rest => Datatypes.S (agent_runs_of rest)
  | _ :: rest => agent_runs_of rest
  end.

(** The live session registered for a name, if any: what
    [get_or_create] would return without creating. *)
Definition live_session (username_full : string) (st : State)
  : option (loc * UserSession) :=
  match sessions_get username_full st with
  | Some (r, s) => if closed s then None else Some (r, s)
  | None => None
  end.

(** Webhook jobs submitted for a name and not finished yet. *)
Definition pending_async (username_full : string) (st : State) : Z :=
  match live_session username_full st with
  | Some (_, s) => _webhook_queue_len s
  | None => 0
  end.

(** Whether the gate of the live session of a name is held. *)
Definition gate_held (username_full : string) (st : State) : bool :=
  match live_session username_full st with
  | Some (_, s) => lock s
  | None => false
  end.

(** Every entry of the registry refers to a session object created for
    that name. *)
Definition registry_ok (st : State) : Prop :=
  forall u r, sessions st !! u = Some r ->
              exists s, store st !! r = Some s /\ username_full s = u.

(** Consecutive scrape jobs on one session object: for each job, whether
    it entered [restart_browser]; and the session afterwards. *)
Fixpoint scrape_jobs {L : Files} (cfg : Config) (envs : list ScrapeEnv) (s : UserSession)
  : list bool * UserSession :=
  match envs with
  | [] => ([], s)
  | env :: rest =>
      let '(_, j) := scrape_posts_job cfg env "task" "out.json" (mkRun s []) in
      let '(flags, s') := scrape_jobs cfg rest (obj j) in
      (Nat.ltb 0 (restarts_of (trace j)) :: flags, s')
  end.

(** ** The TikTok service (tiktok_scrap_api.py)

    Its manager has the same [get_or_create] and [run_for_user]; the
    session holds a scraper instead of [fb], [close] goes through
    [cleanup], and the janitor has a single loop. *)

Module TikTok.

Record UserSession := mkUserSession {
  username_full : string;
  username_safe : string;
  scraper : option nat;         (* the TikTokScraper object *)
  lock : bool;
  last_used : Q;
  closed : bool;
  _stop_flag : bool             (* getattr(self, '_stop_flag', False) *)
}.

Definition set_scraper (o : option nat) (s : UserSession) : UserSession :=
  {| username_full := username_full s; username_safe := username_safe s;
     scraper := o; lock := lock s; last_used := last_used s;
     closed := closed s; _stop_flag := _stop_flag s |}.

Definition set_closed (b : bool) (s : UserSession) : UserSession :=
  {| username_full := username_full s; username_safe := username_safe s;
     scraper := scraper s; lock := lock s; last_used := last_used s;
     closed := b; _stop_flag := _stop_flag s |}.

Definition set_stop_flag (b : bool) (s : UserSession) : UserSession :=
  {| username_full := username_full s; username_safe := username_safe s;
     scraper := scraper s; lock := lock s; last_used := last_used s;
     closed := closed s; _stop_flag := b |}.

(** [UserSession.cleanup]: with [force_close] the page, context,
    browser and playwright are closed first, each under a bare
    [except: pass]. *)
Definition cleanup (scraper_close : outcome) (force_close : bool)
  : M UserSession unit :=
  try_finally
    (try_except
       (s <- get ;;
        match scraper s with
        | Some inst =>
            (if force_close then log "force close of page, context, browser"
             else ret tt) ;;;
            emit (EvFbClose inst) ;;;
            await scraper_close
        | None => ret tt
        end)
       (fun e => err "Cleanup error"))
    (modify (set_scraper None)).

(** [UserSession.close] *)
Definition close (scraper_close : outcome) (force : bool) : M UserSession unit :=
  s <- get ;;
  if closed s then ret tt
  else
    modify (set_stop_flag true) ;;;
    cleanup scraper_close force ;;;
    modify (set_closed true) ;;;
    log "Session closed".

(** [close] is suspended first in [asyncio.sleep(0.5)], with
    [_stop_flag] set and [closed] still [False].  [close_begin] runs it
    up to there: [true] when it is now suspended, [false] when it has
    returned. *)
Definition close_begin : M UserSession bool :=
  s <- get ;;
  if closed s then ret false
  else modify (set_stop_flag true) ;;; ret true.

(** [close_end] resumes it after the sleep. *)
Definition close_end (scraper_close : outcome) (force : bool) : M UserSession unit :=
  cleanup scraper_close force ;;;
  modify (set_closed true) ;;;
  log "Session closed".

Record State := mkState {
  idle_timeout_sec : Z;
  sessions : gmap string loc;
  store : gmap loc UserSession;
  syslog : list event
}.

Definition run_on {A} (r : loc) (m : M UserSession A) (st : State)
  : option (res A * State) :=
  match store st !! r with
  | Some s =>
      let '(a, j) := m (mkRun s (syslog st)) in
      Some (a, mkState (idle_timeout_sec st) (sessions st)
                       (<[r := obj j]> (store st)) (trace j))
  | None => None
  end.

(** [int(x)]: truncation towards zero. *)
Definition int_of (x : Q) : Z := if Qle_bool 0 x then Qfloor x else Qceiling x.

(** Body of the loop of [janitor_loop] for one entry of the snapshot
    [list(self.sessions.items())], when no other coroutine runs while
    [close()] is suspended. *)
Definition janitor_visit (now : Q) (scraper_close : string -> outcome)
    (item : string * loc) (st : State) : res unit * State :=
  match store st !! item.2 with
  | Some s =>
      let idle_time := (now - last_used s)%Q in
      let st1 :=
        if (int_of idle_time mod 30 =? 0) && (0 <? int_of idle_time)
        then mkState (idle_timeout_sec st) (sessions st) (store st)
                     (syslog st ++ [EvLog "INFO" "[DEBUG] session idle"])
        else st in
      if negb (lock s) && Qlt_bool (inject_Z (idle_timeout_sec st)) idle_time then
        match run_on item.2
                (log "[TIMEOUT] Closing browser" ;;;
                 close (scraper_close item.1) false) st1 with
        | Some (Ok _, st2) =>
            (Ok tt, mkState (idle_timeout_sec st2) (delete item.1 (sessions st2))
                            (store st2)
                            (syslog st2 ++ [EvLog "INFO" "[TIMEOUT] Browser closed"]))
        | Some (Raise e, st2) => (Raise e, st2)
        | None => (Ok tt, st1)
        end
      else (Ok tt, st1)
  | None => (Ok tt, st)
  end.

(** The same body cut at the first suspension of [close()]: the check
    of the lock and of the idle time, the log line and [close()] up to
    its sleep. *)
Definition janitor_visit_begin (now : Q) (item : string * loc) (st : State)
  : progress unit * State :=
  match store st !! item.2 with
  | Some s =>
      let idle_time := (now - last_used s)%Q in
      let st1 :=
        if (int_of idle_time mod 30 =? 0) && (0 <? int_of idle_time)
        then mkState (idle_timeout_sec st) (sessions st) (store st)
                     (syslog st ++ [EvLog "INFO" "[DEBUG] session idle"])
        else st in
      if negb (lock s) && Qlt_bool (inject_Z (idle_timeout_sec st)) idle_time then
        match run_on item.2 (log "[TIMEOUT] Closing browser" ;;; close_begin) st1 with
        | Some (Ok true, st2) => (InClose item.2, st2)
        | Some (Ok false, st2) =>
            (Done (Ok tt),
             mkState (idle_timeout_sec st2) (delete item.1 (sessions st2))
                     (store st2)
                     (syslog st2 ++ [EvLog "INFO" "[TIMEOUT] Browser closed"]))
        | Some (Raise e, st2) => (Done (Raise e), st2)
        | None => (Done (Ok tt), st1)
        end
      else (Done (Ok tt), st1)
  | None => (Done (Ok tt), st)
  end.

(** Then, after the sleep, the rest of [close()] and
    [self.sessions.pop(username, None)]. *)
Definition janitor_visit_end (scraper_close : outcome) (item : string * loc)
    (st : State) : res unit * State :=
  match run_on item.2 (close_end scraper_close false) st with
  | Some (Ok _, st2) =>
      (Ok tt, mkState (idle_timeout_sec st2) (delete item.1 (sessions st2))
                      (store st2)
                      (syslog st2 ++ [EvLog "INFO" "[TIMEOUT] Browser closed"]))
  | Some (Raise e, st2) => (Raise e, st2)
  | None => (Ok tt, st)
  end.

Fixpoint janitor_visit_all (now : Q) (scraper_close : string -> outcome)
    (items : list (string * loc)) (st : State) : res unit * State :=
  match items with
  | [] => (Ok tt, st)
  | item :: rest =>
      match janitor_visit now scraper_close item st with
      | (Ok _, st') => janitor_visit_all now scraper_close rest st'
      | (Raise e, st') => (Raise e, st')
      end
  end.

(** One iteration of the [while] loop, when no other coroutine runs
    while it is suspended in a [close()]: the [try] block, whose
    [except Exception] logs and goes on. *)
Definition janitor_tick (now : Q) (scraper_close : string -> outcome)
    (st : State) : State :=
  match janitor_visit_all now scraper_close (map_to_list (sessions st)) st with
  | (Ok _, st') => st'
  | (Raise e, st') =>
      mkState (idle_timeout_sec st') (sessions st') (store st')
              (syslog st' ++ [EvLog "ERROR" "Janitor loop error"])
  end.

End TikTok.

(** ** Relations, invariants and example states used in the statements *)

(** A session for "alice", last used at time 5, gate free. *)
Definition alice_idle : State :=
  mkState 300 {["alice" := 0%nat]}
          {[0%nat := set_last_used 5 (UserSession_init 5 "alice")]} [].

(** A session for "alice" whose gate is held by a job. *)
Definition alice_busy : State :=
  mkState 300 {["alice" := 0%nat]}
          {[0%nat := set_lock true (set_fb (Some (FBScrape_init 1))
                                      (UserSession_init 5 "alice"))]} [].



(** Consecutive submissions for one name and one callback URL, with no
    other coroutine running in between: status and position of each. *)
Fixpoint submit_all {L : Files} (subs : list (Q * string)) (u url : string) (st : State)
  : list (string * Z) * State :=
  match subs with
  | [] => ([], st)
  | (now, task_id) :: rest =>
      match scrape_posts_webhook now task_id u true url st with
      | (Ok resp, st') =>
          let '(l, st'') := submit_all rest u url st' in
          ((wq_status resp, wq_queue_position resp) :: l, st'')
      | (Raise _, st') => ([], st')
      end
  end.

(** Every session object is still there, with the same lock flag and
    the same name. *)
Definition locks_kept (st st' : State) : Prop :=
  forall r s, store st !! r = Some s ->
              exists s', store st' !! r = Some s'
                         /\ lock s' = lock s
                         /\ username_full s' = username_full s.


(** Two jobs of different users inside their gates at the same time:
    "alice" was admitted on the user path and "bob" on the system path,
    then each took the gate of its own session. *)
Definition alice_and_bob_running : System :=
  let st1 := (get_or_create 0 "alice" (SessionManager_init 300)).2 in
  let st2 := (get_or_create 1 "bob" st1).2 in
  mkSystem (update 1%nat (enter SysPath 3) (update 0%nat (enter UserPath 2) st2))
           [mkTask UserPath "alice" (Running 0%nat);
            mkTask SysPath "bob" (Running 1%nat)]
           [].

(** The job that opens the browser of its session. *)
Definition open_browser_job (inst : nat) : M UserSession unit :=
  _fb <- ensure_fb (mkDriver (Ok tt) (Ok inst) (Ok tt)) ;;
  ret tt.

(** "alice" with a job inside the gate of her session object, which has
    opened the browser: admitted at time 0, gate taken at time 1. *)
Definition alice_job_running : State :=
  let st1 := (get_or_create 0 "alice" (SessionManager_init 300)).2 in
  let st2 := update 0%nat (enter UserPath 1) st1 in
  match run_on 0%nat (open_browser_job 1) st2 with
  | Some (_, st3) => st3
  | None => st2
  end.

(** The job has released the gate at time 5 and left the browser open;
    the janitor, at time 10000, has put "alice" on its list, has found
    her gate free at the re-check and is suspended in [close()] of her
    session object; a second job, admitted at time 10001, has taken the
    gate at time 10002. *)
Definition alice_job_during_close : System :=
  let st1 := update 0%nat (leave UserPath 5) alice_job_running in
  let st2 := (janitor_close_begin "alice" st1).2 in
  let st3 := (get_or_create 10001 "alice" st2).2 in
  mkSystem (update 0%nat (enter UserPath 10002) st3)
           [mkTask UserPath "alice" Finished;
            mkTask UserPath "alice" (Running 0%nat)]
           [JanitorClose "alice" 0%nat []].

(** Then [fb.close()] returns and the janitor goes on. *)
Definition alice_evicted_under_job : System :=
  mkSystem (janitor_close_end (Ok tt) "alice" 0%nat
              (sys_state alice_job_during_close)).2
           [mkTask UserPath "alice" Finished;
            mkTask UserPath "alice" (Running 0%nat)]
           [JanitorLoop []].

(** Two jobs of "alice" inside a gate at the same time.  While the
    first runs, [delete_profile] with [force] closes its session object
    and removes the name from the registry; the second job, a sink job,
    is admitted at time 2 to a new session object and takes its gate at
    time 3. *)
Definition alice_twice_running : System :=
  let st4 := (delete_close_begin "alice" 0%nat alice_job_running).2 in
  let st5 := (delete_close_end (Ok tt) "alice" 0%nat st4).2 in
  let st6 := (get_or_create 2 "alice" st5).2 in
  mkSystem (update 1%nat (enter SysPath 3) st6)
           [mkTask UserPath "alice" (Running 0%nat);
            mkTask SysPath "alice" (Running 1%nat)]
           [DeleteLoop []].

(** How often the scrape work was started in a trace. *)
Fixpoint scrapes_of (tr : list event) : nat :=
  match tr with
  | [] => O
  | EvScrape :: rest => Datatypes.S (scrapes_of rest)
  | _ :: rest => scrapes_of rest
  end.


(** The rest of a scrape job: the counter stays, the trace grows by
    events that are no restart. *)
Definition no_restart (j j' : Run UserSession) : Prop :=
  _scrape_job_counter (obj j') = _scrape_job_counter (obj j)
  /\ exists ext, trace j' = trace j ++ ext /\ restarts_of ext = O.

(** The same for a coroutine of the browser object. *)
Definition trace_no_restart {S} (j j' : Run S) : Prop :=
  exists ext, trace j' = trace j ++ ext /\ restarts_of ext = O.

(** The prologue: the trace grows by events that are no scrape work. *)
Definition no_scrape (j j' : Run UserSession) : Prop :=
  exists ext, trace j' = trace j ++ ext /\ scrapes_of ext = O.

(** The policy every_n with N = 3. *)
Definition every_3 : Config := mkConfig "every_n" 3 8 1800 1500.

(** Collaborators of the sink job that all work. *)
Definition sink_env_ok : SinkEnv :=
  mkSinkEnv (Ok tt) (Ok tt) true (Ok tt) (Ok tt) (Ok tt).

(** A browser object whose last sink job completed at time 1100. *)
Definition fb_warmed : FBScrape := set_sink_last_run 1100 (FBScrape_init 1).

(** The policy before_each. *)
Definition before_each : Config := mkConfig "before_each" 0 8 1800 1500.

(** An open session of "alice" with browser object 1. *)
Definition alice_open : UserSession :=
  set_fb (Some (FBScrape_init 1)) (UserSession_init 0 "alice").

(** "alice" registered with that session, last used at time 5, gate
    free. *)
Definition alice_idle_open : State :=
  mkState 300 {["alice" := 0%nat]} {[0%nat := set_last_used 5 alice_open]} [].


(** The trace grows by events that are no delivery attempt; [closed]
    stays. *)
Definition no_post (j j' : Run UserSession) : Prop :=
  closed (obj j') = closed (obj j)
  /\ exists ext, trace j' = trace j ++ ext /\ posts_of ext = [].

(** Collaborators of a scrape job that all work, with a callback
    endpoint that answers 500. *)
Definition scrape_env_ok : ScrapeEnv :=
  mkScrapeEnv (mkDriver (Ok tt) (Ok 2%nat) (Ok tt))
              (mkDriver (Ok tt) (Ok 3%nat) (Ok tt))
              (Ok tt) (Ok true) (Ok "rows") (Ok tt) (Ok tt) (Ok 500).

(** The same with a scraper that loses the session and a network that
    fails. *)
Definition scrape_env_lost : ScrapeEnv :=
  mkScrapeEnv (mkDriver (Ok tt) (Ok 2%nat) (Ok tt))
              (mkDriver (Ok tt) (Ok 3%nat) (Ok tt))
              (Ok tt) (Ok true) (Raise (Exception "Exception" "FB_SESSION_LOST"))
              (Ok tt) (Ok tt) (Raise (Exception "ConnectError" "refused")).

(** A scrape that succeeds on a disk that is full: the result cannot be
    saved. *)
Definition scrape_env_disk_full : ScrapeEnv :=
  mkScrapeEnv (mkDriver (Ok tt) (Ok 2%nat) (Ok tt))
              (mkDriver (Ok tt) (Ok 3%nat) (Ok tt))
              (Ok tt) (Ok true) (Ok "rows")
              (Raise (Exception "OSError" "No space left on device"))
              (Ok tt) (Ok 200).




(** What the work before the callback leaves alone. *)
Definition same_safe_name (j j' : Run UserSession) : Prop :=
  username_safe (obj j') = username_safe (obj j).

(** ** Further coroutines and endpoints of modify_v1.py *)

(** [SessionManager.stop], after the janitor task is cancelled: every
    session object of [list(self.sessions.values())] is closed, an
    exception of [close()] is passed over, then the dict is cleared. *)
Fixpoint stop_close_all {L : Files} (fb_close : string -> outcome)
    (items : list (string * loc)) (st : State) : State :=
  match items with
  | [] => st
  | (uname_full, r) :: rest =>
      match run_on r (close (fb_close uname_full)) st with
      | Some (_, st') => stop_close_all fb_close rest st'
      | None => stop_close_all fb_close rest st
      end
  end.

Definition stop {L : Files} (fb_close : string -> outcome) (st : State) : State :=
  let st1 := stop_close_all fb_close (map_to_list (sessions st)) st in
  let st2 := set_sessions ∅ st1 in
  set_syslog (syslog st2 ++ [EvLog "INFO" "Session janitor stopped. All sessions closed."])
             st2.

(** The [except] clauses of the endpoints around [run_for_user]: an
    [HTTPException] is passed on, any other exception is logged, recorded
    and turned into [HTTPException(500, str(e))]; an exception of
    [record_error_json] leaves the endpoint as it is. *)
Definition endpoint_except {A} {L : Files} (site : string) (out : res A * State)
  : res A * State :=
  match out with
  | (Ok a, st) => (Ok a, st)
  | (Raise (HTTPException status_code detail), st) =>
      (Raise (HTTPException status_code detail), st)
  | (Raise e, st) =>
      let st' := set_syslog (syslog st ++ [EvLog "ERROR" site; EvRecordError site e]) st in
      match fs_record_error site with
      | Ok _ => (Raise (HTTPException 500 (str_exn e)), st')
      | Raise e' => (Raise e', st')
      end
  end.

(** The collaborators of [create_profile._job]: the driver during
    [ensure_fb], [PostScrape(...)], and [scraper.ensure_login()] with the
    value of [scraper.login_state] afterwards. *)
Record LoginEnv := mkLoginEnv {
  le_ensure : Driver;
  le_new_scraper : outcome;
  le_ensure_login : res bool
}.

(** The answer of [create_profile]. *)
Record CreateProfileResponse := mkCreateProfileResponse {
  cp_task_id : string;
  cp_username_safe : string;
  cp_profile_existed : bool;
  cp_message : string
}.

(** [create_profile._job] *)
Definition create_profile_job {L : Files} (env : LoginEnv) (task_id : string)
    (existed_before : bool) : M UserSession CreateProfileResponse :=
  _fb <- ensure_fb (le_ensure env) ;;
  await (le_new_scraper env) ;;;
  login_state <- await (le_ensure_login env) ;;
  s <- get ;;
  if login_state
  then
    let msg := if existed_before then "profile exists, login checked"
               else "new profile created and logged in" in
    log msg ;;;
    ret {| cp_task_id := task_id; cp_username_safe := username_safe s;
           cp_profile_existed := existed_before; cp_message := msg |}
  else
    let msg := if existed_before then "profile exists, but login failed"
               else "new profile created, but login failed" in
    warn msg ;;;
    raise (HTTPException 401 msg).

(** [create_profile] (POST /create-profile); [None] when the gate is
    held and the request waits.  [user_dirs] is called before the [try],
    so its exception leaves the endpoint as it is. *)
Definition create_profile {L : Files} (env : LoginEnv) (t_new t_in t_out : Q)
    (task_id username_full : string) (existed_before : bool) (st : State)
  : option (res CreateProfileResponse * State) :=
  if String.eqb username_full "" then
    Some (Raise (HTTPException 400 "username must not be empty"), st)
  else
    match user_dirs (to_safe_name username_full) with
    | Raise e => Some (Raise e, st)
    | Ok _ =>
        endpoint_except "endpoint.create_profile"
          <$> run_for_user t_new t_in t_out username_full
                (create_profile_job env task_id existed_before) st
    end.

(** [scrape_posts] (POST /scrape-posts) *)
Definition scrape_posts {L : Files} (cfg : Config) (env : ScrapeEnv) (t_new t_in t_out : Q)
    (task_id output_path username_full : string) (profile_has_data : bool)
    (st : State) : option (res string * State) :=
  if String.eqb username_full "" then
    Some (Raise (HTTPException 400 "username must not be empty"), st)
  else
    match user_dirs (to_safe_name username_full) with
    | Raise e => Some (Raise e, st)
    | Ok _ =>
        if negb profile_has_data then
          Some (Raise (HTTPException 400 "profile not found"), st)
        else
          endpoint_except "endpoint.scrape_posts"
            <$> run_for_user t_new t_in t_out username_full
                  (scrape_posts_job cfg env task_id output_path) st
    end.

(** [random_scrape._job]: the sink job run on request; unlike
    [_sink_job] it opens the browser first. *)
Definition random_scrape_job {L : Files} (cfg : Config) (d : Driver) (now_mono t_done : Q)
    (env : SinkEnv) : M UserSession sink_result :=
  _fb <- ensure_fb d ;;
  on_fb (randomtask cfg now_mono t_done env).

(** [random_scrape] (POST /random-scrape) *)
Definition random_scrape {L : Files} (cfg : Config) (d : Driver) (now_mono t_done : Q)
    (env : SinkEnv) (t_new t_in t_out : Q) (username_full : string)
    (profile_has_data : bool) (st : State) : option (res sink_result * State) :=
  if String.eqb username_full "" then
    Some (Raise (HTTPException 400 "username must not be empty"), st)
  else
    match user_dirs (to_safe_name username_full) with
    | Raise e => Some (Raise e, st)
    | Ok _ =>
        if negb profile_has_data then
          Some (Raise (HTTPException 400 "profile not found"), st)
        else
          endpoint_except "endpoint.random_scrape"
            <$> run_for_user t_new t_in t_out username_full
                  (random_scrape_job cfg d now_mono t_done env) st
    end.

(** [_run_sink_for_user] and [_run_sink_bg]: the sink job goes through
    [run_for_sys]; an exception is logged and dropped. *)
Definition _run_sink_for_user {L : Files} (cfg : Config) (t_new now_mono t_done : Q)
    (env : SinkEnv) (uname : string) (st : State) : option State :=
  match run_for_sys t_new uname (_sink_job cfg now_mono t_done env) st with
  | Some (Ok _, st') => Some st'
  | Some (Raise e, st') =>
      Some (set_syslog (syslog st' ++ [EvLog "ERROR" "[Janitor->sink]"]) st')
  | None => None
  end.

(** What the page of the session's browser answers to a snapshot
    request: whether [fb._page] is set, [is_closed()], [screenshot()] and
    the resizing of the image. *)
Record SnapshotEnv := mkSnapshotEnv {
  sn_has_page : bool;
  sn_is_closed : res bool;
  sn_screenshot : outcome;
  sn_resize : outcome
}.

(** [get_snapshot] (POST /status/snapshot); [Ok tt] is the PNG
    response.  The check of [is_closed()] sits inside the [try] whose
    [except Exception] answers 500. *)
Definition get_snapshot (env : SnapshotEnv) (username_full : string) (st : State)
  : res unit :=
  if String.eqb username_full "" then
    Raise (HTTPException 400 "username must not be empty")
  else
    match sessions_get username_full st with
    | None => Raise (HTTPException 404 "no session for this user")
    | Some (_, sess) =>
        if closed sess then Raise (HTTPException 409 "session closed")
        else if negb (bool_decide (is_Some (fb sess))) || negb (sn_has_page env)
        then Raise (HTTPException 409 "browser not opened in this session")
        else
          (try_except
             (is_closed <- await (sn_is_closed env) ;;
              if is_closed then raise (HTTPException 409 "page closed")
              else await (sn_screenshot env) ;;;
                   await (sn_resize env))
             (fun e => err "snapshot error" ;;;
                       raise (HTTPException 500 (str_exn e)))
             (mkRun sess (syslog st))).1
    end.

(** ** Helpers of modify_v1.py on JSON values and on paths *)

(** A parsed JSON value; a [dict] keeps its items in insertion order. *)
#[warnings="-register-all"] Inductive json :=
| JNull
| JBool (b : bool)
| JNum (q : Q)
| JStr (s : string)
| JList (items : list json)
| JDict (items : list (string * json)).

(** [_deep_find_values] of [extract_key_values_from_latest_json] *)
Fixpoint _deep_find_values (obj : json) (key : string) : list json :=
  match obj with
  | JDict items =>
      (fix dict_loop (l : list (string * json)) : list json :=
         match l with
         | [] => []
         | (k, v) :: rest =>
             (if String.eqb k key then [v] else [])
             ++ _deep_find_values v key ++ dict_loop rest
         end) items
  | JList items =>
      (fix list_loop (l : list json) : list json :=
         match l with
         | [] => []
         | item :: rest => _deep_find_values item key ++ list_loop rest
         end) items
  | _ => []
  end.

(** The loop over the elements of a JSON array, numbered from [i]:
    [results_per_unit] and [all_values] grow together. *)
Fixpoint extract_array (items : list json) (target_key : string) (i : Z)
    (results_per_unit : list (Z * list json)) (all_values : list json)
  : list (Z * list json) * list json :=
  match items with
  | [] => (results_per_unit, all_values)
  | item :: rest =>
      let vals := _deep_find_values item target_key in
      extract_array rest target_key (i + 1)
        (results_per_unit ++ [(i, vals)]) (all_values ++ vals)
  end.

(** [extract_key_values_from_latest_json] once the file is parsed as
    one JSON value. *)
Definition extract_key_values (data : json) (target_key : string)
  : list (Z * list json) * list json :=
  match data with
  | JDict _ =>
      let vals := _deep_find_values data target_key in ([(1, vals)], vals)
  | JList items => extract_array items target_key 1 [] []
  | _ => ([], [])
  end.

(** The NDJSON mode: the lines from number [idx] on; [None] is a line
    that is blank or that [json.loads] rejects. *)
Fixpoint extract_ndjson (lines : list (option json)) (target_key : string) (idx : Z)
    (results_per_unit : list (Z * list json)) (all_values : list json)
  : list (Z * list json) * list json :=
  match lines with
  | [] => (results_per_unit, all_values)
  | None :: rest =>
      extract_ndjson rest target_key (idx + 1) results_per_unit all_values
  | Some obj :: rest =>
      let vals := _deep_find_values obj target_key in
      extract_ndjson rest target_key (idx + 1)
        (results_per_unit ++ [(idx, vals)]) (all_values ++ vals)
  end.

(** [str(rp)] in [_unique_existing_paths]: the resolved path, or the
    path itself when [resolve()] raises. *)
Definition resolved (resolve : string -> res string) (p : string) : string :=
  match resolve p with
  | Ok rp => rp
  | Raise _ => p
  end.

(** The loop of [_unique_existing_paths] with its two accumulators. *)
Fixpoint unique_loop (resolve : string -> res string) (paths : list string)
    (out : list string) (seen : gset string) : list string :=
  match paths with
  | [] => out
  | p :: rest =>
      if bool_decide (resolved resolve p ∈ seen)
      then unique_loop resolve rest out seen
      else unique_loop resolve rest (out ++ [p]) ({[resolved resolve p]} ∪ seen)
  end.

Definition _unique_existing_paths (resolve : string -> res string)
    (paths : list string) : list string :=
  unique_loop resolve paths [] ∅.

(** The inner loop of [dir_size_bytes] over the files of one directory,
    each with the outcome of [stat().st_size]: [inl total] when the
    function returns from inside the loop. *)
Fixpoint dir_size_files (files : list (res Z)) (limit_files total count : Z)
  : Z + Z * Z :=
  match files with
  | [] => inr (total, count)
  | file :: rest =>
      let total' := match file with Ok st_size => total + st_size | Raise _ => total end in
      let count' := count + 1 in
      if limit_files <=? count' then inl total'
      else dir_size_files rest limit_files total' count'
  end.

(** The outer loop over the directories of [os.walk(p)]. *)
Fixpoint dir_size_walk (walk : list (list (res Z))) (limit_files total count : Z) : Z :=
  match walk with
  | [] => total
  | files :: rest =>
      match dir_size_files files limit_files total count with
      | inl total' => total'
      | inr (total', count') => dir_size_walk rest limit_files total' count'
      end
  end.

Definition dir_size_bytes (walk : list (list (res Z))) (limit_files : Z) : Z :=
  dir_size_walk walk limit_files 0 0.

(** ** Further methods and endpoints of tiktok_scrap_api.py *)

Module TikTokApi.

(** [UserSession.__init__] *)
Definition UserSession_init (now : Q) (username_full : string) : TikTok.UserSession :=
  {| TikTok.username_full := username_full;
     TikTok.username_safe := to_safe_name username_full;
     TikTok.scraper := None;
     TikTok.lock := false;
     TikTok.last_used := now;
     TikTok.closed := false;
     TikTok._stop_flag := false |}.

(** [SessionManager.get_or_create] *)
Definition get_or_create (now : Q) (username_full : string) (st : TikTok.State)
  : loc * TikTok.State :=
  let create :=
    let r' := fresh (dom (TikTok.store st)) in
    (r', TikTok.mkState (TikTok.idle_timeout_sec st)
           (<[username_full := r']> (TikTok.sessions st))
           (<[r' := UserSession_init now username_full]> (TikTok.store st))
           (TikTok.syslog st ++ [EvLog "INFO" "Created new session"])) in
  match TikTok.sessions st !! username_full with
  | Some r =>
      match TikTok.store st !! r with
      | Some s => if TikTok.closed s then create else (r, st)
      | None => create
      end
  | None => create
  end.

(** [SessionManager.stop]: the janitor task is cancelled and every
    session is closed; the dict is left as it is and an exception of
    [close()] would end the loop. *)
Fixpoint stop_close_all (scraper_close : string -> outcome)
    (items : list (string * loc)) (st : TikTok.State) : res unit * TikTok.State :=
  match items with
  | [] => (Ok tt, st)
  | (uname, r) :: rest =>
      match TikTok.run_on r (TikTok.close (scraper_close uname) false) st with
      | Some (Ok _, st') => stop_close_all scraper_close rest st'
      | Some (Raise e, st') => (Raise e, st')
      | None => stop_close_all scraper_close rest st
      end
  end.

Definition stop (scraper_close : string -> outcome) (st : TikTok.State)
  : res unit * TikTok.State :=
  match stop_close_all scraper_close (map_to_list (TikTok.sessions st)) st with
  | (Ok _, st') =>
      (Ok tt, TikTok.mkState (TikTok.idle_timeout_sec st') (TikTok.sessions st')
                (TikTok.store st')
                (TikTok.syslog st' ++ [EvLog "INFO" "Session manager stopped"]))
  | (Raise e, st') => (Raise e, st')
  end.

(** [list(dict.fromkeys(keys))]: [d] holds the keys of the dict so far,
    in insertion order. *)
Fixpoint dict_fromkeys (keys : list string) (d : list string) : list string :=
  match keys with
  | [] => d
  | k :: rest => dict_fromkeys rest (if bool_decide (k ∈ d) then d else d ++ [k])
  end.

(** [ScrapeWebhookRequest.get_keywords] (and [ScrapeRequest.get_keywords]) *)
Definition get_keywords (keyword : option string) (keywords : option (list string))
  : list string :=
  let result :=
    match keyword with
    | Some kw => if String.eqb kw "" then [] else [kw]
    | None => []
    end in
  let result :=
    match keywords with
    | Some kws => result ++ kws
    | None => result
    end in
  dict_fromkeys result [].

(** [scrape_videos_webhook] (POST /scrape-videos-webhook), up to its
    [return]. *)
Definition scrape_videos_webhook (now : Q) (task_id username : string)
    (keyword : option string) (keywords : option (list string))
    (webhook_url : string) (st : TikTok.State)
  : res WebhookQueuedResponse * TikTok.State :=
  match get_keywords keyword keywords with
  | [] => (Raise (HTTPException 400 "Please provide 'keyword' or 'keywords'"), st)
  | _ :: _ =>
      let '(r, st1) := get_or_create now username st in
      match TikTok.store st1 !! r with
      | Some sess =>
          let running := TikTok.lock sess in
          let position := if negb running then 1 else 2 in
          (Ok {| wq_task_id := task_id;
                 wq_username_safe := to_safe_name username;
                 wq_status := if 1 <? position then "queued" else "running";
                 wq_queue_position := position |},
           TikTok.mkState (TikTok.idle_timeout_sec st1) (TikTok.sessions st1)
             (TikTok.store st1) (TikTok.syslog st1 ++ [EvCreateTask "_schedule"]))
      | None => (Raise (RuntimeError "dangling session reference"), st1)
      end
  end.

(** [close_user_session] (DELETE /sessions/{username}) *)
Definition close_user_session (scraper_close : outcome) (username : string)
    (st : TikTok.State) : res string * TikTok.State :=
  match TikTok.sessions st !! username with
  | Some r =>
      match TikTok.store st !! r with
      | Some sess =>
          if TikTok.lock sess then
            (Raise (HTTPException 400
                      "Cannot close session: User is currently performing a task."), st)
          else
            match TikTok.run_on r (TikTok.close scraper_close false) st with
            | Some (Ok _, st') =>
                (Ok "success",
                 TikTok.mkState (TikTok.idle_timeout_sec st')
                   (delete username (TikTok.sessions st')) (TikTok.store st')
                   (TikTok.syslog st' ++ [EvLog "INFO" "Manual session closure"]))
            | Some (Raise e, st') => (Raise e, st')
            | None => (Raise (RuntimeError "dangling session reference"), st)
            end
      | None => (Raise (RuntimeError "dangling session reference"), st)
      end
  | None => (Raise (HTTPException 404 "No active session found for user"), st)
  end.

(** [full_delete_profile] (POST /profiles/delete): [profile_exists] is
    [profile_path.exists()] of the folder of the safe name, [rmtree] the
    outcome of [shutil.rmtree]. *)
Definition full_delete_profile (scraper_close : outcome) (profile_exists : bool)
    (rmtree : outcome) (username : string) (st : TikTok.State)
  : res string * TikTok.State :=
  let remove_folder (st1 : TikTok.State) : res string * TikTok.State :=
    if profile_exists then
      match rmtree with
      | Ok _ =>
          (Ok "success",
           TikTok.mkState (TikTok.idle_timeout_sec st1) (TikTok.sessions st1)
             (TikTok.store st1)
             (TikTok.syslog st1 ++ [EvLog "INFO" "Full profile deletion"]))
      | Raise e =>
          (Raise (HTTPException 500 (str_exn e)),
           TikTok.mkState (TikTok.idle_timeout_sec st1) (TikTok.sessions st1)
             (TikTok.store st1)
             (TikTok.syslog st1 ++ [EvLog "ERROR" "Error deleting directory"]))
      end
    else (Ok "not_found", st1) in
  match TikTok.sessions st !! username with
  | Some r =>
      match TikTok.store st !! r with
      | Some sess =>
          if TikTok.lock sess then
            (Raise (HTTPException 400 "User is busy, cannot delete."), st)
          else
            match TikTok.run_on r (TikTok.close scraper_close false) st with
            | Some (Ok _, st') =>
                remove_folder
                  (TikTok.mkState (TikTok.idle_timeout_sec st')
                     (delete username (TikTok.sessions st')) (TikTok.store st')
                     (TikTok.syslog st'))
            | Some (Raise e, st') => (Raise e, st')
            | None => (Raise (RuntimeError "dangling session reference"), st)
            end
      | None => (Raise (RuntimeError "dangling session reference"), st)
      end
  | None => remove_folder st
  end.

End TikTokApi.
(** ** How a close ends *)

(** How [close] ends on the session [s] when [fb.close()] ends with
    [fb_close]: its handler runs only when [fb.close()] has raised, and
    then [close] raises what [record_error_json] raises. *)
Definition close_result {L : Files} (fb_close : outcome) (s : UserSession) : outcome :=
  if closed s then Ok tt
  else match fb s, fb_close with
       | Some _, Raise _ => fs_record_error "UserSession.close"
       | _, _ => Ok tt
       end.


(** Collaborators of [create_profile] that all work, with a login that
    succeeds. *)
Definition login_env_ok : LoginEnv :=
  mkLoginEnv (mkDriver (Ok tt) (Ok 2%nat) (Ok tt)) (Ok tt) (Ok true).

(** A file system on which the error log cannot be written. *)
Definition files_full : Files :=
  {| fs_user_dirs := fun _ => Ok tt;
     fs_record_error := fun _ => Raise (Exception "OSError" "No space left on device") |}.

(** ** Exceptions that reach the client *)








(** What a webhook job leaves alone: the counter of pending webhook
    jobs and the [closed] flag of its session. *)
Definition queue_frame (j j' : Run UserSession) : Prop :=
  _webhook_queue_len (obj j') = _webhook_queue_len (obj j)
  /\ closed (obj j') = closed (obj j).

(** [v] is stored under [key] somewhere inside a JSON value: in the
    dict itself, inside the value of one of its items, or inside an
    element of the list. *)
Inductive stored_under (key : string) (v : json) : json -> Prop :=
| stored_here items :
    (key, v) ∈ items -> stored_under key v (JDict items)
| stored_in_dict items k w :
    (k, w) ∈ items -> stored_under key v w -> stored_under key v (JDict items)
| stored_in_list items w :
    w ∈ items -> stored_under key v w -> stored_under key v (JList items).

(** The sizes of the files whose [stat()] returned, added up. *)
Fixpoint sum_sizes (files : list (res Z)) : Z :=
  match files with
  | [] => 0
  | Ok st_size :: rest => st_size + sum_sizes rest
  | Raise _ :: rest => sum_sizes rest
  end.

(** A TikTok session of "alice@a.com" with a scraper, its gate held by
    a running job. *)
Definition tiktok_alice_busy : TikTok.State :=
  TikTok.mkState 300 {["alice@a.com" := 0%nat]}
    {[0%nat := {| TikTok.username_full := "alice@a.com";
                  TikTok.username_safe := "alice";
                  TikTok.scraper := Some 1%nat; TikTok.lock := true;
                  TikTok.last_used := 0; TikTok.closed := false;
                  TikTok._stop_flag := false |}]} [].

(** A resolver that knows "./a" as "a" and fails on everything else. *)
Definition resolve_dot (p : string) : res string :=
  if String.eqb p "./a" then Ok "a" else Raise (Exception "OSError" p).

(** * Properties *)

(** ** Examples *)

Example to_safe_name_mail : to_safe_name "alice@example.com" = "alice".
Proof. reflexivity. Qed.

Example to_safe_name_plain : to_safe_name "alice" = "alice".
Proof. reflexivity. Qed.

Example to_safe_name_two_ats : to_safe_name "a@b@c" = "a".
Proof. reflexivity. Qed.

(** ** Record updates *)

Ltac unfold_setters :=
  unfold touch, set_fb, set_lock, set_last_used, set_closed,
    set_scrape_job_counter, set_sink_hits, set_webhook_queue_len in *.

Ltac unfold_monad :=
  unfold log, warn, err, record_error_json in *;
  unfold bind, ret, raise, try_except, try_finally, get, modify, emit, await in *.

(** ** UserSession.close *)

Lemma close_closed {L : Files} fb_close j :
  closed (obj j) = true -> close fb_close j = (Ok tt, j).
Proof.
  intros H. unfold close. unfold_monad. rewrite H. reflexivity.
Qed.

(** What [close] does to an open session, whatever [fb.close()] and the
    file system do. *)
Lemma close_run {L : Files} fb_close j :
  closed (obj j) = false ->
  exists tr, close fb_close j
             = (close_result fb_close (obj j),
                mkRun (set_closed true (set_fb None (obj j))) tr).
Proof.
  intros H. destruct j as [s tr]. simpl in H.
  unfold close, close_result. unfold_monad. simpl. rewrite H.
  destruct (fb s) as [f|]; simpl.
  - destruct fb_close as [[]|e]; simpl; [eexists; reflexivity|].
    destruct (fs_record_error "UserSession.close") as [[]|e']; simpl;
      eexists; reflexivity.
  - eexists; reflexivity.
Qed.

Lemma close_open fb_close j :
  closed (obj j) = false ->
  exists tr, close fb_close j
             = (Ok tt, mkRun (set_closed true (set_fb None (obj j))) tr).
Proof.
  intros H. destruct (close_run fb_close j H) as [tr ->]. exists tr.
  unfold close_result. rewrite H. by destruct (fb (obj j)), fb_close.
Qed.

(** [close] cut at its suspension. *)
Lemma close_split {L : Files} fb_close j :
  close fb_close j
  = (suspended <- close_begin ;;
     if suspended then close_end fb_close else ret tt) j.
Proof.
  destruct j as [s tr]. unfold close, close_begin, close_end. unfold_monad. simpl.
  destruct (closed s); [done|]. by destruct (fb s).
Qed.



(** [FBScrape.close] swallows every exception of the driver. *)
Lemma FBScrape_close_Ok {S} env (j : Run S) :
  exists tr, FBScrape_close env j = (Ok tt, mkRun (obj j) tr).
Proof.
  destruct j as [s tr]. unfold FBScrape_close. unfold_monad. simpl.
  destruct (ce_page env) as [[[]|e1]|], (ce_context env) as [[[]|e2]|],
    (ce_playwright env) as [[[]|e3]|]; simpl; eexists; reflexivity.
Qed.

Lemma tiktok_close_closed scraper_close force j :
  TikTok.closed (obj j) = true -> TikTok.close scraper_close force j = (Ok tt, j).
Proof.
  intros H. unfold TikTok.close. unfold_monad. rewrite H. reflexivity.
Qed.

Lemma tiktok_close_open scraper_close force j :
  TikTok.closed (obj j) = false ->
  exists tr, TikTok.close scraper_close force j
             = (Ok tt, mkRun (TikTok.set_closed true
                                (TikTok.set_scraper None
                                   (TikTok.set_stop_flag true (obj j)))) tr).
Proof.
  intros H. destruct j as [s tr]. simpl in H.
  unfold TikTok.close, TikTok.cleanup. unfold_monad. simpl. rewrite H. simpl.
  destruct (TikTok.scraper s) as [inst|]; simpl.
  - destruct force, scraper_close as [[]|e]; simpl; eexists; reflexivity.
  - eexists; reflexivity.
Qed.

Lemma tiktok_close_split scraper_close force j :
  TikTok.close scraper_close force j
  = (suspended <- TikTok.close_begin ;;
     if suspended then TikTok.close_end scraper_close force else ret tt) j.
Proof.
  destruct j as [s tr].
  unfold TikTok.close, TikTok.close_begin, TikTok.close_end. unfold_monad. simpl.
  by destruct (TikTok.closed s).
Qed.

(** C10.  [FBScrape.close] swallows every exception of the driver, so
    [UserSession.close] returns normally whatever the driver answers
    when the page, the context and Playwright are closed, and whatever
    the file system does: on a session that is already closed it changes
    nothing, on an open one it ends with [fb = None] and [closed = True].
    The [finally] clause does that for every way [fb.close()] can end.
    The same holds for the close of the TikTok session, with [scraper] in
    place of [fb]. *)
Theorem close_never_raises :
  (forall (env : CloseEnv) (f : FBScrape), fb_close_of env f = Ok tt)
  /\ (forall (L : Files) (env : CloseEnv) (f : FBScrape) (j : Run UserSession),
         exists j', close (fb_close_of env f) j = (Ok tt, j')
                    /\ if closed (obj j) then j' = j
                       else fb (obj j') = None /\ closed (obj j') = true)
  /\ (forall (L : Files) (fb_close : outcome) (j : Run UserSession),
         exists j', close fb_close j = (close_result fb_close (obj j), j')
                    /\ if closed (obj j) then j' = j
                       else fb (obj j') = None /\ closed (obj j') = true)
  /\ (forall (scraper_close : outcome) (force : bool) (j : Run TikTok.UserSession),
         exists j', TikTok.close scraper_close force j = (Ok tt, j')
                    /\ if TikTok.closed (obj j) then j' = j
                       else TikTok.scraper (obj j') = None
                            /\ TikTok.closed (obj j') = true).
Proof.
  assert (forall env f, fb_close_of env f = Ok tt) as Hfb.
  { intros env f. unfold fb_close_of.
    by destruct (FBScrape_close_Ok env (mkRun f [])) as [tr ->]. }
  assert (forall (L : Files) fb_close (j : Run UserSession),
             exists j', close fb_close j = (close_result fb_close (obj j), j')
                        /\ if closed (obj j) then j' = j
                           else fb (obj j') = None /\ closed (obj j') = true) as Hclose.
  { intros L fb_close j. destruct (closed (obj j)) eqn:Hc.
    - exists j. split; [|done].
      rewrite (close_closed fb_close j Hc). unfold close_result. by rewrite Hc.
    - destruct (close_run fb_close j Hc) as [tr Htr].
      eexists. split; [exact Htr | done]. }
  split; [exact Hfb|]. split; [|split; [exact Hclose|]].
  - intros L env f j. destruct (Hclose L (fb_close_of env f) j) as (j' & Hj & H).
    exists j'. split; [|exact H].
    rewrite Hj. f_equal. unfold close_result. rewrite Hfb.
    by destruct (closed (obj j)), (fb (obj j)).
  - intros scraper_close force j. destruct (TikTok.closed (obj j)) eqn:Hc.
    + exists j. split; [by apply tiktok_close_closed | done].
    + destruct (tiktok_close_open scraper_close force j Hc) as [tr Htr].
      eexists. split; [exact Htr | done].
Qed.

(** A failing [fb.close()] is recorded and swallowed. *)
Example close_swallows_error :
  close (Raise (RuntimeError "boom"))
        (mkRun (set_fb (Some (FBScrape_init 1)) (UserSession_init 0 "alice")) [])
  = (Ok tt,
     mkRun (set_closed true (UserSession_init 0 "alice"))
           [EvFbClose 1; EvLog "ERROR" "closing browser failed";
            EvRecordError "UserSession.close" (RuntimeError "boom")]).
Proof. reflexivity. Qed.

(** A driver that fails on all three resources: [fb.close()] returns,
    and so does [close]. *)
Example close_with_failing_driver :
  let env := mkCloseEnv (Some (Raise (RuntimeError "page")))
                        (Some (Raise (RuntimeError "context")))
                        (Some (Raise (RuntimeError "playwright"))) in
  FBScrape_close env (mkRun (FBScrape_init 1) [])
  = (Ok tt,
     mkRun (FBScrape_init 1)
           [EvLog "INFO" "closing the browser resources";
            EvLog "WARN" "closing the page failed";
            EvLog "WARN" "closing the context failed";
            EvLog "WARN" "stopping Playwright failed"])
  /\ close (L := files_full) (fb_close_of env (FBScrape_init 1))
           (mkRun (set_fb (Some (FBScrape_init 1)) (UserSession_init 0 "alice")) [])
     = (Ok tt,
        mkRun (set_closed true (UserSession_init 0 "alice"))
              [EvFbClose 1; EvLog "INFO" "browser closed"]).
Proof. split; reflexivity. Qed.

(** ** get_or_create *)

Lemma fresh_store_None (h : gmap loc UserSession) : h !! fresh (dom h) = None.
Proof. apply not_elem_of_dom. apply is_fresh. Qed.

Lemma get_or_create_existing now u st r s :
  live_session u st = Some (r, s) -> get_or_create now u st = (r, st).
Proof.
  unfold live_session, get_or_create.
  destruct (sessions_get u st) as [[r0 s0]|]; [|done].
  destruct (closed s0); [done|]. by intros [= -> ->].
Qed.

Lemma get_or_create_fresh now u st :
  live_session u st = None ->
  get_or_create now u st
  = (fresh (dom (store st)),
     mkState (idle_timeout_sec st)
             (<[u := fresh (dom (store st))]> (sessions st))
             (<[fresh (dom (store st)) := UserSession_init now u]> (store st))
             (syslog st)).
Proof.
  unfold live_session, get_or_create.
  destruct (sessions_get u st) as [[r0 s0]|]; [|done].
  destruct (closed s0); done.
Qed.

Lemma sessions_get_Some u st r s :
  sessions_get u st = Some (r, s) <-> sessions st !! u = Some r /\ store st !! r = Some s.
Proof.
  unfold sessions_get. split.
  - destruct (sessions st !! u) as [r0|]; [|done].
    destruct (store st !! r0) as [s0|] eqn:E; [|done].
    by intros [= <- <-].
  - intros [-> ->]. done.
Qed.

Lemma live_session_Some u st r s :
  live_session u st = Some (r, s)
  <-> sessions st !! u = Some r /\ store st !! r = Some s /\ closed s = false.
Proof.
  unfold live_session. split.
  - destruct (sessions_get u st) as [[r0 s0]|] eqn:E; [|done].
    destruct (closed s0) eqn:Ec; [done|].
    intros [= <- <-]. apply sessions_get_Some in E. tauto.
  - intros (H1 & H2 & H3).
    assert (sessions_get u st = Some (r, s)) as -> by by apply sessions_get_Some.
    by rewrite H3.
Qed.

(** After [get_or_create] the name has a live session, the one returned;
    its gate and its webhook counter are those the name had before. *)
Lemma get_or_create_result now u st :
  exists s, live_session u (get_or_create now u st).2
            = Some ((get_or_create now u st).1, s)
            /\ lock s = gate_held u st
            /\ _webhook_queue_len s = pending_async u st.
Proof.
  unfold gate_held, pending_async.
  destruct (live_session u st) as [[r s]|] eqn:E.
  - rewrite (get_or_create_existing now u st r s E). simpl. eauto.
  - rewrite (get_or_create_fresh now u st E). simpl.
    exists (UserSession_init now u). split; [|done].
    apply live_session_Some. simpl.
    by rewrite !lookup_insert_eq.
Qed.

Lemma get_or_create_idempotent now now' u st :
  get_or_create now' u (get_or_create now u st).2
  = ((get_or_create now u st).1, (get_or_create now u st).2).
Proof.
  destruct (get_or_create_result now u st) as (s & Hl & _).
  by apply get_or_create_existing with s.
Qed.

Lemma get_or_create_other now u u' st :
  u <> u' -> sessions (get_or_create now u st).2 !! u' = sessions st !! u'.
Proof.
  intros Hne. destruct (live_session u st) as [[r s]|] eqn:E.
  - by rewrite (get_or_create_existing now u st r s E).
  - rewrite (get_or_create_fresh now u st E). simpl.
    by rewrite lookup_insert_ne.
Qed.


Lemma get_or_create_registry_ok now u st :
  registry_ok st -> registry_ok (get_or_create now u st).2.
Proof.
  intros Hok. destruct (live_session u st) as [[r s]|] eqn:E.
  - by rewrite (get_or_create_existing now u st r s E).
  - rewrite (get_or_create_fresh now u st E).
    intros u' r'. simpl. destruct (decide (u = u')) as [<-|Hne].
    + rewrite lookup_insert_eq. intros [= <-].
      rewrite lookup_insert_eq. eauto.
    + rewrite lookup_insert_ne by done. intros Hu'.
      destruct (Hok u' r' Hu') as (s' & Hs' & Hn).
      exists s'. split; [|done].
      rewrite lookup_insert_ne; [done|].
      intros <-. by rewrite fresh_store_None in Hs'.
Qed.

Lemma registry_ok_init timeout : registry_ok (SessionManager_init timeout).
Proof. intros u r H. simpl in H. by rewrite lookup_empty in H. Qed.

(** C4, as the code has it.  The registry is keyed by the raw name:
    [get_or_create] returns the live session registered under exactly
    that string and changes nothing, or, when there is none or it is
    closed, registers a new session object under that string only; the
    entries of all other strings stay as they were, and a different
    string never resolves to the same session object, whatever the two
    strings normalise to. *)
Theorem get_or_create_by_raw_name (now : Q) (u : string) (st : State)
    (Hok : registry_ok st) :
  match live_session u st with
  | Some (r, s) => get_or_create now u st = (r, st)
  | None =>
      let r' := (get_or_create now u st).1 in
      let st' := (get_or_create now u st).2 in
      store st !! r' = None
      /\ store st' !! r' = Some (UserSession_init now u)
      /\ sessions st' !! u = Some r'
  end
  /\ (forall u', u <> u' ->
        sessions (get_or_create now u st).2 !! u' = sessions st !! u')
  /\ (forall u' now', u <> u' ->
        (get_or_create now' u' (get_or_create now u st).2).1
        <> (get_or_create now u st).1).
Proof.
  split; [|split].
  - destruct (live_session u st) as [[r s]|] eqn:E.
    + by apply get_or_create_existing with s.
    + rewrite (get_or_create_fresh now u st E). simpl.
      rewrite !lookup_insert_eq. split; [apply fresh_store_None | done].
  - intros u' Hne. by apply get_or_create_other.
  - intros u' now' Hne Heq.
    pose proof (get_or_create_registry_ok now u st Hok) as Hok1.
    destruct (get_or_create_result now u st) as (s1 & Hl1 & _).
    set (st1 := (get_or_create now u st).2) in *.
    set (r1 := (get_or_create now u st).1) in *.
    apply live_session_Some in Hl1 as (Hu1 & Hs1 & _).
    destruct (Hok1 u r1 Hu1) as (s1' & Hs1' & Hn1).
    destruct (live_session u' st1) as [[r2 s2]|] eqn:E2.
    + rewrite (get_or_create_existing now' u' st1 r2 s2 E2) in Heq. simpl in Heq.
      subst r2. apply live_session_Some in E2 as (Hu2 & _ & _).
      destruct (Hok1 u' r1 Hu2) as (s2' & Hs2' & Hn2). congruence.
    + rewrite (get_or_create_fresh now' u' st1 E2) in Heq. simpl in Heq.
      rewrite <- Heq in Hs1. by rewrite fresh_store_None in Hs1.
Qed.

Lemma get_or_create_by_raw_name_witness :
  registry_ok (SessionManager_init 300)
  /\ sessions (get_or_create 0 "alice@a.com" (SessionManager_init 300)).2
       !! "alice@b.com" = None.
Proof.
  split; [apply registry_ok_init|].
  destruct (get_or_create_by_raw_name 0 "alice@a.com" (SessionManager_init 300)
              (registry_ok_init 300)) as (_ & H & _).
  rewrite (H "alice@b.com"); [reflexivity | discriminate].
Defined.

(** C4 as stated fails: two names with the same safe form get two
    different live sessions. *)
Lemma same_safe_name_two_sessions :
  let a := get_or_create 0 "alice@a.com" (SessionManager_init 300) in
  let b := get_or_create 1 "alice@b.com" a.2 in
  to_safe_name "alice@a.com" = to_safe_name "alice@b.com"
  /\ a.1 <> b.1
  /\ live_session "alice@a.com" b.2 = Some (a.1, UserSession_init 0 "alice@a.com")
  /\ live_session "alice@b.com" b.2 = Some (b.1, UserSession_init 1 "alice@b.com").
Proof. vm_compute. repeat split; discriminate. Qed.

(** ** The admission layer, run without interleaving *)

Lemma update_Some r f st s :
  store st !! r = Some s ->
  update r f st = set_store (<[r := f s]> (store st)) st.
Proof. intros H. unfold update. by rewrite H. Qed.

Lemma update_lookup r f st s :
  store st !! r = Some s -> store (update r f st) !! r = Some (f s).
Proof.
  intros H. rewrite (update_Some r f st s H). simpl. apply lookup_insert_eq.
Qed.

Lemma update_syslog r f st : syslog (update r f st) = syslog st.
Proof. unfold update. by destruct (store st !! r). Qed.

Lemma run_on_Some {A} r (m : M UserSession A) st s :
  store st !! r = Some s ->
  run_on r m st
  = Some ((m (mkRun s (syslog st))).1,
          set_syslog (trace (m (mkRun s (syslog st))).2)
            (set_store (<[r := obj (m (mkRun s (syslog st))).2]> (store st)) st)).
Proof.
  intros H. unfold run_on. rewrite H.
  by destruct (m (mkRun s (syslog st))) as [a j].
Qed.

(** C7, as the code has it.  When the gate of the name is free, a job
    admitted through [run_for_user] runs on the session with [last_used]
    set to the clock at acquisition, and the session is left with
    [last_used] set to the clock at release, whether the job returned or
    raised; a job admitted through [run_for_sys] takes and releases the
    same gate but [last_used] is not written: the job starts with the old
    value and the session keeps whatever the job left. *)
Theorem touch_on_user_path_only {A} (t_new t_in t_out : Q) (u : string)
    (job : M UserSession A) (st : State) :
  gate_held u st = false ->
  let r := (get_or_create t_new u st).1 in
  let st1 := (get_or_create t_new u st).2 in
  exists s0,
    store st1 !! r = Some s0
    /\ (exists s_in st',
          last_used s_in = t_in /\ lock s_in = true
          /\ run_for_user t_new t_in t_out u job st
             = Some ((job (mkRun s_in (syslog st1))).1, st')
          /\ exists s_out,
               store st' !! r = Some s_out
               /\ last_used s_out = t_out /\ lock s_out = false)
    /\ (exists s_in st',
          last_used s_in = last_used s0 /\ lock s_in = true
          /\ run_for_sys t_new u job st
             = Some ((job (mkRun s_in (syslog st1))).1, st')
          /\ exists s_out,
               store st' !! r = Some s_out
               /\ last_used s_out = last_used (obj (job (mkRun s_in (syslog st1))).2)
               /\ lock s_out = false).
Proof.
  intros Hfree r st1.
  destruct (get_or_create_result t_new u st) as (s0 & Hl & Hlock & _).
  fold r st1 in Hl. rewrite Hfree in Hlock.
  apply live_session_Some in Hl as (_ & Hs0 & _).
  exists s0. split; [done|]. split.
  - exists (touch t_in (set_lock true s0)).
    unfold run_for_user.
    destruct (get_or_create t_new u st) as [r' st1'] eqn:E.
    subst r st1. simpl in *. rewrite Hs0, Hlock.
    pose proof (update_lookup r' (set_lock true) st1' s0 Hs0) as H2.
    pose proof (update_lookup r' (touch t_in) _ _ H2) as H3.
    rewrite (run_on_Some r' job _ _ H3).
    rewrite !update_syslog.
    set (out := job (mkRun (touch t_in (set_lock true s0)) (syslog st1'))).
    eexists. split; [done|]. split; [done|]. split; [reflexivity|].
    eexists. split.
    + erewrite update_lookup; [reflexivity|].
      erewrite update_lookup; [reflexivity|].
      simpl. apply lookup_insert_eq.
    + done.
  - exists (set_lock true s0).
    unfold run_for_sys.
    destruct (get_or_create t_new u st) as [r' st1'] eqn:E.
    subst r st1. simpl in *. rewrite Hs0, Hlock.
    pose proof (update_lookup r' (set_lock true) st1' s0 Hs0) as H2.
    rewrite (run_on_Some r' job _ _ H2).
    rewrite !update_syslog.
    eexists. split; [done|]. split; [done|]. split; [reflexivity|].
    eexists. split.
    + erewrite update_lookup; [reflexivity|].
      simpl. apply lookup_insert_eq.
    + done.
Qed.

Lemma touch_on_user_path_only_witness :
  gate_held "alice" alice_idle = false
  /\ exists s0, store (get_or_create 100 "alice" alice_idle).2
                  !! (get_or_create 100 "alice" alice_idle).1 = Some s0.
Proof.
  split; [reflexivity|].
  destruct (touch_on_user_path_only (A := unit) 100 101 102 "alice" (ret tt)
              alice_idle eq_refl) as (s0 & H & _).
  by exists s0.
Defined.

(** C7 as stated fails on the system path: a job admitted at time 100
    through [run_for_sys] leaves [last_used] at 5. *)
Lemma run_for_sys_keeps_last_used :
  exists st' s,
    run_for_sys 100 "alice" (ret tt) alice_idle = Some (Ok tt, st')
    /\ live_session "alice" st' = Some (0%nat, s)
    /\ last_used s = 5%Q
    /\ (last_used s < 100)%Q.
Proof.
  eexists. eexists. split; [vm_compute; reflexivity|].
  split; [vm_compute; reflexivity|]. split; [reflexivity|reflexivity].
Qed.

(** The same job through [run_for_user] leaves the time of release. *)
Example run_for_user_touches :
  exists st' s,
    run_for_user 100 101 102 "alice" (ret tt) alice_idle = Some (Ok tt, st')
    /\ live_session "alice" st' = Some (0%nat, s)
    /\ last_used s = 102%Q.
Proof.
  eexists. eexists. split; [vm_compute; reflexivity|].
  split; [vm_compute; reflexivity|]. reflexivity.
Qed.

(** ** Closing on request *)

(** C9.  A [close_session] request for a name whose session gate is held
    is answered with [HTTPException(400)]; the manager, the session object
    and the trace are left exactly as they were, so the session is neither
    closed nor removed and nothing is scheduled. *)
Theorem close_session_busy (fb_close : outcome) (u : string) (st : State)
    (r : loc) (s : UserSession) :
  sessions st !! u = Some r ->
  store st !! r = Some s ->
  lock s = true ->
  exists detail,
    close_session fb_close u st = (Raise (HTTPException 400 detail), st).
Proof.
  intros Hu Hr Hl. unfold close_session.
  assert (sessions_get u st = Some (r, s)) as -> by by apply sessions_get_Some.
  rewrite Hl. eauto.
Qed.

(** The same request on a free gate closes and removes the session. *)
Lemma close_session_free fb_close u st r s :
  sessions st !! u = Some r ->
  store st !! r = Some s ->
  lock s = false ->
  closed s = false ->
  exists msg st',
    close_session fb_close u st = (Ok msg, st')
    /\ sessions st' !! u = None
    /\ store st' !! r = Some (set_closed true (set_fb None s)).
Proof.
  intros Hu Hr Hl Hc. unfold close_session.
  assert (sessions_get u st = Some (r, s)) as -> by by apply sessions_get_Some.
  rewrite Hl, (run_on_Some r _ st s Hr).
  destruct (close_open fb_close (mkRun s (syslog st)) Hc) as [tr ->]. simpl.
  do 2 eexists. split; [reflexivity|]. simpl.
  split; [apply lookup_delete_eq | apply lookup_insert_eq].
Qed.

Lemma close_session_busy_witness :
  exists detail,
    close_session (Ok tt) "alice" alice_busy
    = (Raise (HTTPException 400 detail), alice_busy).
Proof.
  apply (close_session_busy (Ok tt) "alice" alice_busy 0%nat
           (set_lock true (set_fb (Some (FBScrape_init 1))
                             (UserSession_init 5 "alice"))));
    reflexivity.
Defined.

(** [delete_profile] without [force] refuses in the same way. *)
Lemma delete_profile_busy {L : Files} fb_close u st :
  any_locked st (target_sessions (to_safe_name u) st) = true ->
  delete_profile fb_close u false st = (Ok (400, 0), st).
Proof.
  intros H. unfold delete_profile. rewrite H. by destruct (String.eqb u "").
Qed.

Example delete_profile_busy_alice :
  delete_profile (fun _ => Ok tt) "alice@example.com" false alice_busy
  = (Ok (400, 0), alice_busy).
Proof. reflexivity. Qed.

(** ** The janitor never touches a session whose gate is held *)






Lemma tiktok_run_on_Some {A} r (m : M TikTok.UserSession A) st s :
  TikTok.store st !! r = Some s ->
  TikTok.run_on r m st
  = Some ((m (mkRun s (TikTok.syslog st))).1,
          TikTok.mkState (TikTok.idle_timeout_sec st) (TikTok.sessions st)
            (<[r := obj (m (mkRun s (TikTok.syslog st))).2]> (TikTok.store st))
            (trace (m (mkRun s (TikTok.syslog st))).2)).
Proof.
  intros H. unfold TikTok.run_on. rewrite H.
  by destruct (m (mkRun s (TikTok.syslog st))) as [a j].
Qed.




(** Without interleaving, a visit of the TikTok janitor is its two
    halves one after the other. *)
Lemma tiktok_janitor_visit_split now sc item st :
  TikTok.janitor_visit now sc item st
  = match TikTok.janitor_visit_begin now item st with
    | (InClose r, st1) => TikTok.janitor_visit_end (sc item.1) item st1
    | (Done a, st1) => (a, st1)
    end.
Proof.
  unfold TikTok.janitor_visit, TikTok.janitor_visit_begin, TikTok.janitor_visit_end.
  destruct (TikTok.store st !! item.2) as [s|] eqn:Hr; [|done].
  match goal with
  | |- context [if ?c then ?a else st] => set (st1 := if c then a else st)
  end.
  assert (TikTok.store st1 !! item.2 = Some s) as Hr1.
  { subst st1. by destruct (_ && _). }
  clearbody st1.
  destruct (negb (TikTok.lock s) && _); [|done].
  rewrite !(tiktok_run_on_Some item.2 _ st1 s Hr1).
  unfold TikTok.close, TikTok.close_begin, TikTok.close_end, TikTok.cleanup.
  unfold_monad. simpl.
  destruct (TikTok.closed s) eqn:Hc; simpl; [done|].
  unfold TikTok.run_on. simpl. rewrite lookup_insert_eq. simpl.
  destruct (TikTok.scraper s) as [inst|], (sc item.1) as [[]|e]; simpl;
    by rewrite insert_insert_eq.
Qed.


(** The first loop never selects a session whose gate is held, unless it
    is already closed. *)
Lemma janitor_scan_selects sink_idle_sec now st u :
  u ∈ (janitor_scan sink_idle_sec now st).1 ->
  exists r s, sessions st !! u = Some r /\ store st !! r = Some s
              /\ (closed s = true \/ lock s = false).
Proof.
  unfold janitor_scan. simpl. intros H.
  apply list_elem_of_In, in_concat in H as (l & Hl & Hu).
  apply in_map_iff in Hl as ([evict spawn] & <- & Hl).
  apply in_map_iff in Hl as ([u' r] & Heq & Hin).
  apply list_elem_of_In, elem_of_map_to_list in Hin. simpl in Hu.
  unfold janitor_scan_one in Heq. simpl in Heq.
  destruct (store st !! r) as [s|] eqn:Es.
  - destruct (closed s) eqn:Ec.
    + injection Heq as <- _. destruct Hu as [<-|[]].
      exists r, s. auto.
    + injection Heq as <- _.
      destruct (Qlt_bool _ _ && negb (lock s)) eqn:Ee; [|by destruct Hu].
      destruct Hu as [<-|[]].
      apply andb_true_iff in Ee as [_ Hl]. apply negb_true_iff in Hl.
      exists r, s. auto.
  - injection Heq as <- _. by destruct Hu.
Qed.



(** At the same clock reading the janitor does evict the session when
    its gate is free: idle for 9995 s with a timeout of 300 s. *)
Example janitor_evicts_free_session :
  let st' := (janitor_tick 1500 10000 (fun _ => Ok tt) alice_idle).2 in
  sessions st' !! "alice" = None
  /\ store st' !! 0%nat
     = Some (set_closed true (set_last_used 5 (UserSession_init 5 "alice"))).
Proof. vm_compute. split; reflexivity. Qed.

(** The busy session is past the timeout as well, and stays. *)
Example janitor_keeps_busy_session :
  (janitor_tick 1500 10000 (fun _ => Ok tt) alice_busy).2 = alice_busy.
Proof. vm_compute. reflexivity. Qed.

(** ** Queue position of a webhook submission *)

(** What the endpoint computes: the counter of the session, plus one if
    its gate is held, plus one. *)
Lemma scrape_posts_webhook_accepts now task_id u url st :
  u <> "" -> url <> "" ->
  exists st',
    scrape_posts_webhook now task_id u true url st
    = (Ok {| wq_task_id := task_id;
             wq_username_safe := to_safe_name u;
             wq_status :=
               if 1 <? pending_async u st + (if gate_held u st then 1 else 0) + 1
               then "queued" else "running";
             wq_queue_position :=
               pending_async u st + (if gate_held u st then 1 else 0) + 1 |}, st')
    /\ pending_async u st' = pending_async u st + 1
    /\ gate_held u st' = gate_held u st.
Proof.
  intros Hu Hurl. unfold scrape_posts_webhook.
  apply String.eqb_neq in Hu, Hurl. rewrite Hu, Hurl. simpl.
  destruct (get_or_create_result now u st) as (s0 & Hl & Hlock & Hq).
  rewrite (surjective_pairing (get_or_create now u st)).
  rewrite get_or_create_idempotent.
  set (r := (get_or_create now u st).1) in *.
  set (st1 := (get_or_create now u st).2) in *.
  apply live_session_Some in Hl as (Hr & Hs0 & Hc).
  rewrite Hs0. cbv zeta. rewrite <- Hlock, <- Hq.
  eexists. split; [reflexivity|].
  unfold pending_async at 1, gate_held at 1.
  set (st4 := set_syslog _ _).
  assert (live_session u st4
          = Some (r, set_webhook_queue_len (_webhook_queue_len s0 + 1) s0)) as ->.
  { apply live_session_Some. subst st4. simpl.
    rewrite (update_Some r _ st1 s0 Hs0). simpl.
    rewrite lookup_insert_eq. done. }
  done.
Qed.

(** C3, as the code has it.  An accepted submission answers at once and
    raises the counter of pending webhook jobs by one.  With the gate of
    the session free, the position is the number of pending webhook jobs
    plus 1, and the status is "running" exactly when none is pending,
    "queued" otherwise.  With the gate held and no webhook job pending
    (a foreground or sink job is running), the holder counts: position 2,
    "queued".  Three submissions handled before any of them takes the
    gate, on a name with a free gate and nothing pending, get 1 running,
    2 queued, 3 queued. *)
Theorem webhook_queue_position (now : Q) (task_id u url : string) (st : State) :
  u <> "" -> url <> "" -> 0 <= pending_async u st ->
  (exists resp st',
      scrape_posts_webhook now task_id u true url st = (Ok resp, st')
      /\ pending_async u st' = pending_async u st + 1
      /\ (gate_held u st = false ->
          wq_queue_position resp = pending_async u st + 1
          /\ (wq_status resp = "running" <-> pending_async u st = 0)
          /\ (wq_status resp = "queued" <-> 0 < pending_async u st))
      /\ (gate_held u st = true -> pending_async u st = 0 ->
          wq_queue_position resp = 2 /\ wq_status resp = "queued"))
  /\ (gate_held u st = false -> pending_async u st = 0 ->
      forall now2 task_id2 now3 task_id3,
        (submit_all [(now, task_id); (now2, task_id2); (now3, task_id3)] u url st).1
        = [("running", 1); ("queued", 2); ("queued", 3)]).
Proof.
  intros Hu Hurl Hq. split.
  - destruct (scrape_posts_webhook_accepts now task_id u url st Hu Hurl)
      as (st' & -> & Hp & Hg).
    eexists _, st'. split; [reflexivity|]. split; [done|]. simpl. split.
    + intros ->. split; [lia|].
      destruct (1 <? pending_async u st + 0 + 1) eqn:E.
      * apply Z.ltb_lt in E. split; split; (done || lia).
      * apply Z.ltb_ge in E. split; split; (done || lia).
    + intros -> ->. done.
  - intros Hg H0 now2 task_id2 now3 task_id3. simpl.
    destruct (scrape_posts_webhook_accepts now task_id u url st Hu Hurl)
      as (st1 & -> & Hp1 & Hg1).
    destruct (scrape_posts_webhook_accepts now2 task_id2 u url st1 Hu Hurl)
      as (st2 & -> & Hp2 & Hg2).
    destruct (scrape_posts_webhook_accepts now3 task_id3 u url st2 Hu Hurl)
      as (st3 & -> & Hp3 & Hg3).
    simpl. rewrite Hg2, Hg1, Hg, Hp2, Hp1, H0. reflexivity.
Qed.

Lemma webhook_queue_position_witness :
  "alice" <> "" /\ "http://cb" <> "" /\ 0 <= pending_async "alice" alice_idle
  /\ (submit_all [(6%Q, "t1"); (7%Q, "t2"); (8%Q, "t3")] "alice" "http://cb"
        alice_idle).1
     = [("running", 1); ("queued", 2); ("queued", 3)].
Proof.
  split; [discriminate|]. split; [discriminate|]. split; [vm_compute; discriminate|].
  apply (proj2 (webhook_queue_position 6 "t1" "alice" "http://cb" alice_idle
                  ltac:(discriminate) ltac:(discriminate)
                  ltac:(vm_compute; discriminate)));
    reflexivity.
Defined.

(** C3 as stated fails: with no webhook job pending and the gate held by
    a foreground job, the answer is position 2, "queued", not 1. *)
Lemma webhook_position_counts_gate_holder :
  pending_async "alice" alice_busy = 0
  /\ exists st',
       scrape_posts_webhook 6 "t1" "alice" true "http://cb" alice_busy
       = (Ok {| wq_task_id := "t1"; wq_username_safe := "alice";
                wq_status := "queued"; wq_queue_position := 2 |}, st').
Proof. split; [reflexivity|]. eexists. vm_compute. reflexivity. Qed.

(** ** Frame reasoning for coroutines *)

Section Respects.
Context {S : Type} (R : relation (Run S)) `{!PreOrder R}.

Lemma respects_ret {A} (a : A) : respects R (ret a).
Proof. intros j. simpl. reflexivity. Qed.

Lemma respects_raise {A} (e : exn) : respects R (raise (A := A) e).
Proof. intros j. simpl. reflexivity. Qed.

Lemma respects_await {A} (o : res A) : respects R (await o).
Proof. intros j. simpl. reflexivity. Qed.

Lemma respects_get : respects R get.
Proof. intros j. simpl. reflexivity. Qed.

Lemma respects_modify (f : S -> S) :
  (forall j, R j (mkRun (f (obj j)) (trace j))) -> respects R (modify f).
Proof. intros H j. apply H. Qed.

Lemma respects_emit (e : event) :
  (forall j, R j (mkRun (obj j) (trace j ++ [e]))) -> respects R (emit e).
Proof. intros H j. apply H. Qed.

Lemma respects_bind {A B} (m : M S A) (k : A -> M S B) :
  respects R m -> (forall a, respects R (k a)) -> respects R (bind m k).
Proof.
  intros Hm Hk j. unfold bind. specialize (Hm j).
  destruct (m j) as [[a|e] j']; simpl in *.
  - etrans; [exact Hm | apply Hk].
  - exact Hm.
Qed.

Lemma respects_try_except {A} (m : M S A) (h : exn -> M S A) :
  respects R m -> (forall e, respects R (h e)) -> respects R (try_except m h).
Proof.
  intros Hm Hh j. unfold try_except. specialize (Hm j).
  destruct (m j) as [[a|e] j']; simpl in *.
  - exact Hm.
  - etrans; [exact Hm | apply Hh].
Qed.

Lemma respects_try_finally {A} (m : M S A) (f : M S unit) :
  respects R m -> respects R f -> respects R (try_finally m f).
Proof.
  intros Hm Hf j. unfold try_finally. specialize (Hm j).
  destruct (m j) as [r j']. specialize (Hf j').
  destruct (f j') as [[[]|e] j'']; simpl in *; by etrans.
Qed.

End Respects.

(** Decompose a goal [respects R m] along the structure of [m]; the
    goals left are those of [modify] and [emit], and of the coroutines
    called. *)
Ltac respects_step :=
  lazymatch goal with
  | |- respects _ (bind _ _) =>
      apply respects_bind; try (typeclasses eauto); [ | intros ?]
  | |- respects _ (try_except _ _) =>
      apply respects_try_except; try (typeclasses eauto); [ | intros ?]
  | |- respects _ (try_finally _ _) =>
      apply respects_try_finally; try (typeclasses eauto)
  | |- respects _ (ret _) => apply respects_ret; typeclasses eauto
  | |- respects _ (raise _) => apply respects_raise; typeclasses eauto
  | |- respects _ (await _) => apply respects_await; typeclasses eauto
  | |- respects _ get => apply respects_get; typeclasses eauto
  | |- respects _ (modify _) => apply respects_modify; intros ?
  | |- respects _ (emit _) => apply respects_emit; intros ?
  | |- respects _ (log _) => apply respects_emit; intros ?
  | |- respects _ (warn _) => apply respects_emit; intros ?
  | |- respects _ (err _) => apply respects_emit; intros ?
  | |- respects _ (record_error_json _ _) => unfold record_error_json
  | |- respects _ (if ?c then _ else _) => destruct c
  | |- respects _ (match ?x with _ => _ end) => destruct x
  end.

(** *** The gate frame: job bodies leave the lock alone *)

#[local] Instance gate_frame_preorder : PreOrder gate_frame.
Proof.
  split.
  - intros j. by split.
  - intros a b c [? ?] [? ?]. split; congruence.
Qed.

Ltac gate_frame_tac := repeat respects_step; try done; try (by split).

Lemma open_fb_job_body d : job_body (open_fb d).
Proof. unfold job_body, open_fb. gate_frame_tac. Qed.

Lemma ensure_fb_job_body {L : Files} d : job_body (ensure_fb d).
Proof.
  pose proof (open_fb_job_body d).
  unfold job_body, ensure_fb in *. gate_frame_tac.
Qed.

Lemma restart_browser_job_body {L : Files} d : job_body (restart_browser d).
Proof.
  pose proof (open_fb_job_body d).
  unfold job_body, restart_browser in *. gate_frame_tac.
Qed.

Lemma close_job_body {L : Files} o : job_body (close o).
Proof. unfold job_body, close. gate_frame_tac. Qed.

Lemma rechrome_job_body {L : Files} cfg d : job_body (rechrome cfg d).
Proof.
  pose proof (restart_browser_job_body d).
  unfold job_body, rechrome in *. gate_frame_tac.
Qed.

Lemma sink_trigger_job_body cfg : job_body (sink_trigger cfg).
Proof. unfold job_body, sink_trigger. gate_frame_tac. Qed.

Lemma _post_webhook_job_body url p o : job_body (_post_webhook url p o).
Proof. unfold job_body, _post_webhook. gate_frame_tac. Qed.

Lemma scrape_posts_job_body {L : Files} cfg env task_id out :
  job_body (scrape_posts_job cfg env task_id out).
Proof.
  pose proof (rechrome_job_body cfg (se_restart env)).
  pose proof (ensure_fb_job_body (se_ensure env)).
  pose proof (sink_trigger_job_body cfg).
  unfold job_body, scrape_posts_job in *. gate_frame_tac.
Qed.

Lemma _bg_job_body {L : Files} cfg env task_id out url safe :
  job_body (_bg_job cfg env task_id out url safe).
Proof.
  pose proof (rechrome_job_body cfg (se_restart env)).
  pose proof (ensure_fb_job_body (se_ensure env)).
  pose proof (sink_trigger_job_body cfg).
  pose proof _post_webhook_job_body.
  unfold job_body, _bg_job in *. gate_frame_tac.
Qed.

Lemma on_fb_job_body {A} (m : M FBScrape A) : job_body (on_fb m).
Proof.
  intros j. unfold on_fb. destruct (fb (obj j)) as [f|]; [|done].
  by destruct (m (mkRun f (trace j))) as [a j'].
Qed.

Lemma _sink_job_body {L : Files} cfg now t_done env : job_body (_sink_job cfg now t_done env).
Proof.
  pose proof (on_fb_job_body (randomtask cfg now t_done env)).
  unfold job_body, _sink_job in *. gate_frame_tac.
Qed.

(** ** Mutual exclusion on the session gate *)

#[local] Instance locks_kept_preorder : PreOrder locks_kept.
Proof.
  split.
  - intros st r s H. eauto.
  - intros a b c Hab Hbc r s H.
    destruct (Hab r s H) as (s' & H' & E' & U').
    destruct (Hbc r s' H') as (s'' & H'' & E'' & U'').
    exists s''. split; [done|]. split; congruence.
Qed.



Lemma run_on_locks_kept {A} r (m : M UserSession A) st a st' :
  job_body m -> run_on r m st = Some (a, st') -> locks_kept st st'.
Proof.
  intros Hm Hrun r' s' H. unfold run_on in Hrun.
  destruct (store st !! r) as [s|] eqn:E; [|done].
  specialize (Hm (mkRun s (syslog st))).
  destruct (m (mkRun s (syslog st))) as [a' j]. simpl in Hm.
  injection Hrun as <- <-. simpl.
  destruct (decide (r = r')) as [<-|Hne].
  - rewrite lookup_insert_eq. exists (obj j). split; [done|].
    rewrite E in H. injection H as <-. exact Hm.
  - rewrite lookup_insert_ne by done. eauto.
Qed.

Lemma set_sessions_locks_kept m st : locks_kept st (set_sessions m st).
Proof. intros r s H. eauto. Qed.

Lemma set_syslog_locks_kept tr st : locks_kept st (set_syslog tr st).
Proof. intros r s H. eauto. Qed.

Lemma close_begin_job_body : job_body close_begin.
Proof. unfold job_body, close_begin. gate_frame_tac. Qed.

Lemma close_end_job_body {L : Files} o : job_body (close_end o).
Proof. unfold job_body, close_end. gate_frame_tac. Qed.

Lemma log_then_job_body {A} what (m : M UserSession A) :
  job_body m -> job_body (log what ;;; m).
Proof.
  intros Hm. apply (respects_bind gate_frame); [by intros j | by intros _].
Qed.

(** What the coroutines that close a session do to the other session
    objects: they run [close()] on one object, drop a name from the
    registry and write to the log. *)
Ltac closer_locks_kept :=
  repeat first
    [ reflexivity
    | match goal with
      | E : run_on ?r ?m ?st = Some (_, ?st') |- locks_kept ?st ?st' =>
          eapply run_on_locks_kept; [|exact E];
          first [ apply close_begin_job_body | apply close_end_job_body
                | apply close_job_body
                | apply log_then_job_body;
                  first [apply close_begin_job_body | apply close_job_body] ]
      | |- locks_kept _ (set_sessions _ _) =>
          etrans; [|apply set_sessions_locks_kept]
      | |- locks_kept _ (set_syslog _ _) =>
          etrans; [|apply set_syslog_locks_kept]
      end ].


Lemma janitor_close_begin_locks_kept u st :
  locks_kept st (janitor_close_begin u st).2.
Proof.
  unfold janitor_close_begin.
  destruct (sessions_get u st) as [[r s]|]; [|reflexivity].
  destruct (negb (closed s) && negb (lock s)); [|reflexivity].
  destruct (run_on r _ st) as [[[[|]|e] st']|] eqn:E; simpl; closer_locks_kept.
Qed.

Lemma janitor_close_end_locks_kept {L : Files} fb_close u r st :
  locks_kept st (janitor_close_end fb_close u r st).2.
Proof.
  unfold janitor_close_end.
  destruct (run_on r _ st) as [[[[]|e] st']|] eqn:E; simpl; closer_locks_kept.
Qed.

Lemma close_session_begin_locks_kept u st :
  locks_kept st (close_session_begin u st).2.
Proof.
  unfold close_session_begin.
  destruct (sessions_get u st) as [[r s]|]; [|reflexivity].
  destruct (lock s); [reflexivity|].
  destruct (run_on r _ st) as [[[[|]|e] st']|] eqn:E; simpl; closer_locks_kept.
Qed.

Lemma close_session_end_locks_kept {L : Files} fb_close u r st :
  locks_kept st (close_session_end fb_close u r st).2.
Proof.
  unfold close_session_end.
  destruct (run_on r _ st) as [[[[]|e] st']|] eqn:E; simpl; closer_locks_kept.
Qed.

Lemma delete_close_begin_locks_kept u r st :
  locks_kept st (delete_close_begin u r st).2.
Proof.
  unfold delete_close_begin.
  destruct (run_on r _ st) as [[[[|]|e] st']|] eqn:E; simpl; closer_locks_kept.
Qed.

Lemma delete_close_end_locks_kept {L : Files} fb_close u r st :
  locks_kept st (delete_close_end fb_close u r st).2.
Proof.
  unfold delete_close_end, delete_profile_except.
  destruct (run_on r _ st) as [[[[]|e] st']|] eqn:E; simpl; closer_locks_kept.
Qed.







(** ** The admission functions are runs of the interleaving semantics *)







Lemma alice_and_bob_running_reachable : reachable alice_and_bob_running.
Proof.
  pose (st1 := (get_or_create 0 "alice" (SessionManager_init 300)).2).
  pose (st2 := (get_or_create 1 "bob" st1).2).
  pose (ta := mkTask UserPath "alice" (Waiting 0%nat)).
  pose (tb := mkTask SysPath "bob" (Waiting 1%nat)).
  assert (reachable (mkSystem st1 ([] ++ [ta]) [])) as H1.
  { eapply reachable_step; [apply (reachable_init 300)|].
    apply (step_admit UserPath "alice" 0%Q). }
  assert (reachable (mkSystem st2 (([] ++ [ta]) ++ [tb]) [])) as H2.
  { eapply reachable_step; [exact H1|].
    apply (step_admit SysPath "bob" 1%Q). }
  assert (reachable (mkSystem (update 0%nat (enter UserPath 2) st2)
                       (<[0%nat := mkTask UserPath "alice" (Running 0%nat)]>
                          (([] ++ [ta]) ++ [tb])) [])) as H3.
  { eapply reachable_step; [exact H2|].
    eapply (step_acquire 0%nat UserPath "alice" 0%nat _ 2%Q);
      [reflexivity | vm_compute; reflexivity | reflexivity]. }
  eapply reachable_step; [exact H3|].
  eapply (step_acquire 1%nat SysPath "bob" 1%nat _ 3%Q);
    [reflexivity | vm_compute; reflexivity | reflexivity].
Qed.

Lemma open_browser_job_body inst : job_body (open_browser_job inst).
Proof.
  pose proof (ensure_fb_job_body (mkDriver (Ok tt) (Ok inst) (Ok tt))).
  unfold job_body, open_browser_job in *. gate_frame_tac.
Qed.

(** The run that leads to [alice_twice_running]. *)
Lemma alice_twice_running_reachable : reachable alice_twice_running.
Proof.
  pose (st1 := (get_or_create 0 "alice" (SessionManager_init 300)).2).
  pose (st2 := update 0%nat (enter UserPath 1) st1).
  pose (st4 := (delete_close_begin "alice" 0%nat alice_job_running).2).
  pose (st5 := (delete_close_end (Ok tt) "alice" 0%nat st4).2).
  pose (st6 := (get_or_create 2 "alice" st5).2).
  pose (t0 := mkTask UserPath "alice" (Waiting 0%nat)).
  pose (t1 := mkTask UserPath "alice" (Running 0%nat)).
  pose (t2 := mkTask SysPath "alice" (Waiting 1%nat)).
  assert (reachable (mkSystem st1 ([] ++ [t0]) [])) as H1.
  { eapply reachable_step; [apply (reachable_init 300)|].
    apply (step_admit UserPath "alice" 0%Q). }
  assert (reachable (mkSystem st2 (<[0%nat := t1]> ([] ++ [t0])) [])) as H2.
  { eapply reachable_step; [exact H1|].
    eapply (step_acquire 0%nat UserPath "alice" 0%nat _ 1%Q);
      [reflexivity | vm_compute; reflexivity | reflexivity]. }
  assert (reachable (mkSystem alice_job_running [t1] [])) as H3.
  { eapply reachable_step; [exact H2|].
    eapply (step_work 0%nat UserPath "alice" 0%nat unit (open_browser_job 1) (Ok tt));
      [reflexivity | apply open_browser_job_body | vm_compute; reflexivity]. }
  assert (reachable (mkSystem alice_job_running [t1]
                       ([] ++ [DeleteLoop (target_sessions (to_safe_name "alice")
                                             alice_job_running)]))) as H4.
  { eapply reachable_step; [exact H3|].
    apply (step_delete_profile "alice" true alice_job_running [t1] []);
      [discriminate | by rewrite andb_false_r]. }
  assert (reachable (mkSystem st4 [t1]
                       (<[0%nat := DeleteClose "alice" 0%nat []]>
                          ([] ++ [DeleteLoop (target_sessions (to_safe_name "alice")
                                                alice_job_running)])))) as H5.
  { eapply reachable_step; [exact H4|].
    eapply (step_delete_close 0%nat "alice" 0%nat []);
      [vm_compute; reflexivity | vm_compute; reflexivity]. }
  assert (reachable (mkSystem st5 [t1] [DeleteLoop []])) as H6.
  { eapply reachable_step; [exact H5|].
    apply (step_delete_resume files_ok 0%nat "alice" 0%nat [] (Ok tt) st4 [t1]).
    reflexivity. }
  assert (reachable (mkSystem st6 ([t1] ++ [t2]) [DeleteLoop []])) as H7.
  { eapply reachable_step; [exact H6|].
    apply (step_admit SysPath "alice" 2%Q st5 [t1]). }
  eapply reachable_step; [exact H7|].
  eapply (step_acquire 1%nat SysPath "alice" 1%nat _ 3%Q);
    [reflexivity | vm_compute; reflexivity | reflexivity].
Qed.

(** C1 as stated fails: two jobs of "alice", one admitted through
    [run_for_user] and one through [run_for_sys], are inside a gate at the
    same time, each holding the lock of its own session object. *)
Lemma two_jobs_of_one_identity :
  reachable alice_twice_running
  /\ sys_tasks alice_twice_running
     = [mkTask UserPath "alice" (Running 0%nat);
        mkTask SysPath "alice" (Running 1%nat)]
  /\ holds_gate alice_twice_running 0%nat 0%nat
  /\ holds_gate alice_twice_running 1%nat 1%nat
  /\ (lock <$> store (sys_state alice_twice_running) !! 0%nat) = Some true
  /\ (lock <$> store (sys_state alice_twice_running) !! 1%nat) = Some true.
Proof.
  split; [apply alice_twice_running_reachable|]. split; [reflexivity|].
  split; [by eexists|]. split; [by eexists|].
  split; vm_compute; reflexivity.
Qed.



(** ** A job that takes the gate while the janitor closes its session *)

(** The run that leads to [alice_job_during_close]. *)
Lemma alice_job_during_close_reachable : reachable alice_job_during_close.
Proof.
  pose (st1 := (get_or_create 0 "alice" (SessionManager_init 300)).2).
  pose (st2 := update 0%nat (enter UserPath 1) st1).
  pose (st3 := update 0%nat (leave UserPath 5) alice_job_running).
  pose (st4 := (janitor_close_begin "alice" st3).2).
  pose (st5 := (get_or_create 10001 "alice" st4).2).
  pose (t0 := mkTask UserPath "alice" (Waiting 0%nat)).
  pose (t1 := mkTask UserPath "alice" (Running 0%nat)).
  pose (t2 := mkTask UserPath "alice" Finished).
  assert (reachable (mkSystem st1 ([] ++ [t0]) [])) as H1.
  { eapply reachable_step; [apply (reachable_init 300)|].
    apply (step_admit UserPath "alice" 0%Q). }
  assert (reachable (mkSystem st2 (<[0%nat := t1]> ([] ++ [t0])) [])) as H2.
  { eapply reachable_step; [exact H1|].
    eapply (step_acquire 0%nat UserPath "alice" 0%nat _ 1%Q);
      [reflexivity | vm_compute; reflexivity | reflexivity]. }
  assert (reachable (mkSystem alice_job_running [t1] [])) as H3.
  { eapply reachable_step; [exact H2|].
    eapply (step_work 0%nat UserPath "alice" 0%nat unit (open_browser_job 1) (Ok tt));
      [reflexivity | apply open_browser_job_body | vm_compute; reflexivity]. }
  assert (reachable (mkSystem st3 (<[0%nat := t2]> [t1]) [])) as H4.
  { eapply reachable_step; [exact H3|].
    eapply (step_release 0%nat UserPath "alice" 0%nat 5%Q). reflexivity. }
  assert (reachable (mkSystem st3 [t2]
                       ([] ++ [JanitorLoop (janitor_scan 1500 10000 st3).1]))) as H5.
  { eapply reachable_step; [exact H4|].
    pose proof (step_janitor_scan 1500 10000%Q st3 [t2] []) as Hs.
    assert ((janitor_scan 1500 10000 st3).2 = []) as E by (vm_compute; reflexivity).
    rewrite E in Hs. simpl in Hs. rewrite app_nil_r in Hs.
    destruct st3. exact Hs. }
  assert (reachable (mkSystem st4 [t2]
                       (<[0%nat := JanitorClose "alice" 0%nat []]>
                          ([] ++ [JanitorLoop (janitor_scan 1500 10000 st3).1])))) as H6.
  { eapply reachable_step; [exact H5|].
    eapply (step_janitor_close 0%nat "alice" []);
      [vm_compute; reflexivity | vm_compute; reflexivity]. }
  assert (reachable (mkSystem st5 ([t2] ++ [t0]) [JanitorClose "alice" 0%nat []])) as H7.
  { eapply reachable_step; [exact H6|].
    apply (step_admit UserPath "alice" 10001%Q st4 [t2]). }
  eapply reachable_step; [exact H7|].
  eapply (step_acquire 1%nat UserPath "alice" 0%nat _ 10002%Q);
    [reflexivity | vm_compute; reflexivity | reflexivity].
Qed.

(** C2 as stated fails: the gate of "alice" is held by a job that was
    admitted while the janitor was suspended in [close()] of her session;
    when [fb.close()] returns, the janitor marks the session closed,
    drops its browser and removes it from the registry, under the job. *)
Lemma janitor_closes_session_under_job :
  let seen (s : UserSession) := (lock s, closed s, fb s) in
  reachable alice_job_during_close
  /\ holds_gate alice_job_during_close 1%nat 0%nat
  /\ sessions (sys_state alice_job_during_close) !! "alice" = Some 0%nat
  /\ (seen <$> store (sys_state alice_job_during_close) !! 0%nat)
     = Some (true, false, Some (FBScrape_init 1))
  /\ step alice_job_during_close alice_evicted_under_job
  /\ sessions (sys_state alice_evicted_under_job) !! "alice" = None
  /\ (seen <$> store (sys_state alice_evicted_under_job) !! 0%nat)
     = Some (true, true, None).
Proof.
  intros seen.
  split; [apply alice_job_during_close_reachable|].
  split; [by eexists|].
  split; [vm_compute; reflexivity|]. split; [vm_compute; reflexivity|].
  split.
  { apply (step_janitor_resume files_ok 0%nat "alice" 0%nat [] (Ok tt)
             (sys_state alice_job_during_close)
             [mkTask UserPath "alice" Finished;
              mkTask UserPath "alice" (Running 0%nat)]
             [JanitorClose "alice" 0%nat []]). reflexivity. }
  split; vm_compute; reflexivity.
Qed.

(** ** The re-chrome policy *)

Lemma restarts_of_app a b : restarts_of (a ++ b) = (restarts_of a + restarts_of b)%nat.
Proof.
  induction a as [|e a IH]; simpl; [done|].
  destruct e; simpl; by rewrite ?IH.
Qed.

Lemma scrapes_of_app a b : scrapes_of (a ++ b) = (scrapes_of a + scrapes_of b)%nat.
Proof.
  induction a as [|e a IH]; simpl; [done|].
  destruct e; simpl; by rewrite ?IH.
Qed.


#[local] Instance no_restart_preorder : PreOrder no_restart.
Proof.
  split.
  - intros j. split; [done|]. exists []. by rewrite app_nil_r.
  - intros a b c [Hab (e1 & H1 & Z1)] [Hbc (e2 & H2 & Z2)].
    split; [congruence|]. exists (e1 ++ e2).
    rewrite H2, H1, app_assoc, restarts_of_app, Z1, Z2. done.
Qed.

#[local] Instance no_scrape_preorder : PreOrder no_scrape.
Proof.
  split.
  - intros j. exists []. by rewrite app_nil_r.
  - intros a b c (e1 & H1 & Z1) (e2 & H2 & Z2).
    exists (e1 ++ e2).
    rewrite H2, H1, app_assoc, scrapes_of_app, Z1, Z2. done.
Qed.

Ltac no_restart_tac :=
  repeat respects_step; try done;
  try (split; [done | eexists [_]; by split]);
  try (split; [done | exists []; by rewrite app_nil_r]).

Ltac no_scrape_tac :=
  repeat respects_step; try done;
  try (eexists [_]; by split);
  try (exists []; by rewrite app_nil_r).

Lemma open_fb_no_restart d : respects no_restart (open_fb d).
Proof. unfold open_fb. no_restart_tac. Qed.

Lemma ensure_fb_no_restart {L : Files} d : respects no_restart (ensure_fb d).
Proof. pose proof (open_fb_no_restart d). unfold ensure_fb. no_restart_tac. Qed.


Lemma open_fb_no_scrape d : respects no_scrape (open_fb d).
Proof. unfold open_fb. no_scrape_tac. Qed.







(** Without a restart the prologue only counts. *)
Lemma rechrome_no_restart {L : Files} cfg d j :
  need_restart cfg (_scrape_job_counter (obj j) + 1) = false ->
  rechrome cfg d j
  = (Ok tt, mkRun (set_scrape_job_counter (_scrape_job_counter (obj j) + 1) (obj j))
                  (trace j)).
Proof.
  intros H. destruct j as [s tr].
  unfold rechrome, try_except, bind, get, modify. simpl in *. by rewrite H.
Qed.







Lemma create_profile_job_no_restart {L : Files} env task_id existed :
  respects no_restart (create_profile_job env task_id existed).
Proof.
  pose proof (ensure_fb_no_restart (le_ensure env)).
  unfold create_profile_job. no_restart_tac.
Qed.

#[local] Instance trace_no_restart_preorder {S} : PreOrder (@trace_no_restart S).
Proof.
  split.
  - intros j. exists []. by rewrite app_nil_r.
  - intros a b c (e1 & H1 & Z1) (e2 & H2 & Z2).
    exists (e1 ++ e2).
    rewrite H2, H1, app_assoc, restarts_of_app, Z1, Z2. done.
Qed.








(** Nine jobs whose collaborators all fail still restart on 3, 6, 9. *)
Example nine_failing_jobs :
  let boom := Exception "Error" "boom" in
  let drv := mkDriver (Raise boom) (Raise boom) (Raise boom) in
  let env := mkScrapeEnv drv drv (Raise boom) (Raise boom) (Raise boom)
                         (Raise boom) (Raise boom) (Raise boom) in
  (scrape_jobs every_3 (replicate 9 env) (UserSession_init 0 "alice")).1
  = [false; false; true; false; false; true; false; false; true].
Proof. vm_compute. reflexivity. Qed.

(** C5 as stated fails: under "before_each" the policy asks for a
    restart before every job, and the foreground job of [create_profile],
    admitted through [run_for_user] on a session with an open browser,
    returns with the same browser, the count at 0 and no restart; so does
    the job of [random_scrape]. *)
Lemma create_profile_never_recycles :
  let seen (st : State) :=
    (restarts_of (syslog st),
     (fun s => (_scrape_job_counter s, fb_instance <$> fb s)) <$> store st !! 0%nat) in
  need_restart before_each 1 = true
  /\ (exists resp st',
        create_profile login_env_ok 6 7 8 "t1" "alice" true alice_idle_open
        = Some (Ok resp, st')
        /\ seen st' = (O, Some (0, Some 1%nat)))
  /\ (exists result st',
        random_scrape before_each (mkDriver (Ok tt) (Ok 2%nat) (Ok tt)) 1200 1300
          sink_env_ok 6 7 8 "alice" true alice_idle_open
        = Some (Ok result, st')
        /\ seen st' = (O, Some (0, Some 1%nat))).
Proof.
  intros seen. split; [reflexivity|]. split.
  - eexists _, _. split; vm_compute; reflexivity.
  - eexists _, _. split; vm_compute; reflexivity.
Qed.

(** The scrape job on the same session does restart it. *)
Example scrape_posts_recycles :
  exists a st',
    scrape_posts before_each scrape_env_ok 6 7 8 "t1" "out.json" "alice" true
      alice_idle_open
    = Some (a, st')
    /\ restarts_of (syslog st') = 1%nat
    /\ ((fun s => (_scrape_job_counter s, fb_instance <$> fb s)) <$> store st' !! 0%nat)
       = Some (1, Some 2%nat).
Proof. eexists _, _. split; [|split]; vm_compute; reflexivity. Qed.

(** ** Cooldown of the sink job *)

Lemma Qlt_bool_true a b : Qlt_bool a b = true <-> (a < b)%Q.
Proof.
  unfold Qlt_bool. rewrite negb_true_iff. split.
  - intros H. apply Qnot_le_lt. intros Hle. apply Qle_bool_iff in Hle. congruence.
  - intros H. destruct (Qle_bool b a) eqn:E; [|done].
    apply Qle_bool_iff in E. apply Qlt_not_le in H. done.
Qed.

Lemma Qlt_bool_false a b : Qlt_bool a b = false <-> (b <= a)%Q.
Proof.
  unfold Qlt_bool. rewrite negb_false_iff. apply Qle_bool_iff.
Qed.

Lemma round_half_even_near (x : Q) :
  (Qabs (inject_Z (round_half_even x) - x) <= 1 # 2)%Q.
Proof.
  pose proof (Qfloor_le x) as Hlo.
  pose proof (Qlt_floor x) as Hhi.
  unfold round_half_even.
  set (f := Qfloor x) in *.
  rewrite inject_Z_plus in Hhi. change (inject_Z 1) with 1%Q in Hhi.
  destruct (Qlt_bool (x - inject_Z f) (1 # 2)) eqn:E1;
    [apply Qlt_bool_true in E1 | apply Qlt_bool_false in E1].
  - apply Qabs_case; intros _; lra.
  - destruct (Qlt_bool (1 # 2) (x - inject_Z f)) eqn:E2;
      [apply Qlt_bool_true in E2 | apply Qlt_bool_false in E2].
    + rewrite inject_Z_plus. change (inject_Z 1) with 1%Q.
      apply Qabs_case; intros _; lra.
    + destruct (Z.even f); rewrite ?inject_Z_plus; change (inject_Z 1) with 1%Q;
        apply Qabs_case; intros _; lra.
Qed.

(** [round(x, 1)] is within 0.05 of [x]. *)
Lemma round1_near (x : Q) : (Qabs (round1 x - x) <= 1 # 20)%Q.
Proof.
  pose proof (round_half_even_near (x * 10)) as H.
  unfold round1. set (n := inject_Z (round_half_even (x * 10))) in *.
  apply Qabs_Qle_condition in H as [H1 H2].
  apply Qabs_Qle_condition.
  unfold Qdiv. change (/ 10)%Q with (1 # 10)%Q.
  split; lra.
Qed.

Example round1_ties_to_even : round1 (1 # 4) = (2 # 10)%Q /\ round1 (7 # 20) = (4 # 10)%Q.
Proof. split; reflexivity. Qed.

Lemma agent_runs_of_app a b :
  agent_runs_of (a ++ b) = (agent_runs_of a + agent_runs_of b)%nat.
Proof.
  induction a as [|e a IH]; simpl; [done|].
  destruct e; simpl; by rewrite ?IH.
Qed.

(** Inside the cooldown window the job returns the remaining time and
    does nothing else but set and clear [_sink_running]. *)
Lemma randomtask_in_cooldown cfg now t_done env f tr :
  sk_lazy_init env = Ok tt ->
  ~ (_sink_last_run f == 0)%Q ->
  (now - _sink_last_run f < inject_Z (SINK_COOLDOWN_SEC cfg))%Q ->
  exists tr',
    randomtask cfg now t_done env (mkRun f tr)
    = (Ok (SinkCooldown
             (round1 (inject_Z (SINK_COOLDOWN_SEC cfg) - (now - _sink_last_run f)))),
       mkRun (set_sink_running false f) tr')
    /\ agent_runs_of tr' = agent_runs_of tr.
Proof.
  intros Hinit Hne Hlt.
  assert (Qeq_bool (_sink_last_run f) 0 = false) as E0.
  { destruct (Qeq_bool (_sink_last_run f) 0) eqn:E; [|done].
    apply Qeq_bool_iff in E. done. }
  assert (Qlt_bool (now - _sink_last_run f) (inject_Z (SINK_COOLDOWN_SEC cfg)) = true)
    as E1 by by apply Qlt_bool_true.
  assert (max0 (inject_Z (SINK_COOLDOWN_SEC cfg) - (now - _sink_last_run f))
          = (inject_Z (SINK_COOLDOWN_SEC cfg) - (now - _sink_last_run f))%Q) as Em.
  { unfold max0.
    assert (Qlt_bool 0 (inject_Z (SINK_COOLDOWN_SEC cfg) - (now - _sink_last_run f))
            = true) as -> by (apply Qlt_bool_true; lra).
    done. }
  unfold randomtask. unfold_monad.
  unfold set_sink_running, set_sink_last_run, set_sink_count.
  rewrite Hinit. cbn.
  destruct (_sink_running f); cbn; rewrite E0, E1; cbn; rewrite Em;
    destruct (sk_goto_finally env) as [[]|e]; cbn;
    eexists; (split; [reflexivity|]); cbn; rewrite ?agent_runs_of_app; cbn; lia.
Qed.

(** Outside the window the job goes on to the agent: it never answers
    "cooldown", and when a browser PID is found and the agent and
    [save_json] return, it completes and stores the time of completion. *)
Lemma randomtask_past_cooldown cfg now t_done env f tr :
  sk_lazy_init env = Ok tt ->
  (_sink_last_run f == 0)%Q
  \/ (inject_Z (SINK_COOLDOWN_SEC cfg) <= now - _sink_last_run f)%Q ->
  let out := randomtask cfg now t_done env (mkRun f tr) in
  (forall q, out.1 <> Ok (SinkCooldown q))
  /\ (sk_browser_pid env = true -> sk_agent env = Ok tt -> sk_save_json env = Ok tt ->
      out.1 = Ok SinkDone
      /\ agent_runs_of (trace out.2) = Datatypes.S (agent_runs_of tr)
      /\ _sink_last_run (obj out.2) = t_done).
Proof.
  intros Hinit Hout.
  assert (negb (Qeq_bool (_sink_last_run f) 0)
          && Qlt_bool (now - _sink_last_run f) (inject_Z (SINK_COOLDOWN_SEC cfg))
          = false) as Ec.
  { destruct Hout as [H0|Hle].
    - apply Qeq_bool_iff in H0. by rewrite H0.
    - apply Qlt_bool_false in Hle. rewrite Hle. apply andb_false_r. }
  unfold randomtask. unfold_monad.
  unfold set_sink_running, set_sink_last_run, set_sink_count.
  rewrite Hinit. cbn.
  destruct (_sink_running f); cbn; rewrite Ec; cbn;
    destruct (sk_goto env) as [[]|e1], (sk_browser_pid env),
      (sk_agent env) as [[]|e2], (sk_save_json env) as [[]|e3],
      (sk_goto_finally env) as [[]|e4]; cbn;
    (split; [intros q; discriminate|]);
    intros Hp Ha Hs; try discriminate;
    (split; [reflexivity|]); (split; [|reflexivity]);
    rewrite ?agent_runs_of_app; cbn; lia.
Qed.

(** C6, as the code has it.  The time of the last completed sink job is
    kept on the browser object.  An attempt on the same browser object
    within [SINK_COOLDOWN_SEC] of that time does not run the agent and
    returns "cooldown" with [next_in_sec] the cooldown minus the time
    elapsed, rounded to one decimal (within 0.05); an attempt when no sink
    job completed on this browser object, or none within the window, goes
    past the check.  A session answers through its current browser
    object. *)
Theorem sink_cooldown (cfg : Config) (now t_done : Q) (env : SinkEnv)
    (f : FBScrape) (tr : list event) :
  sk_lazy_init env = Ok tt ->
  let cooldown := inject_Z (SINK_COOLDOWN_SEC cfg) in
  let elapsed := (now - _sink_last_run f)%Q in
  let out := randomtask cfg now t_done env (mkRun f tr) in
  (~ (_sink_last_run f == 0)%Q -> (elapsed < cooldown)%Q ->
   out.1 = Ok (SinkCooldown (round1 (cooldown - elapsed)))
   /\ (Qabs (round1 (cooldown - elapsed) - (cooldown - elapsed)) <= 1 # 20)%Q
   /\ agent_runs_of (trace out.2) = agent_runs_of tr
   /\ _sink_last_run (obj out.2) = _sink_last_run f)
  /\ ((_sink_last_run f == 0)%Q \/ (cooldown <= elapsed)%Q ->
      (forall q, out.1 <> Ok (SinkCooldown q))
      /\ (sk_browser_pid env = true -> sk_agent env = Ok tt ->
          sk_save_json env = Ok tt ->
          out.1 = Ok SinkDone
          /\ agent_runs_of (trace out.2) = Datatypes.S (agent_runs_of tr)
          /\ _sink_last_run (obj out.2) = t_done))
  /\ (forall s tr', fb s = Some f ->
        (on_fb (randomtask cfg now t_done env) (mkRun s tr')).1
        = (randomtask cfg now t_done env (mkRun f tr')).1).
Proof.
  intros Hinit cooldown elapsed out. split; [|split].
  - intros Hne Hlt.
    destruct (randomtask_in_cooldown cfg now t_done env f tr Hinit Hne Hlt)
      as (tr' & E & Hruns).
    subst out. rewrite E. simpl.
    split; [done|]. split; [apply round1_near|]. done.
  - intros Hout. by apply randomtask_past_cooldown.
  - intros s tr' Hf. unfold on_fb. simpl. rewrite Hf.
    by destruct (randomtask cfg now t_done env (mkRun f tr')) as [a j].
Qed.

Lemma sink_cooldown_witness :
  sk_lazy_init sink_env_ok = Ok tt
  /\ ~ (_sink_last_run fb_warmed == 0)%Q
  /\ (1200 - _sink_last_run fb_warmed < inject_Z (SINK_COOLDOWN_SEC every_3))%Q
  /\ exists next_in_sec,
       (randomtask every_3 1200 1300 sink_env_ok (mkRun fb_warmed [])).1
       = Ok (SinkCooldown next_in_sec)
       /\ (next_in_sec == 1700)%Q.
Proof.
  split; [reflexivity|]. split; [discriminate|]. split; [reflexivity|].
  destruct (proj1 (sink_cooldown every_3 1200 1300 sink_env_ok fb_warmed []
                     eq_refl)
              ltac:(discriminate) ltac:(reflexivity)) as [H _].
  eexists. split; [exact H | reflexivity].
Defined.

(** C6 as stated fails for the session: a sink job completes at time
    1100, the next scrape job restarts the browser (policy before_each),
    and a sink attempt at time 1200, 100 s after the completion with a
    cooldown of 1800 s, runs the agent again. *)
Lemma cooldown_lost_on_restart :
  let first := on_fb (randomtask before_each 1000 1100 sink_env_ok)
                     (mkRun alice_open []) in
  let scrape := rechrome before_each (mkDriver (Ok tt) (Ok 2%nat) (Ok tt)) first.2 in
  let second := on_fb (randomtask before_each 1200 1300 sink_env_ok) scrape.2 in
  first.1 = Ok SinkDone
  /\ (_sink_last_run <$> fb (obj first.2)) = Some 1100%Q
  /\ scrape.1 = Ok tt
  /\ (1200 - 1100 < inject_Z (SINK_COOLDOWN_SEC before_each))%Q
  /\ second.1 = Ok SinkDone
  /\ agent_runs_of (trace second.2) = 2%nat.
Proof. vm_compute. repeat split. Qed.

(** ** Delivery of the webhook callback *)

Lemma posts_of_app a b : posts_of (a ++ b) = posts_of a ++ posts_of b.
Proof.
  induction a as [|e a IH]; simpl; [done|].
  destruct e; simpl; by rewrite ?IH.
Qed.

#[local] Instance no_post_preorder : PreOrder no_post.
Proof.
  split.
  - intros j. split; [done|]. exists []. by rewrite app_nil_r.
  - intros a b c [Hab (e1 & H1 & Z1)] [Hbc (e2 & H2 & Z2)].
    split; [congruence|]. exists (e1 ++ e2).
    rewrite H2, H1, app_assoc, posts_of_app, Z1, Z2. done.
Qed.









#[local] Instance same_safe_name_preorder : PreOrder same_safe_name.
Proof.
  split.
  - by intros j.
  - intros a b c Hab Hbc. unfold same_safe_name in *. congruence.
Qed.














(** C8 as stated fails: the scrape succeeds, the result cannot be saved
    and the error log cannot be written, all for want of space on the
    disk; the accepted job raises and no delivery attempt is made. *)
Lemma webhook_never_delivered :
  exists j',
    _bg_job (L := files_full) every_3 scrape_env_disk_full "t1" "out.json"
            "http://cb" "alice" (mkRun alice_open [])
    = (Raise (Exception "OSError" "No space left on device"), j')
    /\ scrapes_of (trace j') = 1%nat
    /\ posts_of (trace j') = [].
Proof. eexists. split; [vm_compute; reflexivity|]. split; reflexivity. Qed.

(** A successful job whose callback is answered with 500: one ok:true
    delivery, the status logged, nothing after it. *)
Example webhook_success_non_2xx :
  trace (_bg_job every_3 scrape_env_ok "t1" "out.json" "http://cb" "alice"
                 (mkRun alice_open [])).2
  = [EvScrape; EvSaveJson "out.json"; EvLog "INFO" "result saved";
     EvHttpPost "http://cb" (PayloadOk "t1" "alice" "out.json");
     EvLogStatus "http://cb" 500].
Proof. vm_compute. reflexivity. Qed.

(** A job that loses the session, with the network down: one ok:false
    delivery attempt and a warning. *)
Example webhook_failure_network_down :
  trace (_bg_job every_3 scrape_env_lost "t1" "out.json" "http://cb" "alice"
                 (mkRun alice_open [])).2
  = [EvScrape;
     EvHttpPost "http://cb"
       (PayloadError "t1" "alice" "session lost during the job");
     EvLog "WARN" "sending the webhook failed"].
Proof. vm_compute. reflexivity. Qed.

(** ** The registry stays well formed *)

Lemma registry_ok_frame st st' :
  registry_ok st -> locks_kept st st' ->
  (forall u r, sessions st' !! u = Some r -> sessions st !! u = Some r) ->
  registry_ok st'.
Proof.
  intros Hok Hk Hsub u r Hu.
  destruct (Hok u r (Hsub u r Hu)) as (s & Hs & Hn).
  destruct (Hk r s Hs) as (s' & Hs' & _ & Hn').
  exists s'. split; [done | congruence].
Qed.

Lemma run_on_sessions {A} r (m : M UserSession A) st a st' :
  run_on r m st = Some (a, st') -> sessions st' = sessions st.
Proof.
  unfold run_on. destruct (store st !! r) as [s|]; [|done].
  destruct (m (mkRun s (syslog st))) as [a' j]. by intros [= <- <-].
Qed.

Lemma update_sessions r f st : sessions (update r f st) = sessions st.
Proof. unfold update. by destruct (store st !! r). Qed.

(** The coroutines that close a session only take names out of the
    registry. *)
Ltac closer_sessions E :=
  simpl; try done;
  rewrite ?(run_on_sessions _ _ _ _ _ E); try done;
  let H := fresh in intros H; apply lookup_delete_Some in H; tauto.


Lemma janitor_close_begin_sessions u st u' r :
  sessions (janitor_close_begin u st).2 !! u' = Some r ->
  sessions st !! u' = Some r.
Proof.
  unfold janitor_close_begin.
  destruct (sessions_get u st) as [[r0 s0]|]; [|done].
  destruct (negb (closed s0) && negb (lock s0)); [|done].
  destruct (run_on r0 _ st) as [[[[|]|e] st']|] eqn:E; closer_sessions E.
Qed.

Lemma janitor_close_end_sessions {L : Files} fb_close u r0 st u' r :
  sessions (janitor_close_end fb_close u r0 st).2 !! u' = Some r ->
  sessions st !! u' = Some r.
Proof.
  unfold janitor_close_end.
  destruct (run_on r0 _ st) as [[[[]|e] st']|] eqn:E; closer_sessions E.
Qed.

Lemma close_session_begin_sessions u st u' r :
  sessions (close_session_begin u st).2 !! u' = Some r ->
  sessions st !! u' = Some r.
Proof.
  unfold close_session_begin.
  destruct (sessions_get u st) as [[r0 s0]|]; [|done].
  destruct (lock s0); [done|].
  destruct (run_on r0 _ st) as [[[[|]|e] st']|] eqn:E; closer_sessions E.
Qed.

Lemma close_session_end_sessions {L : Files} fb_close u r0 st u' r :
  sessions (close_session_end fb_close u r0 st).2 !! u' = Some r ->
  sessions st !! u' = Some r.
Proof.
  unfold close_session_end.
  destruct (run_on r0 _ st) as [[[[]|e] st']|] eqn:E; closer_sessions E.
Qed.

Lemma delete_close_begin_sessions u r0 st u' r :
  sessions (delete_close_begin u r0 st).2 !! u' = Some r ->
  sessions st !! u' = Some r.
Proof.
  unfold delete_close_begin.
  destruct (run_on r0 _ st) as [[[[|]|e] st']|] eqn:E; closer_sessions E.
Qed.

Lemma delete_close_end_sessions {L : Files} fb_close u r0 st u' r :
  sessions (delete_close_end fb_close u r0 st).2 !! u' = Some r ->
  sessions st !! u' = Some r.
Proof.
  unfold delete_close_end, delete_profile_except.
  destruct (run_on r0 _ st) as [[[[]|e] st']|] eqn:E; closer_sessions E.
Qed.

Lemma update_registry_ok r f st :
  (forall s, username_full (f s) = username_full s) ->
  registry_ok st -> registry_ok (update r f st).
Proof.
  intros Hf Hok u r' Hu. rewrite update_sessions in Hu.
  destruct (Hok u r' Hu) as (s & Hs & Hn). unfold update.
  destruct (store st !! r) as [s0|] eqn:E; [|eauto]. simpl.
  destruct (decide (r = r')) as [<-|Hne].
  - rewrite lookup_insert_eq. exists (f s0). split; [done|].
    rewrite E in Hs. injection Hs as <-. by rewrite Hf.
  - rewrite lookup_insert_ne by done. eauto.
Qed.

Lemma scrape_posts_webhook_registry_ok {L : Files} now task_id u has_profile url st :
  registry_ok st ->
  registry_ok (scrape_posts_webhook now task_id u has_profile url st).2.
Proof.
  intros Hok. unfold scrape_posts_webhook.
  destruct (String.eqb u ""); [done|].
  destruct (user_dirs _); [|done].
  destruct (negb has_profile); [done|].
  destruct (String.eqb url ""); [done|].
  rewrite (surjective_pairing (get_or_create now u st)).
  rewrite get_or_create_idempotent.
  pose proof (get_or_create_registry_ok now u st Hok) as H1.
  destruct (store _ !! _) as [s|] eqn:E; [|done]. simpl.
  intros u' r' Hu'. simpl in Hu' |- *.
  by apply (update_registry_ok _
              (set_webhook_queue_len (_webhook_queue_len s + 1)) _
              (fun _ => eq_refl) H1).
Qed.

Lemma step_registry_ok a b :
  step a b -> registry_ok (sys_state a) -> registry_ok (sys_state b).
Proof.
  intros Hstep. destruct Hstep as
    [ p u now st tasks cl
    | i0 p u r0 s0 now st tasks cl Hi0 Hr0 Hl0
    | i0 p u r0 A m a st st' tasks cl Hi0 Hm Hrun
    | i0 p u r0 now st tasks cl Hi0
    | sink_idle_sec now st tasks cl
    | k u rest a st st' tasks cl Hk Hb
    | k u rest r st st' tasks cl Hk Hb
    | L k u r rest fb_close st tasks cl Hk
    | u a st st' tasks cl Hb
    | u r st st' tasks cl Hb
    | L k u r fb_close st tasks cl Hk
    | u force st tasks cl Hu Hbusy
    | k u r rest a st st' tasks cl Hk Hb
    | k u r rest st st' tasks cl Hk Hb
    | L k u r rest fb_close st tasks cl Hk
    | L now task_id u has_profile url st tasks cl
    | captured st tasks cl ]; simpl.
  - apply get_or_create_registry_ok.
  - apply update_registry_ok. intros s. by destruct p.
  - intros Hok. apply (registry_ok_frame st st' Hok).
    + by eapply run_on_locks_kept.
    + intros u' r'. by rewrite (run_on_sessions _ _ _ _ _ Hrun).
  - apply update_registry_ok. intros s. by destruct p.
  - (* the janitor *)
    done.
  - intros Hok. apply (registry_ok_frame st _ Hok).
    + pose proof (janitor_close_begin_locks_kept u st) as H. by rewrite Hb in H.
    + intros u' r'. pose proof (janitor_close_begin_sessions u st u' r') as H.
      by rewrite Hb in H.
  - intros Hok. apply (registry_ok_frame st _ Hok).
    + pose proof (janitor_close_begin_locks_kept u st) as H. by rewrite Hb in H.
    + intros u' r'. pose proof (janitor_close_begin_sessions u st u' r') as H.
      by rewrite Hb in H.
  - intros Hok. apply (registry_ok_frame st _ Hok).
    + apply janitor_close_end_locks_kept.
    + apply janitor_close_end_sessions.
  - (* close_session *)
    intros Hok. apply (registry_ok_frame st _ Hok).
    + pose proof (close_session_begin_locks_kept u st) as H. by rewrite Hb in H.
    + intros u' r'. pose proof (close_session_begin_sessions u st u' r') as H.
      by rewrite Hb in H.
  - intros Hok. apply (registry_ok_frame st _ Hok).
    + pose proof (close_session_begin_locks_kept u st) as H. by rewrite Hb in H.
    + intros u' r'. pose proof (close_session_begin_sessions u st u' r') as H.
      by rewrite Hb in H.
  - intros Hok. apply (registry_ok_frame st _ Hok).
    + apply close_session_end_locks_kept.
    + apply close_session_end_sessions.
  - (* delete_profile *)
    done.
  - intros Hok. apply (registry_ok_frame st _ Hok).
    + pose proof (delete_close_begin_locks_kept u r st) as H. by rewrite Hb in H.
    + intros u' r'. pose proof (delete_close_begin_sessions u r st u' r') as H.
      by rewrite Hb in H.
  - intros Hok. apply (registry_ok_frame st _ Hok).
    + pose proof (delete_close_begin_locks_kept u r st) as H. by rewrite Hb in H.
    + intros u' r'. pose proof (delete_close_begin_sessions u r st u' r') as H.
      by rewrite Hb in H.
  - intros Hok. apply (registry_ok_frame st _ Hok).
    + apply delete_close_end_locks_kept.
    + apply delete_close_end_sessions.
  - (* the webhook endpoint *)
    apply scrape_posts_webhook_registry_ok.
  - by apply update_registry_ok.
Qed.

(** In every reachable state each name is registered to a session object
    created for that name. *)
Lemma reachable_registry_ok sys : reachable sys -> registry_ok (sys_state sys).
Proof.
  induction 1 as [timeout | a b _ IH Hstep].
  - apply registry_ok_init.
  - by apply (step_registry_ok a b).
Qed.

(** ** A session from first job to eviction

    "alice" with a timeout of 5 s: a job at time 0 leaves the browser
    open; the janitor at time 6 closes the browser and removes the
    session; the next job gets a new session object. *)
Example alice_end_to_end :
  let job := (_fb <- ensure_fb (mkDriver (Ok tt) (Ok 1%nat) (Ok tt)) ;; ret tt) in
  exists st1 st2 st3,
    run_for_user 0 0 1 "alice" job (SessionManager_init 5) = Some (Ok tt, st1)
    /\ (fb <$> (snd <$> live_session "alice" st1))
       = Some (Some (FBScrape_init 1))
    /\ janitor_tick 1500 7 (fun _ => Ok tt) st1 = (Ok tt, st2)
    /\ sessions st2 !! "alice" = None
    /\ (closed <$> store st2 !! 0%nat) = Some true
    /\ run_for_user 8 8 9 "alice" job st2 = Some (Ok tt, st3)
    /\ sessions st3 !! "alice" = Some 1%nat.
Proof.
  eexists _, _, _.
  split; [vm_compute; reflexivity|]. split; [vm_compute; reflexivity|].
  split; [vm_compute; reflexivity|]. split; [vm_compute; reflexivity|].
  split; [vm_compute; reflexivity|]. split; [vm_compute; reflexivity|].
  vm_compute; reflexivity.
Qed.

(** * Further properties of the code *)

(** ** to_safe_name *)

Lemma split_at_first_no_at s : has_at (split_at_first s) = false.
Proof.
  induction s as [|c r IH]; simpl; [done|].
  destruct (Ascii.eqb c "@") eqn:E; simpl; [done|]. by rewrite E.
Qed.

Lemma to_safe_name_no_at s : has_at (to_safe_name s) = false.
Proof.
  unfold to_safe_name. destruct (has_at s) eqn:E; [|done].
  apply split_at_first_no_at.
Qed.

Lemma split_at_first_decompose s :
  has_at s = true -> exists r, s = split_at_first s +:+ String "@" r.
Proof.
  induction s as [|c r IH]; simpl; [done|].
  destruct (Ascii.eqb c "@") eqn:E.
  - intros _. apply Ascii.eqb_eq in E. subst c. by exists r.
  - intros H. destruct (IH H) as [r' Hr']. exists r'.
    change (String c r = String c (split_at_first r +:+ String "@" r')).
    by f_equal.
Qed.

(** X1.  [to_safe_name] cuts a name at its first "@": the name is the
    safe name itself, or the safe name followed by "@" and a rest; the
    safe name contains no "@".  Hence the function is idempotent, and it
    leaves a name unchanged exactly when the name contains no "@". *)
Theorem to_safe_name_cuts_at_first_at (username_full : string) :
  has_at (to_safe_name username_full) = false
  /\ (username_full = to_safe_name username_full
      \/ exists rest,
           username_full = to_safe_name username_full +:+ String "@" rest)
  /\ to_safe_name (to_safe_name username_full) = to_safe_name username_full
  /\ (to_safe_name username_full = username_full <-> has_at username_full = false).
Proof.
  split; [apply to_safe_name_no_at|]. split; [|split].
  - unfold to_safe_name. destruct (has_at username_full) eqn:E; [right|by left].
    by apply split_at_first_decompose.
  - unfold to_safe_name at 1. by rewrite to_safe_name_no_at.
  - split.
    + intros Heq. rewrite <- Heq. apply to_safe_name_no_at.
    + intros Hno. unfold to_safe_name. by rewrite Hno.
Qed.

(** ** ensure_fb and restart_browser *)

Lemma ensure_fb_Ok d j o j' :
  ensure_fb d j = (Ok o, j') ->
  closed (obj j) = false /\ closed (obj j') = false /\ fb (obj j') = o
  /\ exists f, o = Some f.
Proof.
  destruct j as [s tr]. unfold ensure_fb, open_fb. unfold_monad. unfold_setters.
  simpl. destruct (closed s) eqn:Hc; [done|].
  destruct (fb s) as [f|] eqn:Hf; simpl.
  - intros [= <- <-]. simpl. eauto.
  - destruct (drv_new d) as [inst|e]; simpl; [|done].
    destruct (drv_lazy_init d) as [[]|e]; simpl; [|done].
    intros [= <- <-]. simpl. eauto.
Qed.

Lemma ensure_fb_present d j f :
  closed (obj j) = false -> fb (obj j) = Some f ->
  ensure_fb d j = (Ok (Some f), j).
Proof.
  destruct j as [s tr]. simpl. intros Hc Hf.
  unfold ensure_fb. unfold_monad. simpl. rewrite Hc, Hf. simpl. by rewrite Hf.
Qed.

(** X2.  Once [ensure_fb] has returned a browser object, calling it
    again, whatever the driver would do, returns the same object and
    does nothing: no browser is opened and no event is recorded. *)
Theorem ensure_fb_reuses_browser (d d' : Driver) (j j' : Run UserSession)
    (o : option FBScrape) :
  ensure_fb d j = (Ok o, j') ->
  (exists f, o = Some f) /\ ensure_fb d' j' = (Ok o, j').
Proof.
  intros H. apply ensure_fb_Ok in H as (_ & Hc & Hf & f & ->).
  split; [eauto|]. by apply ensure_fb_present.
Qed.

Lemma ensure_fb_reuses_browser_witness :
  exists j', ensure_fb (mkDriver (Ok tt) (Ok 1%nat) (Ok tt))
               (mkRun (UserSession_init 0 "alice") []) = (Ok (Some (FBScrape_init 1)), j')
             /\ ensure_fb (mkDriver (Ok tt) (Raise (RuntimeError "no display")) (Ok tt)) j'
                = (Ok (Some (FBScrape_init 1)), j').
Proof.
  eexists. split; [reflexivity|].
  apply (ensure_fb_reuses_browser (mkDriver (Ok tt) (Ok 1%nat) (Ok tt))
           (mkDriver (Ok tt) (Raise (RuntimeError "no display")) (Ok tt))
           (mkRun (UserSession_init 0 "alice") [])).
  reflexivity.
Defined.

(** X3.  When the constructor [FBScrape(...)] raises in [ensure_fb], the
    session is left without a browser.  When [_lazy_init()] raises, the
    exception is passed on but the new browser object stays in
    [sess.fb]: the next [ensure_fb] returns that object and does not
    initialise it again. *)
Theorem ensure_fb_failed_init_keeps_object (d : Driver) (s : UserSession)
    (tr : list event) (e : exn) :
  closed s = false -> fb s = None ->
  (drv_new d = Raise e ->
   exists tr', ensure_fb d (mkRun s tr) = (Raise e, mkRun s tr'))
  /\ (forall inst, drv_new d = Ok inst -> drv_lazy_init d = Raise e ->
        exists tr',
          ensure_fb d (mkRun s tr)
          = (Raise e, mkRun (set_fb (Some (FBScrape_init inst)) s) tr')
          /\ forall d',
               ensure_fb d' (mkRun (set_fb (Some (FBScrape_init inst)) s) tr')
               = (Ok (Some (FBScrape_init inst)),
                  mkRun (set_fb (Some (FBScrape_init inst)) s) tr')).
Proof.
  intros Hc Hf. split.
  - intros Hn. unfold ensure_fb, open_fb. unfold_monad. simpl.
    rewrite Hc, Hf, Hn. simpl. eexists. destruct s; simpl in *; by subst.
  - intros inst Hn Hl. unfold ensure_fb at 1, open_fb. unfold_monad. simpl.
    rewrite Hc, Hf, Hn. simpl. rewrite Hl. simpl.
    eexists. split; [reflexivity|].
    intros d'. by apply ensure_fb_present.
Qed.

Lemma ensure_fb_failed_init_keeps_object_witness :
  exists tr',
    ensure_fb (mkDriver (Ok tt) (Ok 4%nat) (Raise (RuntimeError "timeout")))
              (mkRun (UserSession_init 0 "alice") [])
    = (Raise (RuntimeError "timeout"),
       mkRun (set_fb (Some (FBScrape_init 4)) (UserSession_init 0 "alice")) tr').
Proof.
  destruct (proj2 (ensure_fb_failed_init_keeps_object
                     (mkDriver (Ok tt) (Ok 4%nat) (Raise (RuntimeError "timeout")))
                     (UserSession_init 0 "alice") [] (RuntimeError "timeout")
                     eq_refl eq_refl) 4%nat eq_refl eq_refl) as (tr' & H & _).
  by exists tr'.
Defined.

(** X4.  A closed session is of no use to a job: after [close], whatever
    the browser did while closing, [ensure_fb] raises [RuntimeError] and
    changes nothing, and [restart_browser] raises [RuntimeError] and
    leaves the session object as it is, so no browser is opened. *)
Theorem closed_session_refuses_browser (fb_close : outcome) (d : Driver)
    (j : Run UserSession) :
  let j1 := (close fb_close j).2 in
  closed (obj j1) = true
  /\ (exists msg, ensure_fb d j1 = (Raise (RuntimeError msg), j1))
  /\ (exists msg j2, restart_browser d j1 = (Raise (RuntimeError msg), j2)
                     /\ obj j2 = obj j1).
Proof.
  intros j1. subst j1.
  assert (closed (obj (close fb_close j).2) = true) as Hc.
  { destruct (closed (obj j)) eqn:E.
    - by rewrite (close_closed fb_close j E).
    - by destruct (close_open fb_close j E) as [tr ->]. }
  set (j1 := (close fb_close j).2) in *. split; [done|]. split.
  - unfold ensure_fb. unfold_monad. rewrite Hc. eauto.
  - unfold restart_browser. unfold_monad. simpl. rewrite Hc.
    eexists _, _. split; [reflexivity|]. done.
Qed.

(** X5.  [restart_browser] on an open session: the old browser, if
    any, is asked to close, and whatever that does, the session ends
    with the object the constructor returned, its sink state at the
    defaults, also when [_lazy_init()] then raises; when the constructor
    raises the session is left without a browser.  Nothing else of the
    session changes. *)
Theorem restart_browser_outcomes (d : Driver) (s : UserSession) (tr : list event) :
  closed s = false ->
  let out := restart_browser d (mkRun s tr) in
  match drv_new d with
  | Ok inst =>
      out.1 = drv_lazy_init d /\ obj out.2 = set_fb (Some (FBScrape_init inst)) s
  | Raise e => out.1 = Raise e /\ obj out.2 = set_fb None s
  end
  /\ (forall f, fb s = Some f -> EvFbClose (fb_instance f) ∈ trace out.2).
Proof.
  intros Hc out. subst out.
  destruct s as [uf us o l lu c n1 n2 n3]. simpl in Hc. subst c.
  unfold restart_browser, open_fb. unfold_monad. unfold_setters. simpl.
  destruct o as [f|]; simpl.
  - destruct (drv_close d) as [[]|e0]; simpl;
      destruct (drv_new d) as [inst|e1]; simpl;
      try (destruct (drv_lazy_init d) as [[]|e2]; simpl);
      (split; [by split|]); intros f' [= <-]; set_solver.
  - destruct (drv_new d) as [inst|e1]; simpl;
      try (destruct (drv_lazy_init d) as [[]|e2]; simpl);
      by split.
Qed.

Lemma restart_browser_outcomes_witness :
  closed alice_open = false
  /\ fb (obj (restart_browser (mkDriver (Raise (RuntimeError "stuck")) (Ok 7%nat) (Ok tt))
                (mkRun alice_open [])).2) = Some (FBScrape_init 7).
Proof.
  split; [reflexivity|].
  destruct (restart_browser_outcomes
              (mkDriver (Raise (RuntimeError "stuck")) (Ok 7%nat) (Ok tt))
              alice_open [] eq_refl) as [[_ H] _].
  by rewrite H.
Defined.

(** ** create_profile *)

Lemma create_profile_job_no_scrape env task_id existed :
  respects no_scrape (create_profile_job env task_id existed).
Proof.
  pose proof (open_fb_no_scrape (le_ensure env)).
  unfold create_profile_job, ensure_fb. no_scrape_tac.
Qed.


(** ** What reaches the client of an endpoint *)

Section RaisesOnly.
Context {S : Type} (P : exn -> Prop).










End RaisesOnly.














(** A name whose folders cannot be made: the exception of [mkdir]
    reaches the client, and no session is created. *)
Example scrape_posts_user_dirs_fails :
  let L := {| fs_user_dirs := fun _ => Raise (Exception "OSError" "File name too long");
              fs_record_error := fun _ => Ok tt |} in
  scrape_posts every_3 scrape_env_ok 0 1 2 "t1" "out.json" "alice" true
    (SessionManager_init 300)
  = Some (Raise (Exception "OSError" "File name too long"), SessionManager_init 300).
Proof. reflexivity. Qed.

(** A job admitted through [run_for_user] on a free gate runs on the
    live session of the name, with the lock taken and [last_used] set;
    afterwards the session is what the job left, touched and unlocked. *)
Lemma run_for_user_free {A} t_new t_in t_out u (job : M UserSession A) st :
  gate_held u st = false ->
  let r := (get_or_create t_new u st).1 in
  let st1 := (get_or_create t_new u st).2 in
  exists s0,
    live_session u st1 = Some (r, s0) /\ lock s0 = false
    /\ let out := job (mkRun (touch t_in (set_lock true s0)) (syslog st1)) in
       run_for_user t_new t_in t_out u job st
       = Some (out.1,
               set_syslog (trace out.2)
                 (set_store (<[r := set_lock false (touch t_out (obj out.2))]> (store st1))
                    st1)).
Proof.
  intros Hfree r st1.
  destruct (get_or_create_result t_new u st) as (s0 & Hl & Hlock & _).
  fold r st1 in Hl. rewrite Hfree in Hlock.
  exists s0. split; [done|]. split; [done|].
  apply live_session_Some in Hl as (_ & Hs0 & _).
  unfold run_for_user.
  destruct (get_or_create t_new u st) as [r' st1'] eqn:E.
  subst r st1. simpl in *. rewrite Hs0, Hlock.
  pose proof (update_lookup r' (set_lock true) st1' s0 Hs0) as H2.
  pose proof (update_lookup r' (touch t_in) _ _ H2) as H3.
  rewrite (run_on_Some r' job _ _ H3). rewrite !update_syslog.
  set (out := job (mkRun (touch t_in (set_lock true s0)) (syslog st1'))).
  f_equal. f_equal.
  rewrite (update_Some r' (touch t_in) _ _ H2).
  rewrite (update_Some r' (set_lock true) _ _ Hs0). simpl.
  erewrite (update_Some r' (touch t_out)) by (simpl; apply lookup_insert_eq).
  erewrite (update_Some r' (set_lock false)) by (simpl; apply lookup_insert_eq).
  unfold set_syslog, set_store. simpl.
  by rewrite !insert_insert_eq.
Qed.

Lemma live_session_insert_store u st r s s' :
  live_session u st = Some (r, s) -> closed s' = false ->
  forall tr,
    live_session u (set_syslog tr (set_store (<[r := s']> (store st)) st)) = Some (r, s').
Proof.
  intros Hl Hc tr. apply live_session_Some in Hl as (Hu & _ & _).
  apply live_session_Some. simpl. by rewrite lookup_insert_eq.
Qed.

Lemma create_profile_job_login_failed env task_id existed s tr inst :
  closed s = false ->
  drv_new (le_ensure env) = Ok inst ->
  drv_lazy_init (le_ensure env) = Ok tt ->
  le_new_scraper env = Ok tt ->
  le_ensure_login env = Ok false ->
  exists detail tr',
    create_profile_job env task_id existed (mkRun s tr)
    = (Raise (HTTPException 401 detail),
       mkRun (set_fb (Some (default (FBScrape_init inst) (fb s))) s) tr').
Proof.
  intros Hc Hn Hl Hs Hlog.
  destruct s as [uf us o l lu c n1 n2 n3]. simpl in Hc. subst c.
  unfold create_profile_job, ensure_fb, open_fb. unfold_monad. unfold_setters.
  simpl. destruct o as [f|]; simpl.
  - rewrite Hs, Hlog. simpl. eauto.
  - rewrite Hn. simpl. rewrite Hl. simpl. rewrite Hs, Hlog. simpl. eauto.
Qed.

(** X6.  A [create_profile] job is no scrape job: whatever its
    collaborators do, it leaves the count of scrape jobs of the session
    as it is, never enters [restart_browser] and never starts scrape
    work.  When the login fails (with a free gate and a browser that
    opens) the client gets [HTTPException(401)], and the session stays
    registered and open, with its gate released, [last_used] set at the
    release, and the browser the job found or opened still in it. *)
Theorem create_profile_login_failed (env : LoginEnv) (t_new t_in t_out : Q)
    (task_id username_full : string) (existed_before : bool) (st : State)
    (inst : nat) :
  (forall j,
     let j' := (create_profile_job env task_id existed_before j).2 in
     _scrape_job_counter (obj j') = _scrape_job_counter (obj j)
     /\ restarts_of (trace j') = restarts_of (trace j)
     /\ scrapes_of (trace j') = scrapes_of (trace j))
  /\ (username_full <> "" ->
      gate_held username_full st = false ->
      drv_new (le_ensure env) = Ok inst ->
      drv_lazy_init (le_ensure env) = Ok tt ->
      le_new_scraper env = Ok tt ->
      le_ensure_login env = Ok false ->
      exists detail st' r s f,
        create_profile env t_new t_in t_out task_id username_full existed_before st
        = Some (Raise (HTTPException 401 detail), st')
        /\ live_session username_full st' = Some (r, s)
        /\ lock s = false
        /\ fb s = Some f
        /\ last_used s = t_out).
Proof.
  split.
  { intros j j'. subst j'.
    destruct (create_profile_job_no_restart env task_id existed_before j)
      as [Hc (ext & He & Hz)].
    destruct (create_profile_job_no_scrape env task_id existed_before j)
      as (ext' & He' & Hz').
    split; [done|]. split.
    - rewrite He, restarts_of_app, Hz. lia.
    - rewrite He', scrapes_of_app, Hz'. lia. }
  intros Hu Hfree Hn Hl Hs Hlog.
  apply String.eqb_neq in Hu. unfold create_profile. rewrite Hu.
  pose proof (run_for_user_free t_new t_in t_out username_full
                (create_profile_job env task_id existed_before) st Hfree) as H.
  cbv zeta in H. destruct H as (s0 & Hlive & Hlock & ->).
  pose proof Hlive as Hlive'.
  apply live_session_Some in Hlive' as (_ & _ & Hc).
  destruct (create_profile_job_login_failed env task_id existed_before
              (touch t_in (set_lock true s0))
              (syslog (get_or_create t_new username_full st).2) inst
              Hc Hn Hl Hs Hlog) as (detail & tr' & ->).
  simpl. eexists detail, _, _, _, _. split; [reflexivity|].
  split; [by apply (live_session_insert_store _ _ _ s0)|].
  done.
Qed.

Lemma create_profile_login_failed_witness :
  exists detail st',
    create_profile (mkLoginEnv (mkDriver (Ok tt) (Ok 1%nat) (Ok tt)) (Ok tt) (Ok false))
      0 1 2 "t1" "alice" false (SessionManager_init 300)
    = Some (Raise (HTTPException 401 detail), st').
Proof.
  destruct (proj2 (create_profile_login_failed
                     (mkLoginEnv (mkDriver (Ok tt) (Ok 1%nat) (Ok tt)) (Ok tt) (Ok false))
                     0 1 2 "t1" "alice" false (SessionManager_init 300) 1%nat)
              ltac:(discriminate) eq_refl eq_refl eq_refl eq_refl eq_refl)
    as (detail & st' & _ & _ & _ & H & _).
  eauto.
Defined.

(** ** get_snapshot *)

(** X9.  [get_snapshot] answers with a PNG or with an
    [HTTPException] of status 400, 404, 409 or 500.  The status is 409
    exactly when the name has a session that is closed or has no browser
    page.  A page that reports [is_closed()] does not give 409: that
    check sits inside the [try] block, so its [HTTPException(409)] is
    caught by [except Exception] and answered as 500, like every failure
    of the page.  The PNG is answered exactly when the open page takes
    the screenshot and the resizing returns. *)
Theorem get_snapshot_status (env : SnapshotEnv) (username_full : string)
    (st : State) :
  let answer := get_snapshot env username_full st in
  let no_page :=
    exists r sess, sessions_get username_full st = Some (r, sess)
                   /\ (closed sess = true \/ fb sess = None
                       \/ sn_has_page env = false) in
  (forall e, answer = Raise e ->
     exists status_code detail,
       e = HTTPException status_code detail
       /\ (status_code = 400 \/ status_code = 404 \/ status_code = 409
           \/ status_code = 500))
  /\ ((exists detail, answer = Raise (HTTPException 409 detail))
      <-> username_full <> "" /\ no_page)
  /\ (username_full <> "" -> sessions_get username_full st <> None -> ~ no_page ->
      sn_is_closed env = Ok true ->
      exists detail, answer = Raise (HTTPException 500 detail))
  /\ (answer = Ok tt
      <-> username_full <> "" /\ sessions_get username_full st <> None /\ ~ no_page
          /\ sn_is_closed env = Ok false /\ sn_screenshot env = Ok tt
          /\ sn_resize env = Ok tt).
Proof.
  intros answer no_page. subst answer no_page. unfold get_snapshot.
  destruct (String.eqb username_full "") eqn:Eu.
  { apply String.eqb_eq in Eu. subst.
    split; [intros e [= <-]; eexists _, _; split; [done|auto]|].
    split; [split; [by intros [? ?] | by intros [? _]]|].
    split; [done|]. split; [done | by intros [? _]]. }
  apply String.eqb_neq in Eu.
  destruct (sessions_get username_full st) as [[r sess]|] eqn:Es.
  2:{ split; [intros e [= <-]; eexists _, _; split; [done|auto]|].
      split; [split; [by intros [? ?] | by intros (_ & ? & ? & ? & _)]|].
      split; [done|]. split; [done | by intros (_ & ? & _)]. }
  assert (closed sess = true \/ fb sess = None \/ sn_has_page env = false ->
          exists r0 sess0, Some (r, sess) = Some (r0, sess0)
            /\ (closed sess0 = true \/ fb sess0 = None \/ sn_has_page env = false))
    as Hno by eauto.
  destruct (closed sess) eqn:Ec.
  { split; [intros e [= <-]; eexists _, _; split; [done|auto]|].
    split; [split; [auto | eauto]|].
    split; [intros _ _ Hn; destruct Hn; auto|].
    split; [done | intros (_ & _ & Hn & _); destruct Hn; auto]. }
  destruct (fb sess) as [f|] eqn:Ef; simpl.
  2:{ split; [intros e [= <-]; eexists _, _; split; [done|auto]|].
      split; [split; [auto | eauto]|].
      split; [intros _ _ Hn; destruct Hn; auto|].
      split; [done | intros (_ & _ & Hn & _); destruct Hn; auto]. }
  destruct (sn_has_page env) eqn:Ep; simpl.
  2:{ split; [intros e [= <-]; eexists _, _; split; [done|auto]|].
      split; [split; [auto | eauto]|].
      split; [intros _ _ Hn; destruct Hn; auto|].
      split; [done | intros (_ & _ & Hn & _); destruct Hn; auto]. }
  assert (~ exists r0 sess0, Some (r, sess) = Some (r0, sess0)
            /\ (closed sess0 = true \/ fb sess0 = None \/ true = false)) as Hpage.
  { intros (r0 & s0 & [= <- <-] & [H|[H|H]]); congruence. }
  unfold_monad. simpl.
  destruct (sn_is_closed env) as [[]|e1]; simpl.
  - split; [intros e [= <-]; eexists _, _; split; [done|auto]|].
    split; [split; [by intros [? ?] | by intros [_ ?]]|].
    split; [eauto|]. split; [done | by intros (_ & _ & _ & ? & _)].
  - destruct (sn_screenshot env) as [[]|e2]; simpl;
      [destruct (sn_resize env) as [[]|e3]; simpl|].
    + split; [done|]. split; [split; [by intros [? ?] | by intros [_ ?]]|].
      split; [done|]. split; [done | done].
    + split; [intros e [= <-]; eexists _, _; split; [done|auto]|].
      split; [split; [by intros [? ?] | by intros [_ ?]]|].
      split; [done|]. split; [done | by intros (_ & _ & _ & _ & _ & ?)].
    + split; [intros e [= <-]; eexists _, _; split; [done|auto]|].
      split; [split; [by intros [? ?] | by intros [_ ?]]|].
      split; [done|]. split; [done | by intros (_ & _ & _ & _ & ? & _)].
  - split; [intros e [= <-]; eexists _, _; split; [done|auto]|].
    split; [split; [by intros [? ?] | by intros [_ ?]]|].
    split; [done|]. split; [done | by intros (_ & _ & _ & ? & _)].
Qed.

Lemma get_snapshot_status_witness :
  exists detail,
    get_snapshot (mkSnapshotEnv true (Ok true) (Ok tt) (Ok tt)) "alice" alice_busy
    = Raise (HTTPException 500 detail).
Proof.
  destruct (get_snapshot_status (mkSnapshotEnv true (Ok true) (Ok tt) (Ok tt))
              "alice" alice_busy) as (_ & _ & H & _).
  apply H; [discriminate | discriminate | | reflexivity].
  intros (r & s & Hs & Hor). vm_compute in Hs. injection Hs as <- <-.
  destruct Hor as [H1|[H1|H1]]; discriminate.
Defined.

(** ** The sink job *)

(** X10.  A sink job that finds no browser in its session raises
    [AttributeError] at once and leaves the session as it is: it never
    opens a browser.  The same job requested through [random_scrape]
    opens the browser first and then runs on the new browser object. *)
Theorem sink_job_needs_browser (cfg : Config) (now_mono t_done : Q)
    (env : SinkEnv) (s : UserSession) (tr : list event) :
  fb s = None ->
  (exists msg, _sink_job cfg now_mono t_done env (mkRun s tr)
               = (Raise (AttributeError msg), mkRun s tr))
  /\ (closed s = false ->
      forall d inst, drv_new d = Ok inst -> drv_lazy_init d = Ok tt ->
        exists tr0,
          random_scrape_job cfg d now_mono t_done env (mkRun s tr)
          = on_fb (randomtask cfg now_mono t_done env)
                  (mkRun (set_fb (Some (FBScrape_init inst)) s) tr0)).
Proof.
  intros Hf. split.
  - unfold _sink_job, on_fb. unfold_monad. simpl. rewrite Hf. eauto.
  - intros Hc d inst Hn Hl.
    unfold random_scrape_job, ensure_fb, open_fb. unfold_monad. unfold_setters.
    simpl. rewrite Hc, Hf, Hn. simpl. rewrite Hl. simpl. rewrite ?Hc. eauto.
Qed.

Lemma sink_job_needs_browser_witness :
  exists msg,
    _sink_job every_3 1200 1300 sink_env_ok (mkRun (UserSession_init 0 "alice") [])
    = (Raise (AttributeError msg), mkRun (UserSession_init 0 "alice") []).
Proof.
  apply (proj1 (sink_job_needs_browser every_3 1200 1300 sink_env_ok
                  (UserSession_init 0 "alice") [] eq_refl)).
Defined.



(** An agent that fails on a disk that is full: the exception of the
    error record leaves [randomtask], with [_sink_running] false. *)
Example randomtask_record_fails :
  randomtask (L := files_full) every_3 1200 1300
    (mkSinkEnv (Ok tt) (Ok tt) true (Raise (RuntimeError "agent")) (Ok tt) (Ok tt))
    (mkRun (FBScrape_init 1) [])
  = (Raise (Exception "OSError" "No space left on device"),
     mkRun (FBScrape_init 1)
           [EvLog "INFO" "SINK: starting agent"; EvAgentRun;
            EvLog "ERROR" "SINK: failed";
            EvRecordError "sink" (RuntimeError "agent")]).
Proof. reflexivity. Qed.

(** X12.  The hit counter of the sink trigger: on a session with a
    browser and a counter below a positive threshold, each call raises
    the counter by one, and the call that reaches the threshold sets it
    back to 0 and creates one sink task; so a sink task is created on
    every threshold-th successful scrape job.  Without a browser the
    counter only grows and no task is created. *)
Theorem sink_trigger_counts (cfg : Config) (s : UserSession) (tr : list event) :
  0 <= _sink_hits s < SINK_HITS_BEFORE_TRIGGER cfg ->
  let out := sink_trigger cfg (mkRun s tr) in
  out.1 = Ok tt
  /\ match fb s with
     | Some _ =>
         _sink_hits (obj out.2) = (_sink_hits s + 1) mod SINK_HITS_BEFORE_TRIGGER cfg
         /\ trace out.2
            = tr ++ (if _sink_hits s + 1 =? SINK_HITS_BEFORE_TRIGGER cfg
                     then [EvCreateTask "_run_sink_bg"] else [])
     | None => _sink_hits (obj out.2) = _sink_hits s + 1 /\ trace out.2 = tr
     end
  /\ fb (obj out.2) = fb s
  /\ 0 <= _sink_hits (obj out.2).
Proof.
  intros Hh out. subst out.
  unfold sink_trigger. unfold_monad. unfold_setters. simpl.
  destruct (fb s) as [f|] eqn:Hf.
  - rewrite bool_decide_eq_true_2 by eauto. rewrite andb_true_r.
    destruct (SINK_HITS_BEFORE_TRIGGER cfg <=? _sink_hits s + 1) eqn:E; simpl.
    + apply Z.leb_le in E.
      assert (_sink_hits s + 1 = SINK_HITS_BEFORE_TRIGGER cfg) as Heq by lia.
      rewrite Heq, Z.eqb_refl, Z_mod_same_full. done.
    + apply Z.leb_gt in E.
      rewrite Z.mod_small by lia.
      assert ((_sink_hits s + 1 =? SINK_HITS_BEFORE_TRIGGER cfg) = false) as ->
        by (apply Z.eqb_neq; lia).
      rewrite app_nil_r. split; [done|]. split; [done|]. split; [done|lia].
  - rewrite bool_decide_eq_false_2 by (intros [? ?]; done).
    rewrite andb_false_r. simpl. split; [done|]. split; [done|]. split; [done|lia].
Qed.

Lemma sink_trigger_counts_witness :
  0 <= _sink_hits (set_sink_hits 7 alice_open) < SINK_HITS_BEFORE_TRIGGER every_3
  /\ _sink_hits (obj (sink_trigger every_3 (mkRun (set_sink_hits 7 alice_open) [])).2)
     = 0
  /\ trace (sink_trigger every_3 (mkRun (set_sink_hits 7 alice_open) [])).2
     = [EvCreateTask "_run_sink_bg"].
Proof.
  split; [cbn; lia|].
  destruct (sink_trigger_counts every_3 (set_sink_hits 7 alice_open) []
              ltac:(cbn; lia)) as (_ & [H1 H2] & _).
  split; [exact H1 | exact H2].
Defined.

(** ** The janitor: who is warmed, who is evicted *)

Lemma janitor_scan_one_evict sink_idle_sec now st u r :
  u ∈ (janitor_scan_one sink_idle_sec now st (u, r)).1
  <-> exists s, store st !! r = Some s
                /\ (closed s = true
                    \/ (inject_Z (idle_timeout_sec st) < now - last_used s)%Q
                       /\ lock s = false).
Proof.
  unfold janitor_scan_one. simpl.
  destruct (store st !! r) as [s|] eqn:Es; simpl.
  2:{ split; [by intros ?%elem_of_nil | by intros (? & ? & _)]. }
  destruct (closed s) eqn:Ec; simpl.
  { split; [eauto | intros _; by left]. }
  destruct (Qlt_bool (inject_Z (idle_timeout_sec st)) (now - last_used s)) eqn:El;
    destruct (lock s) eqn:Ek; simpl.
  - split; [by intros ?%elem_of_nil|].
    intros (s' & [= <-] & [?|[_ ?]]); congruence.
  - apply Qlt_bool_true in El. split; [eauto | intros _; by left].
  - split; [by intros ?%elem_of_nil|].
    intros (s' & [= <-] & [?|[_ ?]]); congruence.
  - apply Qlt_bool_false in El. split; [by intros ?%elem_of_nil|].
    intros (s' & [= <-] & [?|[Hlt _]]); [congruence|]. lra.
Qed.

Lemma janitor_scan_one_spawn sink_idle_sec now st u r :
  u ∈ (janitor_scan_one sink_idle_sec now st (u, r)).2
  <-> exists s f, store st !! r = Some s /\ closed s = false
                  /\ fb s = Some f /\ _sink_running f = false
                  /\ (inject_Z sink_idle_sec <= now - last_used s)%Q
                  /\ (now - last_used s < inject_Z (idle_timeout_sec st))%Q.
Proof.
  unfold janitor_scan_one. simpl.
  destruct (store st !! r) as [s|] eqn:Es; simpl.
  2:{ split; [by intros ?%elem_of_nil | by intros (? & ? & ? & _)]. }
  destruct (closed s) eqn:Ec; simpl.
  { split; [by intros ?%elem_of_nil|].
    intros (s' & f & [= <-] & ? & _). congruence. }
  destruct (Qle_bool (inject_Z sink_idle_sec) (now - last_used s)) eqn:E1; simpl.
  2:{ split; [by intros ?%elem_of_nil|].
      intros (s' & f & [= <-] & _ & _ & _ & Hle & _).
      apply Qle_bool_iff in Hle. congruence. }
  apply Qle_bool_iff in E1.
  destruct (Qlt_bool (now - last_used s) (inject_Z (idle_timeout_sec st))) eqn:E2; simpl.
  2:{ apply Qlt_bool_false in E2. split; [by intros ?%elem_of_nil|].
      intros (s' & f & [= <-] & _ & _ & _ & _ & Hlt). lra. }
  apply Qlt_bool_true in E2.
  destruct (fb s) as [f|] eqn:Ef; simpl.
  2:{ try rewrite bool_decide_eq_false_2 by (intros [? ?]; done).
      split; [by intros ?%elem_of_nil|].
      intros (s' & f & [= <-] & _ & ? & _). congruence. }
  try rewrite bool_decide_eq_true_2 by eauto.
  destruct (_sink_running f) eqn:Er; simpl.
  - split; [by intros ?%elem_of_nil|].
    intros (s' & f' & [= <-] & _ & Hf' & Hrun & _).
    rewrite Ef in Hf'. injection Hf' as <-. congruence.
  - split; [intros _; eauto 10 | intros _; by left].
Qed.

Lemma janitor_scan_one_names sink_idle_sec now st item u :
  u ∈ (janitor_scan_one sink_idle_sec now st item).1
  \/ u ∈ (janitor_scan_one sink_idle_sec now st item).2 ->
  u = item.1.
Proof.
  unfold janitor_scan_one. destruct (store st !! item.2) as [s|]; simpl.
  2:{ intros [?%elem_of_nil|?%elem_of_nil]; done. }
  destruct (closed s).
  { simpl. intros [H|?%elem_of_nil]; [|done]. by apply list_elem_of_singleton in H. }
  cbv zeta. simpl. intros [H|H].
  - destruct (_ && negb (lock s)); [by apply list_elem_of_singleton in H|].
    by apply elem_of_nil in H.
  - destruct (_ && _ && _); [|by apply elem_of_nil in H].
    destruct (fb s) as [f|]; [|by apply elem_of_nil in H].
    destruct (negb (_sink_running f)); [by apply list_elem_of_singleton in H|].
    by apply elem_of_nil in H.
Qed.

Lemma janitor_scan_elem sink_idle_sec now st u :
  (u ∈ (janitor_scan sink_idle_sec now st).1
   <-> exists r, sessions st !! u = Some r
                 /\ u ∈ (janitor_scan_one sink_idle_sec now st (u, r)).1)
  /\ (u ∈ (janitor_scan sink_idle_sec now st).2
      <-> exists r, sessions st !! u = Some r
                    /\ u ∈ (janitor_scan_one sink_idle_sec now st (u, r)).2).
Proof.
  unfold janitor_scan. simpl. split; split.
  - intros H. apply list_elem_of_In, in_concat in H as (l & Hl & Hu).
    apply in_map_iff in Hl as (pr & <- & Hl).
    apply in_map_iff in Hl as ([u' r] & <- & Hin).
    apply list_elem_of_In in Hu.
    pose proof (janitor_scan_one_names _ _ _ _ _ (or_introl Hu)) as Hn.
    simpl in Hn. subst u'.
    apply list_elem_of_In, elem_of_map_to_list in Hin. eauto.
  - intros (r & Hr & Hu). apply list_elem_of_In, in_concat.
    exists (janitor_scan_one sink_idle_sec now st (u, r)).1.
    split; [|by apply list_elem_of_In].
    apply in_map, in_map. by apply list_elem_of_In, elem_of_map_to_list.
  - intros H. apply list_elem_of_In, in_concat in H as (l & Hl & Hu).
    apply in_map_iff in Hl as (pr & <- & Hl).
    apply in_map_iff in Hl as ([u' r] & <- & Hin).
    apply list_elem_of_In in Hu.
    pose proof (janitor_scan_one_names _ _ _ _ _ (or_intror Hu)) as Hn.
    simpl in Hn. subst u'.
    apply list_elem_of_In, elem_of_map_to_list in Hin. eauto.
  - intros (r & Hr & Hu). apply list_elem_of_In, in_concat.
    exists (janitor_scan_one sink_idle_sec now st (u, r)).2.
    split; [|by apply list_elem_of_In].
    apply (in_map snd), in_map. by apply list_elem_of_In, elem_of_map_to_list.
Qed.

(** X14.  The first loop of the janitor.  A sink task is created for a
    name exactly when its session is open, has a browser whose
    [_sink_running] flag is down, and has been idle for at least
    [SINK_IDLE_SEC] but less than the idle timeout; whether the gate is
    held plays no part.  A name is put on the list to close exactly when
    its session is closed, or idle for more than the timeout with a free
    gate.  No session is warmed and selected for eviction in the same
    pass. *)
Theorem janitor_scan_windows (sink_idle_sec : Z) (now : Q) (st : State) (u : string) :
  let idle (s : UserSession) := (now - last_used s)%Q in
  (u ∈ (janitor_scan sink_idle_sec now st).2
   <-> exists r s f,
         sessions st !! u = Some r /\ store st !! r = Some s
         /\ closed s = false /\ fb s = Some f /\ _sink_running f = false
         /\ (inject_Z sink_idle_sec <= idle s)%Q
         /\ (idle s < inject_Z (idle_timeout_sec st))%Q)
  /\ (u ∈ (janitor_scan sink_idle_sec now st).1
      <-> exists r s,
            sessions st !! u = Some r /\ store st !! r = Some s
            /\ (closed s = true
                \/ (inject_Z (idle_timeout_sec st) < idle s)%Q /\ lock s = false))
  /\ ~ (u ∈ (janitor_scan sink_idle_sec now st).2
        /\ u ∈ (janitor_scan sink_idle_sec now st).1).
Proof.
  intros idle. subst idle.
  destruct (janitor_scan_elem sink_idle_sec now st u) as [He Hs].
  assert (u ∈ (janitor_scan sink_idle_sec now st).2
          <-> exists r s f,
                sessions st !! u = Some r /\ store st !! r = Some s
                /\ closed s = false /\ fb s = Some f /\ _sink_running f = false
                /\ (inject_Z sink_idle_sec <= now - last_used s)%Q
                /\ (now - last_used s < inject_Z (idle_timeout_sec st))%Q) as H2.
  { rewrite Hs. split.
    - intros (r & Hr & Hu). apply janitor_scan_one_spawn in Hu as (s & f & ?).
      exists r, s, f. tauto.
    - intros (r & s & f & Hr & ?). exists r. split; [done|].
      apply janitor_scan_one_spawn. exists s, f. tauto. }
  assert (u ∈ (janitor_scan sink_idle_sec now st).1
          <-> exists r s,
                sessions st !! u = Some r /\ store st !! r = Some s
                /\ (closed s = true
                    \/ (inject_Z (idle_timeout_sec st) < now - last_used s)%Q
                       /\ lock s = false)) as H1.
  { rewrite He. split.
    - intros (r & Hr & Hu). apply janitor_scan_one_evict in Hu as (s & ?).
      exists r, s. tauto.
    - intros (r & s & Hr & ?). exists r. split; [done|].
      apply janitor_scan_one_evict. exists s. tauto. }
  split; [exact H2|]. split; [exact H1|].
  rewrite H1, H2.
  intros [(r & s & f & Hr & Hst & Hc & _ & _ & _ & Hlt)
          (r' & s' & Hr' & Hst' & Hor)].
  rewrite Hr in Hr'. injection Hr' as <-.
  rewrite Hst in Hst'. injection Hst' as <-.
  destruct Hor as [?|[Hgt _]]; [congruence | lra].
Qed.

(** What closing a session object does to the state. *)
Lemma run_on_close fb_close r st s :
  store st !! r = Some s ->
  exists tr,
    run_on r (close fb_close) st
    = Some (Ok tt,
            set_syslog tr
              (set_store (<[r := if closed s then s
                                 else set_closed true (set_fb None s)]> (store st)) st)).
Proof.
  intros Hr. rewrite (run_on_Some r _ st s Hr).
  destruct (closed s) eqn:Hc.
  - rewrite (close_closed fb_close (mkRun s (syslog st)) Hc). simpl. eauto.
  - destruct (close_open fb_close (mkRun s (syslog st)) Hc) as [tr ->]. simpl. eauto.
Qed.

(** A registered session that is already closed. *)
Lemma janitor_close_one_closed fb_close u' st u r s :
  sessions st !! u = Some r -> store st !! r = Some s -> closed s = true ->
  sessions (janitor_close_one fb_close u' st).2 !! u = Some r
  /\ store (janitor_close_one fb_close u' st).2 !! r = Some s.
Proof.
  intros Hu Hr Hc. unfold janitor_close_one.
  destruct (sessions_get u' st) as [[r' s']|] eqn:E; [|done].
  apply sessions_get_Some in E as [Hu' Hr'].
  destruct (negb (closed s') && negb (lock s')) eqn:Eb; [|done].
  apply andb_true_iff in Eb as [Hc' _]. apply negb_true_iff in Hc'.
  assert (r' <> r) as Hne by (intros ->; congruence).
  assert (u' <> u) as Hne' by (intros ->; congruence).
  rewrite (run_on_Some r' _ st s' Hr').
  destruct ((log "[Janitor] Close idle session";;; close fb_close)
              (mkRun s' (syslog st))) as [[[]|e] j]; simpl;
    rewrite ?lookup_delete_ne, ?lookup_insert_ne by done; done.
Qed.

(** X15.  The janitor never removes a session that is already closed:
    its first loop puts the name on the list, but the second loop only
    handles sessions that are not closed, so the entry and the object
    stay as they are until [get_or_create] replaces them. *)
Theorem janitor_keeps_closed_entry (sink_idle_sec : Z) (now : Q)
    (fb_close : string -> outcome) (st : State) (u : string) (r : loc)
    (s : UserSession) :
  sessions st !! u = Some r -> store st !! r = Some s -> closed s = true ->
  let st' := (janitor_tick sink_idle_sec now fb_close st).2 in
  u ∈ (janitor_scan sink_idle_sec now st).1
  /\ sessions st' !! u = Some r /\ store st' !! r = Some s.
Proof.
  intros Hu Hr Hc st'. subst st'. split.
  { apply janitor_scan_elem. exists r. split; [done|].
    apply janitor_scan_one_evict. eauto. }
  unfold janitor_tick.
  destruct (janitor_scan sink_idle_sec now st) as [to_close spawn].
  set (st1 := set_syslog _ st).
  assert (sessions st1 !! u = Some r /\ store st1 !! r = Some s) as H1 by done.
  clearbody st1. revert st1 H1.
  induction to_close as [|u' rest IH]; intros st1 [H1 H2]; simpl; [done|].
  pose proof (janitor_close_one_closed (fb_close u') u' st1 u r s H1 H2 Hc) as H3.
  destruct (janitor_close_one (fb_close u') u' st1) as [[[]|e] st2]; simpl in *.
  - by apply IH.
  - done.
Qed.

Lemma janitor_keeps_closed_entry_witness :
  let st := update 0%nat (set_closed true) alice_idle in
  sessions (janitor_tick 1500 10000 (fun _ => Ok tt) st).2 !! "alice" = Some 0%nat.
Proof.
  apply (janitor_keeps_closed_entry 1500 10000 (fun _ => Ok tt)
           (update 0%nat (set_closed true) alice_idle) "alice" 0%nat
           (set_closed true (set_last_used 5 (UserSession_init 5 "alice"))));
    reflexivity.
Defined.

















(** A browser whose close fails on a disk that is full: the exception
    of the error record ends the pass, the session is closed and its
    name is still registered. *)
Example janitor_pass_raises :
  let out := janitor_tick (L := files_full) 1500 10000
               (fun _ => Raise (RuntimeError "boom")) alice_idle_open in
  out.1 = Raise (Exception "OSError" "No space left on device")
  /\ sessions out.2 !! "alice" = Some 0%nat
  /\ (closed <$> store out.2 !! 0%nat) = Some true.
Proof. vm_compute. done. Qed.

(** ** Closing on request *)





(** A browser whose close fails on a disk that is full: the exception
    of the error record reaches the client, and the name is still
    registered to the session, which is closed. *)
Example close_session_raises :
  let out := close_session (L := files_full) (Raise (RuntimeError "boom")) "alice"
               alice_idle_open in
  out.1 = Raise (Exception "OSError" "No space left on device")
  /\ sessions out.2 !! "alice" = Some 0%nat
  /\ (closed <$> store out.2 !! 0%nat) = Some true.
Proof. vm_compute. done. Qed.

(** ** delete_profile *)







(** A [close()] that raises, because [fb.close()] has raised and the
    record of that could not be written, while the record of the
    endpoint can be: the session is closed, not counted, and still
    registered.  When no record can be written, the exception of the
    record leaves the endpoint. *)
Example delete_profile_close_fails :
  let L := {| fs_user_dirs := fun _ => Ok tt;
              fs_record_error := fun site =>
                if String.eqb site "UserSession.close"
                then Raise (Exception "OSError" "Interrupted system call")
                else Ok tt |} in
  let out := delete_profile (fun _ => Raise (RuntimeError "boom"))
               "alice@example.com" true alice_busy in
  out.1 = Ok (200, 0)
  /\ sessions out.2 !! "alice" = Some 0%nat
  /\ (closed <$> store out.2 !! 0%nat) = Some true.
Proof. vm_compute. done. Qed.

Example delete_profile_raises :
  (delete_profile (L := files_full) (fun _ => Raise (RuntimeError "boom"))
     "alice@example.com" true alice_busy).1
  = Raise (Exception "OSError" "No space left on device").
Proof. reflexivity. Qed.

(** ** SessionManager.stop *)

Lemma stop_close_all_spec fb_close l st :
  (forall r s, store st !! r = Some s ->
     exists s', store (stop_close_all fb_close l st) !! r = Some s'
                /\ lock s' = lock s
                /\ (closed s = true -> closed s' = true)
                /\ (r ∈ l.*2 -> closed s' = true))
  /\ sessions (stop_close_all fb_close l st) = sessions st.
Proof.
  revert st. induction l as [|[u0 r0] rest IH]; intros st.
  { simpl. split; [|done]. intros r s Hr. exists s. repeat split; try done.
    by intros ?%elem_of_nil. }
  simpl. destruct (store st !! r0) as [s0|] eqn:Hs0.
  - destruct (run_on_close (fb_close u0) r0 st s0 Hs0) as [tr ->].
    set (s0' := if closed s0 then s0 else set_closed true (set_fb None s0)).
    set (st1 := set_syslog _ _).
    destruct (IH st1) as [Hstore Hsess].
    split; [|by rewrite Hsess].
    assert (closed s0' = true /\ lock s0' = lock s0) as [Hc0 Hl0].
    { subst s0'. by destruct (closed s0) eqn:Ec. }
    intros r s Hr. destruct (decide (r = r0)) as [->|Hne].
    + rewrite Hs0 in Hr. injection Hr as <-.
      destruct (Hstore r0 s0' ltac:(subst st1; simpl; apply lookup_insert_eq))
        as (s' & Hs' & Hl' & Hc' & _).
      exists s'. split; [done|]. split; [congruence|]. auto.
    + destruct (Hstore r s ltac:(subst st1; simpl; by rewrite lookup_insert_ne))
        as (s' & Hs' & Hl' & Hc' & Hin').
      exists s'. split; [done|]. split; [done|]. split; [done|].
      intros [?|?]%elem_of_cons; [done | auto].
  - unfold run_on. rewrite Hs0.
    destruct (IH st) as [Hstore Hsess]. split; [|done].
    intros r s Hr. destruct (Hstore r s Hr) as (s' & Hs' & Hl' & Hc' & Hin').
    exists s'. split; [done|]. split; [done|]. split; [done|].
    intros [->|?]%elem_of_cons; [congruence | auto].
Qed.

(** X19.  [SessionManager.stop] closes every registered session,
    whether its gate is held or not and whatever the browsers do while
    closing, leaves the locks as they are, and empties the registry. *)
Theorem stop_closes_every_session (fb_close : string -> outcome) (st : State) :
  sessions (stop fb_close st) = ∅
  /\ forall u r s,
       sessions st !! u = Some r -> store st !! r = Some s ->
       exists s', store (stop fb_close st) !! r = Some s'
                  /\ closed s' = true /\ lock s' = lock s.
Proof.
  unfold stop. simpl. split; [done|].
  intros u r s Hu Hr.
  destruct (stop_close_all_spec fb_close (map_to_list (sessions st)) st)
    as [Hstore _].
  destruct (Hstore r s Hr) as (s' & Hs' & Hl' & _ & Hin).
  exists s'. split; [done|]. split; [|done].
  apply Hin. apply list_elem_of_fmap. exists (u, r). split; [done|].
  by apply elem_of_map_to_list.
Qed.

Lemma stop_closes_every_session_witness :
  sessions (stop (fun _ => Ok tt) alice_busy) = ∅
  /\ exists s', store (stop (fun _ => Ok tt) alice_busy) !! 0%nat = Some s'
                /\ closed s' = true /\ lock s' = true.
Proof.
  destruct (stop_closes_every_session (fun _ => Ok tt) alice_busy) as [H1 H2].
  split; [exact H1|].
  apply (H2 "alice" 0%nat
           (set_lock true (set_fb (Some (FBScrape_init 1)) (UserSession_init 5 "alice"))));
    reflexivity.
Defined.

(** ** A webhook job from submission to completion *)

#[local] Instance queue_frame_preorder : PreOrder queue_frame.
Proof.
  split.
  - intros j. by split.
  - intros a b c [? ?] [? ?]. split; congruence.
Qed.













(** A job that fails outside its scrape step on a disk that is full:
    the exception of the error record leaves the scheduled job, and the
    slot and the gate are given back all the same. *)
Example webhook_slot_returned_on_raise :
  let L := files_full in
  let st1 := (scrape_posts_webhook 6 "t1" "alice" true "http://cb" alice_idle).2 in
  exists st2,
    _schedule 7 8 9 "alice" 0%nat
      (_bg_job every_3 scrape_env_disk_full "t1" "out.json" "http://cb"
               (to_safe_name "alice")) st1
    = Some (Raise (Exception "OSError" "No space left on device"), st2)
    /\ pending_async "alice" st2 = pending_async "alice" alice_idle
    /\ gate_held "alice" st2 = false.
Proof. eexists. split; [vm_compute; reflexivity|]. split; vm_compute; reflexivity. Qed.

(** ** The registry in every reachable state *)

(** X21.  In every state the service can reach, by any interleaving of
    admissions, jobs, janitor passes and requests, each registered name
    refers to an existing session object that was created for exactly
    that name, and no session object is registered under two names. *)
Theorem registry_is_injective (sys : System) :
  reachable sys ->
  (forall u r, sessions (sys_state sys) !! u = Some r ->
     exists s, store (sys_state sys) !! r = Some s /\ username_full s = u)
  /\ (forall u u' r, sessions (sys_state sys) !! u = Some r ->
        sessions (sys_state sys) !! u' = Some r -> u = u').
Proof.
  intros Hreach. pose proof (reachable_registry_ok sys Hreach) as Hok.
  split; [exact Hok|].
  intros u u' r Hu Hu'.
  destruct (Hok u r Hu) as (s & Hs & Hn).
  destruct (Hok u' r Hu') as (s' & Hs' & Hn'). congruence.
Qed.

Lemma registry_is_injective_witness :
  reachable alice_and_bob_running
  /\ exists s, store (sys_state alice_and_bob_running) !! 1%nat = Some s
               /\ username_full s = "bob".
Proof.
  split; [exact alice_and_bob_running_reachable|].
  apply (proj1 (registry_is_injective alice_and_bob_running
                  alice_and_bob_running_reachable) "bob" 1%nat).
  reflexivity.
Defined.

(** ** Searching a JSON value *)

(** [v] is stored under [key] somewhere inside a JSON value. *)
Lemma _deep_find_values_dict items key :
  _deep_find_values (JDict items) key
  = flat_map (fun kv => (if String.eqb kv.1 key then [kv.2] else [])
                        ++ _deep_find_values kv.2 key) items.
Proof.
  simpl. induction items as [|[k v] rest IH]; simpl; [done|].
  rewrite <- IH. by rewrite <- app_assoc.
Qed.

Lemma _deep_find_values_list items key :
  _deep_find_values (JList items) key
  = flat_map (fun item => _deep_find_values item key) items.
Proof.
  simpl. induction items as [|item rest IH]; simpl; [done|]. by rewrite <- IH.
Qed.

Lemma json_nested_ind (P : json -> Prop) :
  P JNull -> (forall b, P (JBool b)) -> (forall q, P (JNum q)) ->
  (forall s, P (JStr s)) ->
  (forall items, Forall P items -> P (JList items)) ->
  (forall items, Forall (fun kv => P kv.2) items -> P (JDict items)) ->
  forall obj, P obj.
Proof.
  intros Hnull Hbool Hnum Hstr Hlist Hdict.
  fix IH 1. intros [ |b|q|s|items|items].
  - exact Hnull.
  - apply Hbool.
  - apply Hnum.
  - apply Hstr.
  - apply Hlist. induction items as [|item rest IHl]; constructor; [apply IH | exact IHl].
  - apply Hdict. induction items as [|[k v] rest IHl]; constructor;
      [apply IH | exact IHl].
Qed.

(** X22.  [_deep_find_values] returns exactly the values that are stored
    under the key at any depth of the JSON value: in a dict at the top,
    or inside a value of a dict or an element of a list, the value found
    under the key being searched as well.  A value that is neither a
    dict nor a list yields nothing. *)
Theorem deep_find_values_spec (obj : json) (key : string) (v : json) :
  v ∈ _deep_find_values obj key <-> stored_under key v obj.
Proof.
  revert v. induction obj as [ |b|q|s|items IH|items IH] using json_nested_ind;
    intros v.
  1-4: split; [by intros ?%elem_of_nil | inversion 1].
  - rewrite _deep_find_values_list. rewrite list_elem_of_In, in_flat_map. split.
    + intros (item & Hin & Hv). apply list_elem_of_In in Hin, Hv.
      apply (stored_in_list key v items item Hin).
      rewrite Forall_forall in IH. by apply IH.
    + inversion 1 as [| |items' w Hin Hw]; subst.
      exists w. rewrite <- !list_elem_of_In. split; [done|].
      rewrite Forall_forall in IH. by apply IH.
  - rewrite _deep_find_values_dict. rewrite list_elem_of_In, in_flat_map. split.
    + intros ([k w] & Hin & Hv). apply list_elem_of_In in Hin. simpl in Hv.
      apply in_app_or in Hv as [Hv|Hv].
      * destruct (String.eqb k key) eqn:E; [|done].
        apply String.eqb_eq in E. subst k.
        destruct Hv as [<-|[]]. by apply stored_here.
      * apply list_elem_of_In in Hv.
        apply (stored_in_dict key v items k w Hin).
        rewrite Forall_forall in IH. by apply (IH (k, w)).
    + inversion 1 as [items' Hin | items' k w Hin Hw |]; subst.
      * exists (key, v). rewrite <- list_elem_of_In. split; [done|].
        simpl. rewrite String.eqb_refl. by left.
      * exists (k, w). rewrite <- list_elem_of_In. split; [done|].
        simpl. apply in_or_app. right. apply list_elem_of_In.
        rewrite Forall_forall in IH. by apply (IH (k, w)).
Qed.

Lemma extract_array_spec items key i units vals :
  let out := extract_array items key i units vals in
  out.1.*1 = units.*1 ++ ((fun n => i + Z.of_nat n) <$> seq 0 (length items))
  /\ out.1.*2 = units.*2 ++ ((fun item => _deep_find_values item key) <$> items)
  /\ out.2 = vals ++ concat ((fun item => _deep_find_values item key) <$> items).
Proof.
  revert i units vals. induction items as [|item rest IH]; intros i units vals; simpl.
  { by rewrite !app_nil_r. }
  destruct (IH (i + 1) (units ++ [(i, _deep_find_values item key)])
              (vals ++ _deep_find_values item key)) as (H1 & H2 & H3).
  rewrite H1, H2, H3, !fmap_app, <- !app_assoc. simpl.
  split; [|done]. do 2 f_equal; [lia|].
  rewrite <- fmap_S_seq, <- list_fmap_compose.
  apply list_fmap_ext. intros _ n _. simpl. lia.
Qed.

Lemma extract_ndjson_concat lines key idx units vals :
  vals = concat units.*2 ->
  (extract_ndjson lines key idx units vals).2
  = concat (extract_ndjson lines key idx units vals).1.*2.
Proof.
  revert idx units vals. induction lines as [|[obj|] rest IH];
    intros idx units vals Hv; simpl; [done| |by apply IH].
  apply IH. rewrite fmap_app, concat_app, Hv. simpl. by rewrite app_nil_r.
Qed.

(** X23.  [extract_key_values_from_latest_json], once the file is read:
    [all_values] is the concatenation of the value lists of
    [results_per_unit], in both reading modes.  For a dict at the root
    there is one unit, numbered 1; for a list there is one unit per
    element, numbered from 1 in order, also for elements without a
    match; for any other root both results are empty. *)
Theorem extract_key_values_units (data : json) (target_key : string)
    (lines : list (option json)) :
  let out := extract_key_values data target_key in
  out.2 = concat out.1.*2
  /\ match data with
     | JDict _ => out.1 = [(1, _deep_find_values data target_key)]
     | JList items =>
         out.1.*1 = (fun n => Z.of_nat n) <$> seq 1 (length items)
         /\ out.1.*2 = (fun item => _deep_find_values item target_key) <$> items
     | _ => out = ([], [])
     end
  /\ (extract_ndjson lines target_key 1 [] []).2
     = concat (extract_ndjson lines target_key 1 [] []).1.*2.
Proof.
  intros out. subst out. split; [|split].
  - destruct data as [ |b|q|s|items|items]; try done.
    + unfold extract_key_values.
      destruct (extract_array_spec items target_key 1 [] []) as (_ & H2 & H3).
      by rewrite H2, H3.
    + unfold extract_key_values. cbn [fst snd fmap list_fmap concat].
      by rewrite app_nil_r.
  - destruct data as [ |b|q|s|items|items]; try done.
    unfold extract_key_values.
    destruct (extract_array_spec items target_key 1 [] []) as (H1 & H2 & _).
    rewrite H1, H2. simpl. split; [|done].
    rewrite <- fmap_S_seq, <- list_fmap_compose.
    apply list_fmap_ext. intros _ n _. simpl. lia.
  - by apply extract_ndjson_concat.
Qed.

(** ** Paths of a profile *)

Lemma unique_loop_spec resolve paths out seen :
  seen ≡ list_to_set (resolved resolve <$> out) ->
  NoDup (resolved resolve <$> out) ->
  let res := unique_loop resolve paths out seen in
  NoDup (resolved resolve <$> res)
  /\ (forall p, p ∈ out ++ paths -> resolved resolve p ∈ resolved resolve <$> res)
  /\ exists kept, res = out ++ kept /\ sublist kept paths.
Proof.
  revert out seen. induction paths as [|p rest IH]; intros out seen Hseen Hnd res;
    subst res; simpl.
  { split; [done|]. split.
    - intros p. rewrite app_nil_r. apply list_elem_of_fmap_2.
    - exists []. by rewrite app_nil_r. }
  destruct (bool_decide (resolved resolve p ∈ seen)) eqn:E.
  - apply bool_decide_eq_true in E.
    destruct (IH out seen Hseen Hnd) as (H1 & H2 & kept & H3 & H4).
    split; [done|]. split.
    + intros q [Hq|[->|Hq]%elem_of_cons]%elem_of_app.
      * apply H2. apply elem_of_app. by left.
      * rewrite Hseen, elem_of_list_to_set in E.
        apply list_elem_of_fmap in E as (q & Hq & Hin).
        rewrite Hq. apply H2. apply elem_of_app. by left.
      * apply H2. apply elem_of_app. by right.
    + exists kept. split; [done|]. by apply sublist_cons.
  - apply bool_decide_eq_false in E.
    destruct (IH (out ++ [p]) ({[resolved resolve p]} ∪ seen)) as (H1 & H2 & kept & H3 & H4).
    { rewrite fmap_app, list_to_set_app, Hseen. simpl.
      rewrite (right_id ∅ (∪)). apply (comm (∪)). }
    { rewrite fmap_app. apply NoDup_app. split; [done|]. split.
      - intros x Hx [->|?%elem_of_nil]%elem_of_cons; [|done].
        apply E. rewrite Hseen. by apply elem_of_list_to_set.
      - simpl. apply NoDup_singleton. }
    split; [done|]. split.
    + intros q Hq. apply H2. rewrite <- app_assoc. done.
    + exists (p :: kept). split; [by rewrite H3, <- app_assoc|].
      by apply sublist_skip.
Qed.

Lemma unique_loop_nodup resolve paths out seen :
  NoDup (resolved resolve <$> paths) ->
  (forall p, p ∈ paths -> resolved resolve p ∉ seen) ->
  unique_loop resolve paths out seen = out ++ paths.
Proof.
  revert out seen. induction paths as [|p rest IH]; intros out seen Hnd Hseen; simpl.
  { by rewrite app_nil_r. }
  rewrite bool_decide_eq_false_2 by (apply Hseen; by left).
  rewrite fmap_cons in Hnd. apply NoDup_cons in Hnd as [Hp Hnd].
  rewrite IH; [by rewrite <- app_assoc | done |].
  intros q Hq [Heq%elem_of_singleton|Hin]%elem_of_union.
  - apply Hp. rewrite <- Heq. by apply list_elem_of_fmap_2.
  - apply (Hseen q); [by right | done].
Qed.

(** X24.  [_unique_existing_paths] keeps, in their order, the paths
    whose resolved form was not seen earlier in the list: the result is
    a sublist of the input, no two paths of the result resolve to the
    same path, every path of the input resolves to the same path as one
    of the result, and a list without two such paths is returned as it
    is.  A path that cannot be resolved stands for itself. *)
Theorem unique_existing_paths_spec (resolve : string -> res string)
    (paths : list string) :
  let out := _unique_existing_paths resolve paths in
  sublist out paths
  /\ NoDup (resolved resolve <$> out)
  /\ (forall p, p ∈ paths -> resolved resolve p ∈ resolved resolve <$> out)
  /\ (NoDup (resolved resolve <$> paths) -> out = paths).
Proof.
  intros out. subst out. unfold _unique_existing_paths.
  destruct (unique_loop_spec resolve paths [] ∅) as (H1 & H2 & kept & H3 & H4);
    [done | apply NoDup_nil_2 |].
  simpl in *. split; [by rewrite H3|]. split; [done|]. split; [done|].
  intros Hnd. apply (unique_loop_nodup resolve paths [] ∅ Hnd).
  intros p _. apply not_elem_of_empty.
Qed.

Lemma unique_existing_paths_spec_witness :
  _unique_existing_paths resolve_dot ["a"; "./a"; "b"; "a"] = ["a"; "b"]
  /\ sublist (_unique_existing_paths resolve_dot ["a"; "./a"; "b"; "a"])
             ["a"; "./a"; "b"; "a"].
Proof.
  split; [reflexivity|].
  apply (proj1 (unique_existing_paths_spec resolve_dot ["a"; "./a"; "b"; "a"])).
Defined.

(** ** Size of a profile folder *)

Lemma sum_sizes_app a b : sum_sizes (a ++ b) = sum_sizes a + sum_sizes b.
Proof.
  induction a as [|[n|e] a IH]; simpl; lia.
Qed.

Lemma dir_size_files_spec files limit total count :
  0 <= count < Z.max 1 limit ->
  match dir_size_files files limit total count with
  | inl t =>
      Z.max 1 limit - count <= Z.of_nat (length files)
      /\ t = total + sum_sizes (take (Z.to_nat (Z.max 1 limit - count)) files)
  | inr (t, c) =>
      Z.of_nat (length files) < Z.max 1 limit - count
      /\ c = count + Z.of_nat (length files)
      /\ t = total + sum_sizes files
  end.
Proof.
  revert total count. induction files as [|file rest IH]; intros total count Hc.
  { simpl. lia. }
  cbn [dir_size_files].
  set (total' := match file with Ok st_size => total + st_size | Raise _ => total end).
  assert (total' + 0 = total + sum_sizes [file]) as Ht
      by (subst total'; destruct file; simpl; lia).
  destruct (limit <=? count + 1) eqn:E.
  - apply Z.leb_le in E.
    assert (Z.max 1 limit - count = 1) as -> by lia.
    split; [simpl length; lia|]. simpl take.
    change (sum_sizes (file :: take 0 rest)) with (sum_sizes [file]). lia.
  - apply Z.leb_gt in E.
    specialize (IH total' (count + 1) ltac:(lia)).
    destruct (dir_size_files rest limit total' (count + 1)) as [t|[t c]].
    + destruct IH as [Hlen ->]. split; [simpl length; lia|].
      replace (Z.to_nat (Z.max 1 limit - count))
        with (Datatypes.S (Z.to_nat (Z.max 1 limit - (count + 1)))) by lia.
      simpl take.
      change (file :: take (Z.to_nat (Z.max 1 limit - (count + 1))) rest)
        with ([file] ++ take (Z.to_nat (Z.max 1 limit - (count + 1))) rest).
      rewrite sum_sizes_app. lia.
    + destruct IH as (Hlen & -> & ->). split; [simpl length; lia|].
      split; [simpl length; lia|].
      change (file :: rest) with ([file] ++ rest). rewrite sum_sizes_app. lia.
Qed.

Lemma dir_size_walk_spec walk limit total count :
  0 <= count < Z.max 1 limit ->
  dir_size_walk walk limit total count
  = total + sum_sizes (take (Z.to_nat (Z.max 1 limit - count)) (concat walk)).
Proof.
  revert total count. induction walk as [|files rest IH]; intros total count Hc.
  { simpl. rewrite take_nil. simpl. lia. }
  cbn [dir_size_walk concat].
  pose proof (dir_size_files_spec files limit total count Hc) as H.
  destruct (dir_size_files files limit total count) as [t|[t c]].
  - destruct H as [Hlen ->]. by rewrite take_app_le by lia.
  - destruct H as (Hlen & -> & ->).
    rewrite IH by lia. rewrite take_app_ge by lia.
    rewrite sum_sizes_app.
    replace (Z.to_nat (Z.max 1 limit - count) - length files)%nat
      with (Z.to_nat (Z.max 1 limit - (count + Z.of_nat (length files)))) by lia.
    lia.
Qed.

(** X25.  [dir_size_bytes] adds up the sizes of the first [limit_files]
    files in the order of the walk, and of the first file only when
    [limit_files] is zero or negative; a file whose [stat()] raises
    counts towards the limit and adds nothing.  With fewer files than
    the limit it is the size of them all. *)
Theorem dir_size_bytes_spec (walk : list (list (res Z))) (limit_files : Z) :
  dir_size_bytes walk limit_files
  = sum_sizes (take (Z.to_nat (Z.max 1 limit_files)) (concat walk))
  /\ (Z.of_nat (length (concat walk)) <= Z.max 1 limit_files ->
      dir_size_bytes walk limit_files = sum_sizes (concat walk)).
Proof.
  unfold dir_size_bytes.
  rewrite (dir_size_walk_spec walk limit_files 0 0) by lia.
  rewrite Z.sub_0_r, Z.add_0_l. split; [done|].
  intros Hlen. by rewrite take_ge by lia.
Qed.

Lemma dir_size_bytes_spec_witness :
  dir_size_bytes [[Ok 10; Raise (Exception "OSError" "gone")]; [Ok 5; Ok 7]] 3 = 15.
Proof.
  rewrite (proj1 (dir_size_bytes_spec
                    [[Ok 10; Raise (Exception "OSError" "gone")]; [Ok 5; Ok 7]] 3)).
  reflexivity.
Defined.

(** ** The TikTok service: requests on sessions *)

Lemma tiktok_run_on_close sc force r st s :
  TikTok.store st !! r = Some s ->
  exists s' tr,
    TikTok.run_on r (TikTok.close sc force) st
    = Some (Ok tt, TikTok.mkState (TikTok.idle_timeout_sec st) (TikTok.sessions st)
                     (<[r := s']> (TikTok.store st)) tr)
    /\ TikTok.closed s' = true /\ TikTok.lock s' = TikTok.lock s
    /\ (TikTok.closed s = true -> s' = s)
    /\ (TikTok.closed s = false -> TikTok.scraper s' = None).
Proof.
  intros Hr. rewrite (tiktok_run_on_Some r _ st s Hr).
  destruct (TikTok.closed s) eqn:Hc.
  - rewrite (tiktok_close_closed sc force (mkRun s (TikTok.syslog st)) Hc). simpl.
    exists s. eexists. split; [reflexivity|]. done.
  - destruct (tiktok_close_open sc force (mkRun s (TikTok.syslog st)) Hc) as [tr ->].
    simpl. eexists _, _. split; [reflexivity|]. done.
Qed.

(** X26.  [close_user_session] of the TikTok service answers 404 for a
    name that is not registered and 400 for a session whose gate is
    held, both without touching anything; otherwise it closes the
    session, whatever the scraper does while closing, and removes the
    name from the registry, leaving all other entries and objects as
    they are. *)
Theorem tiktok_close_user_session_status (scraper_close : outcome)
    (username : string) (st : TikTok.State) :
  let out := TikTokApi.close_user_session scraper_close username st in
  match TikTok.sessions st !! username with
  | None => exists detail, out = (Raise (HTTPException 404 detail), st)
  | Some r =>
      forall s, TikTok.store st !! r = Some s ->
        if TikTok.lock s
        then exists detail, out = (Raise (HTTPException 400 detail), st)
        else exists msg s',
               out.1 = Ok msg
               /\ TikTok.sessions out.2 = delete username (TikTok.sessions st)
               /\ TikTok.store out.2 = <[r := s']> (TikTok.store st)
               /\ TikTok.closed s' = true
               /\ (TikTok.closed s = false -> TikTok.scraper s' = None)
  end.
Proof.
  intros out. subst out. unfold TikTokApi.close_user_session.
  destruct (TikTok.sessions st !! username) as [r|] eqn:Eu; [|eauto].
  intros s Hs. rewrite Hs. destruct (TikTok.lock s) eqn:Hl; [eauto|].
  destruct (tiktok_run_on_close scraper_close false r st s Hs)
    as (s' & tr & -> & Hc & _ & _ & Hsc).
  simpl. eexists _, s'. done.
Qed.

Lemma tiktok_close_user_session_status_witness :
  exists detail,
    TikTokApi.close_user_session (Ok tt) "alice@a.com" tiktok_alice_busy
    = (Raise (HTTPException 400 detail), tiktok_alice_busy).
Proof.
  pose proof (tiktok_close_user_session_status (Ok tt) "alice@a.com"
                tiktok_alice_busy) as H.
  cbv zeta in H.
  change (TikTok.sessions tiktok_alice_busy !! "alice@a.com") with (Some 0%nat) in H.
  exact (H _ eq_refl).
Defined.

Lemma tiktok_get_or_create_spec now u st :
  let r := (TikTokApi.get_or_create now u st).1 in
  let st' := (TikTokApi.get_or_create now u st).2 in
  exists s, TikTok.sessions st' !! u = Some r /\ TikTok.store st' !! r = Some s
            /\ TikTok.closed s = false
            /\ (TikTok.lock s = true
                <-> exists r0 s0, TikTok.sessions st !! u = Some r0
                                  /\ TikTok.store st !! r0 = Some s0
                                  /\ TikTok.closed s0 = false
                                  /\ TikTok.lock s0 = true).
Proof.
  unfold TikTokApi.get_or_create.
  assert (forall h : gmap loc TikTok.UserSession, h !! fresh (dom h) = None) as Hfresh.
  { intros h. apply not_elem_of_dom. apply is_fresh. }
  destruct (TikTok.sessions st !! u) as [r0|] eqn:Eu.
  - destruct (TikTok.store st !! r0) as [s0|] eqn:Es.
    + destruct (TikTok.closed s0) eqn:Ec; simpl.
      * exists (TikTokApi.UserSession_init now u). rewrite !lookup_insert_eq.
        split; [done|]. split; [done|]. split; [done|]. split; [done|].
        intros (r1 & s1 & [= <-] & Hs1 & Hc1 & _). congruence.
      * exists s0. split; [done|]. split; [done|]. split; [done|]. split.
        -- intros Hl. eauto 6.
        -- intros (r1 & s1 & [= <-] & Hs1 & _ & Hl1). congruence.
    + simpl. exists (TikTokApi.UserSession_init now u). rewrite !lookup_insert_eq.
      split; [done|]. split; [done|]. split; [done|]. split; [done|].
      intros (r1 & s1 & [= <-] & Hs1 & _). congruence.
  - simpl. exists (TikTokApi.UserSession_init now u). rewrite !lookup_insert_eq.
    split; [done|]. split; [done|]. split; [done|]. split; [done|].
    intros (r1 & s1 & Hr1 & _). congruence.
Qed.

Lemma tiktok_get_or_create_again now now' u st :
  TikTokApi.get_or_create now' u (TikTokApi.get_or_create now u st).2
  = ((TikTokApi.get_or_create now u st).1, (TikTokApi.get_or_create now u st).2).
Proof.
  destruct (tiktok_get_or_create_spec now u st) as (s & Hu & Hs & Hc & _).
  unfold TikTokApi.get_or_create at 1. by rewrite Hu, Hs, Hc.
Qed.

(** X27.  The immediate answer of the TikTok [scrape_videos_webhook]:
    the position is 2 ("queued") exactly when the live session of the
    name has its gate held at that moment, and 1 ("running") otherwise;
    jobs that are scheduled but have not taken the gate yet are not
    counted, so a second submission handled right after gets the same
    answer as the first. *)
Theorem tiktok_queue_position (now : Q) (task_id username : string)
    (keyword : option string) (keywords : option (list string))
    (webhook_url : string) (st st' : TikTok.State) (resp : WebhookQueuedResponse) :
  TikTokApi.scrape_videos_webhook now task_id username keyword keywords
    webhook_url st = (Ok resp, st') ->
  (wq_queue_position resp = 1 /\ wq_status resp = "running"
   \/ wq_queue_position resp = 2 /\ wq_status resp = "queued")
  /\ (wq_queue_position resp = 2
      <-> exists r s, TikTok.sessions st !! username = Some r
                      /\ TikTok.store st !! r = Some s
                      /\ TikTok.closed s = false /\ TikTok.lock s = true)
  /\ forall now2 task_id2,
       exists resp2 st'',
         TikTokApi.scrape_videos_webhook now2 task_id2 username keyword keywords
           webhook_url st' = (Ok resp2, st'')
         /\ wq_queue_position resp2 = wq_queue_position resp
         /\ wq_status resp2 = wq_status resp.
Proof.
  unfold TikTokApi.scrape_videos_webhook.
  destruct (TikTokApi.get_keywords keyword keywords) as [|k ks]; [done|].
  destruct (tiktok_get_or_create_spec now username st) as (s & Hu & Hs & Hc & Hl).
  pose proof (tiktok_get_or_create_again now) as Hagain.
  destruct (TikTokApi.get_or_create now username st) as [r st1] eqn:Eg.
  simpl in *. rewrite Hs. intros [= <- <-]. simpl.
  split; [|split].
  - destruct (TikTok.lock s); simpl; auto.
  - rewrite <- Hl. destruct (TikTok.lock s); simpl; split; (done || lia).
  - intros now2 task_id2.
    set (st1' := TikTok.mkState _ _ _ _).
    assert (TikTokApi.get_or_create now2 username st1' = (r, st1')) as ->.
    { specialize (Hagain now2 username st). rewrite Eg in Hagain. simpl in Hagain.
      unfold TikTokApi.get_or_create in Hagain |- *. subst st1'. simpl.
      rewrite Hu, Hs, Hc in Hagain |- *. done. }
    subst st1'. simpl. rewrite Hs. eexists _, _. split; [reflexivity|]. done.
Qed.

Lemma tiktok_queue_position_witness :
  exists resp st' resp2 st'',
    TikTokApi.scrape_videos_webhook 0 "t1" "alice" (Some "cats") None "http://cb"
      (TikTok.mkState 300 ∅ ∅ []) = (Ok resp, st')
    /\ TikTokApi.scrape_videos_webhook 1 "t2" "alice" (Some "cats") None "http://cb" st'
       = (Ok resp2, st'')
    /\ wq_queue_position resp2 = 1.
Proof.
  destruct (TikTokApi.scrape_videos_webhook 0 "t1" "alice" (Some "cats") None
              "http://cb" (TikTok.mkState 300 ∅ ∅ [])) as [[resp|e] st'] eqn:E;
    [|vm_compute in E; discriminate].
  destruct (tiktok_queue_position _ _ _ _ _ _ _ _ _ E) as (_ & _ & H).
  destruct (H 1%Q "t2") as (resp2 & st'' & E2 & Hp & _).
  exists resp, st', resp2, st''. split; [done|]. split; [done|].
  rewrite Hp. vm_compute in E. by injection E as <- _.
Defined.

Lemma dict_fromkeys_spec keys d :
  NoDup d ->
  NoDup (TikTokApi.dict_fromkeys keys d)
  /\ (forall k, k ∈ TikTokApi.dict_fromkeys keys d <-> k ∈ d \/ k ∈ keys)
  /\ exists added, TikTokApi.dict_fromkeys keys d = d ++ added.
Proof.
  revert d. induction keys as [|k0 rest IH]; intros d Hd; simpl.
  { split; [done|]. split.
    - intros k. split; [auto | intros [?|?%elem_of_nil]; done].
    - exists []. by rewrite app_nil_r. }
  destruct (bool_decide (k0 ∈ d)) eqn:E.
  - apply bool_decide_eq_true in E.
    destruct (IH d Hd) as (H1 & H2 & added & H3).
    split; [done|]. split; [|eauto].
    intros k. rewrite H2, elem_of_cons. split; [tauto|].
    intros [?|[->|?]]; auto.
  - apply bool_decide_eq_false in E.
    destruct (IH (d ++ [k0])) as (H1 & H2 & added & H3).
    { apply NoDup_app. split; [done|]. split; [|apply NoDup_singleton].
      intros x Hx [->|?%elem_of_nil]%elem_of_cons; done. }
    split; [done|]. split.
    + intros k. rewrite H2, elem_of_app, list_elem_of_singleton, elem_of_cons. tauto.
    + exists (k0 :: added). by rewrite H3, <- app_assoc.
Qed.

(** X28.  [get_keywords] merges the single keyword and the keyword
    list: the result has no duplicates, holds exactly the non-empty
    single keyword and the keywords of the list, starts with the single
    keyword when one is given, and is empty exactly when no keyword is
    given at all, which is when [scrape_videos_webhook] answers 400. *)
Theorem get_keywords_spec (keyword : option string) (keywords : option (list string)) :
  let out := TikTokApi.get_keywords keyword keywords in
  NoDup out
  /\ (forall k, k ∈ out
                <-> (keyword = Some k /\ k <> "")
                    \/ exists kws, keywords = Some kws /\ k ∈ kws)
  /\ (forall kw, keyword = Some kw -> kw <> "" -> head out = Some kw)
  /\ (out = []
      <-> (keyword = None \/ keyword = Some "")
          /\ (keywords = None \/ keywords = Some []))
  /\ (forall now task_id username url st,
        out = [] <->
        exists detail,
          TikTokApi.scrape_videos_webhook now task_id username keyword keywords url st
          = (Raise (HTTPException 400 detail), st)).
Proof.
  intros out. subst out. unfold TikTokApi.get_keywords.
  set (single := match keyword with
                 | Some kw => if String.eqb kw "" then [] else [kw]
                 | None => []
                 end).
  set (result := match keywords with Some kws => single ++ kws | None => single end).
  destruct (dict_fromkeys_spec result [] (NoDup_nil_2)) as (Hnd & Hel & added & Hadd).
  assert (forall k, k ∈ single <-> keyword = Some k /\ k <> "") as Hsingle.
  { intros k. subst single. destruct keyword as [kw|].
    - destruct (String.eqb kw "") eqn:E.
      + apply String.eqb_eq in E. subst kw.
        split; [by intros ?%elem_of_nil | by intros [[= <-] ?]].
      + apply String.eqb_neq in E. rewrite list_elem_of_singleton.
        split; [by intros -> | by intros [[= <-] _]].
    - split; [by intros ?%elem_of_nil | by intros [? _]]. }
  assert (forall k, k ∈ result
                    <-> (keyword = Some k /\ k <> "")
                        \/ exists kws, keywords = Some kws /\ k ∈ kws) as Hres.
  { intros k. subst result. destruct keywords as [kws|].
    - rewrite elem_of_app, Hsingle. split.
      + intros [?|?]; eauto.
      + intros [?|(kws' & [= <-] & ?)]; auto.
    - rewrite Hsingle. split; [auto|]. by intros [?|(? & ? & _)]. }
  assert (TikTokApi.dict_fromkeys result [] = []
          <-> (keyword = None \/ keyword = Some "")
              /\ (keywords = None \/ keywords = Some [])) as Hempty.
  { split.
    - intros Hnil.
      assert (forall k, k ∉ result) as Hno.
      { intros k Hk. assert (k ∈ TikTokApi.dict_fromkeys result []) as Hin
            by (apply Hel; by right).
        rewrite Hnil in Hin. by apply elem_of_nil in Hin. }
      split.
      + destruct keyword as [kw|]; [|by left]. right. f_equal.
        destruct (decide (kw = "")) as [->|Hne]; [done|].
        exfalso. apply (Hno kw). apply Hres. by left.
      + destruct keywords as [[|k kws]|]; [by right| |by left].
        exfalso. apply (Hno k). apply Hres. right. exists (k :: kws).
        split; [done | by left].
    - intros [Hk Hks].
      assert (result = []) as ->; [|done].
      subst result single.
      destruct Hk as [-> | ->], Hks as [-> | ->]; done. }
  split; [done|]. split; [|split; [|split]].
  - intros k. rewrite Hel, Hres. split; [|auto].
    by intros [?%elem_of_nil|?].
  - intros kw -> Hne. subst result single.
    apply String.eqb_neq in Hne. rewrite Hne.
    destruct keywords as [kws|]; simpl.
    + destruct (dict_fromkeys_spec kws [kw] (NoDup_singleton kw))
        as (_ & _ & added' & ->). done.
    + done.
  - exact Hempty.
  - intros now task_id username url st.
    unfold TikTokApi.scrape_videos_webhook, TikTokApi.get_keywords.
    fold single. fold result.
    destruct (TikTokApi.dict_fromkeys result []) as [|k ks] eqn:E.
    + split; [eauto | done].
    + split; [done|]. intros [detail H]. exfalso.
      destruct (TikTokApi.get_or_create now username st) as [r st1].
      destruct (TikTok.store st1 !! r); discriminate.
Qed.

Lemma get_keywords_spec_witness :
  TikTokApi.get_keywords (Some "cats") (Some ["dogs"; "cats"; "dogs"]) = ["cats"; "dogs"]
  /\ NoDup (TikTokApi.get_keywords (Some "cats") (Some ["dogs"; "cats"; "dogs"])).
Proof.
  split; [reflexivity|].
  apply (proj1 (get_keywords_spec (Some "cats") (Some ["dogs"; "cats"; "dogs"]))).
Defined.

Lemma tiktok_stop_close_all_spec sc l st :
  exists st',
    TikTokApi.stop_close_all sc l st = (Ok tt, st')
    /\ TikTok.sessions st' = TikTok.sessions st
    /\ forall r s, TikTok.store st !! r = Some s ->
         exists s', TikTok.store st' !! r = Some s'
                    /\ TikTok.lock s' = TikTok.lock s
                    /\ (TikTok.closed s = true -> TikTok.closed s' = true)
                    /\ (r ∈ l.*2 -> TikTok.closed s' = true).
Proof.
  revert st. induction l as [|[u0 r0] rest IH]; intros st.
  { simpl. exists st. split; [done|]. split; [done|].
    intros r s Hr. exists s. repeat split; try done. by intros ?%elem_of_nil. }
  simpl. destruct (TikTok.store st !! r0) as [s0|] eqn:Hs0.
  - destruct (tiktok_run_on_close (sc u0) false r0 st s0 Hs0)
      as (s0' & tr & -> & Hc0 & Hl0 & _ & _).
    set (st1 := TikTok.mkState _ _ _ _).
    destruct (IH st1) as (st' & -> & Hsess & Hstore).
    exists st'. split; [done|]. split; [by rewrite Hsess|].
    intros r s Hr. destruct (decide (r = r0)) as [->|Hne].
    + rewrite Hs0 in Hr. injection Hr as <-.
      destruct (Hstore r0 s0' ltac:(subst st1; simpl; apply lookup_insert_eq))
        as (s' & Hs' & Hl' & Hc' & _).
      exists s'. split; [done|]. split; [congruence|]. auto.
    + destruct (Hstore r s ltac:(subst st1; simpl; by rewrite lookup_insert_ne))
        as (s' & Hs' & Hl' & Hc' & Hin').
      exists s'. split; [done|]. split; [done|]. split; [done|].
      intros [?|?]%elem_of_cons; [done | auto].
  - unfold TikTok.run_on. rewrite Hs0.
    destruct (IH st) as (st' & -> & Hsess & Hstore).
    exists st'. split; [done|]. split; [done|].
    intros r s Hr. destruct (Hstore r s Hr) as (s' & Hs' & Hl' & Hc' & Hin').
    exists s'. split; [done|]. split; [done|]. split; [done|].
    intros [->|?]%elem_of_cons; [congruence | auto].
Qed.

(** X29.  [SessionManager.stop] of the TikTok service returns
    normally, whatever the scrapers do while closing, and closes every
    registered session, busy or not.  Unlike the Facebook manager it
    does not clear the registry: every name stays registered, to a
    closed session, and the next [get_or_create] for it makes a new
    session object. *)
Theorem tiktok_stop_keeps_registry (scraper_close : string -> outcome)
    (st : TikTok.State) :
  exists st',
    TikTokApi.stop scraper_close st = (Ok tt, st')
    /\ TikTok.sessions st' = TikTok.sessions st
    /\ forall u r s,
         TikTok.sessions st !! u = Some r -> TikTok.store st !! r = Some s ->
         (exists s', TikTok.store st' !! r = Some s'
                     /\ TikTok.closed s' = true /\ TikTok.lock s' = TikTok.lock s)
         /\ forall now, (TikTokApi.get_or_create now u st').1 <> r.
Proof.
  unfold TikTokApi.stop.
  destruct (tiktok_stop_close_all_spec scraper_close
              (map_to_list (TikTok.sessions st)) st) as (st1 & -> & Hsess & Hstore).
  eexists. split; [reflexivity|]. simpl. split; [done|].
  intros u r s Hu Hr.
  destruct (Hstore r s Hr) as (s' & Hs' & Hl' & _ & Hin).
  assert (TikTok.closed s' = true) as Hc'.
  { apply Hin. apply list_elem_of_fmap. exists (u, r). split; [done|].
    by apply elem_of_map_to_list. }
  split; [eauto|].
  intros now. unfold TikTokApi.get_or_create. simpl.
  rewrite Hsess, Hu, Hs', Hc'. simpl.
  intros Heq.
  assert (TikTok.store st1 !! fresh (dom (TikTok.store st1)) = None) as Hf
      by (apply not_elem_of_dom, is_fresh).
  rewrite Heq in Hf. congruence.
Qed.

Lemma tiktok_stop_keeps_registry_witness :
  exists st',
    TikTokApi.stop (fun _ => Raise (RuntimeError "boom")) tiktok_alice_busy = (Ok tt, st')
    /\ TikTok.sessions st' !! "alice@a.com" = Some 0%nat
    /\ (TikTokApi.get_or_create 9 "alice@a.com" st').1 <> 0%nat.
Proof.
  destruct (tiktok_stop_keeps_registry (fun _ => Raise (RuntimeError "boom"))
              tiktok_alice_busy) as (st' & H1 & H2 & H3).
  exists st'. split; [exact H1|]. split; [by rewrite H2|].
  eapply (proj2 (H3 "alice@a.com" 0%nat _ eq_refl eq_refl)).
Defined.

(** X30.  [full_delete_profile] of the TikTok service looks for a
    session under the raw name of the request only, while the folder it
    removes is that of the safe name.  If that session is busy the
    request is refused with 400 and nothing is touched.  If no session
    is registered under exactly that name, the folder is removed (or
    reported missing) and every session, busy or not, stays as it is,
    also one whose safe name is that of the removed folder. *)
Theorem tiktok_full_delete_checks_raw_name (scraper_close : outcome)
    (profile_exists : bool) (rmtree : outcome) (username : string)
    (st : TikTok.State) :
  let out := TikTokApi.full_delete_profile scraper_close profile_exists rmtree
               username st in
  match TikTok.sessions st !! username with
  | Some r =>
      forall s, TikTok.store st !! r = Some s -> TikTok.lock s = true ->
        exists detail, out = (Raise (HTTPException 400 detail), st)
  | None =>
      TikTok.sessions out.2 = TikTok.sessions st
      /\ TikTok.store out.2 = TikTok.store st
      /\ out.1 = (if profile_exists
                  then match rmtree with
                       | Ok _ => Ok "success"
                       | Raise e => Raise (HTTPException 500 (str_exn e))
                       end
                  else Ok "not_found")
  end.
Proof.
  intros out. subst out. unfold TikTokApi.full_delete_profile.
  destruct (TikTok.sessions st !! username) as [r|] eqn:Eu.
  - intros s Hs Hl. rewrite Hs, Hl. eauto.
  - destruct profile_exists; [|done]. by destruct rmtree as [[]|e].
Qed.

(** A session of "alice@a.com" is busy; the request names
    "alice@b.com": the folder "alice" is removed under the running
    job. *)
Lemma tiktok_full_delete_checks_raw_name_witness :
  to_safe_name "alice@b.com" = "alice"
  /\ (TikTokApi.full_delete_profile (Ok tt) true (Ok tt) "alice@b.com"
        tiktok_alice_busy).1 = Ok "success"
  /\ TikTok.sessions (TikTokApi.full_delete_profile (Ok tt) true (Ok tt)
                        "alice@b.com" tiktok_alice_busy).2
     = TikTok.sessions tiktok_alice_busy.
Proof.
  pose proof (tiktok_full_delete_checks_raw_name (Ok tt) true (Ok tt) "alice@b.com"
                tiktok_alice_busy) as H.
  cbv zeta in H.
  change (TikTok.sessions tiktok_alice_busy !! "alice@b.com") with (@None loc) in H.
  destruct H as (H1 & _ & H3).
  split; [reflexivity|]. split; [exact H3 | exact H1].
Defined.

(** ** Warm jobs and the idle clock *)

Lemma run_for_sys_free {A} t_new u (job : M UserSession A) st :
  gate_held u st = false ->
  let r := (get_or_create t_new u st).1 in
  let st1 := (get_or_create t_new u st).2 in
  exists s0,
    live_session u st1 = Some (r, s0) /\ lock s0 = false
    /\ let out := job (mkRun (set_lock true s0) (syslog st1)) in
       run_for_sys t_new u job st
       = Some (out.1,
               set_syslog (trace out.2)
                 (set_store (<[r := set_lock false (obj out.2)]> (store st1)) st1)).
Proof.
  intros Hfree r st1.
  destruct (get_or_create_result t_new u st) as (s0 & Hl & Hlock & _).
  fold r st1 in Hl. rewrite Hfree in Hlock.
  exists s0. split; [done|]. split; [done|].
  apply live_session_Some in Hl as (_ & Hs0 & _).
  unfold run_for_sys.
  destruct (get_or_create t_new u st) as [r' st1'] eqn:E.
  subst r st1. simpl in *. rewrite Hs0, Hlock.
  pose proof (update_lookup r' (set_lock true) st1' s0 Hs0) as H2.
  rewrite (run_on_Some r' job _ _ H2). rewrite !update_syslog.
  set (out := job (mkRun (set_lock true s0) (syslog st1'))).
  f_equal. f_equal.
  rewrite (update_Some r' (set_lock true) _ _ Hs0). simpl.
  erewrite (update_Some r' (set_lock false)) by (simpl; apply lookup_insert_eq).
  unfold set_syslog, set_store. simpl.
  by rewrite !insert_insert_eq.
Qed.

Lemma _sink_job_frame cfg now_mono t_done env j :
  let j' := (_sink_job cfg now_mono t_done env j).2 in
  last_used (obj j') = last_used (obj j) /\ closed (obj j') = closed (obj j)
  /\ lock (obj j') = lock (obj j).
Proof.
  unfold _sink_job, on_fb, bind. simpl.
  destruct (fb (obj j)) as [f|]; [|done].
  by destruct (randomtask cfg now_mono t_done env (mkRun f (trace j))) as [[a|e] j1].
Qed.

(** X13.  A sink job started by the janitor or at the end of a scrape
    job goes through [run_for_sys]: whatever it does and however it
    ends, it logs and drops its exception, releases the gate, and leaves
    [last_used] of the session as it was.  Warming a session does not
    postpone its eviction. *)
Theorem sink_keeps_idle_clock (cfg : Config) (t_new now_mono t_done : Q)
    (env : SinkEnv) (u : string) (st : State) (r : loc) (s : UserSession) :
  live_session u st = Some (r, s) -> lock s = false ->
  exists st' s',
    _run_sink_for_user cfg t_new now_mono t_done env u st = Some st'
    /\ live_session u st' = Some (r, s')
    /\ last_used s' = last_used s
    /\ lock s' = false.
Proof.
  intros Hlive Hlock.
  assert (gate_held u st = false) as Hfree by (unfold gate_held; by rewrite Hlive).
  pose proof (run_for_sys_free t_new u (_sink_job cfg now_mono t_done env) st Hfree)
    as H.
  cbv zeta in H. rewrite (get_or_create_existing t_new u st r s Hlive) in H.
  simpl in H. destruct H as (s0 & Hl0 & _ & Hrun).
  rewrite Hlive in Hl0. injection Hl0 as <-.
  destruct (_sink_job_frame cfg now_mono t_done env
              (mkRun (set_lock true s) (syslog st))) as (Hlu & Hc & _).
  simpl in Hlu, Hc.
  pose proof Hlive as Hlive'. apply live_session_Some in Hlive' as (_ & _ & Hcs).
  unfold _run_sink_for_user. rewrite Hrun.
  set (out := _sink_job cfg now_mono t_done env (mkRun (set_lock true s) (syslog st)))
    in *.
  destruct out.1 as [[]|e]; eexists _, (set_lock false (obj out.2));
    (split; [reflexivity|]);
    (split; [|by split]);
    apply live_session_Some in Hlive as (Hu & _ & _);
    apply live_session_Some; simpl; rewrite lookup_insert_eq;
    (split; [done|]); (split; [done|]); congruence.
Qed.

Lemma sink_keeps_idle_clock_witness :
  exists st' s',
    _run_sink_for_user every_3 100 1200 1300 sink_env_ok "alice" alice_idle = Some st'
    /\ live_session "alice" st' = Some (0%nat, s')
    /\ last_used s' = 5%Q.
Proof.
  destruct (sink_keeps_idle_clock every_3 100 1200 1300 sink_env_ok "alice" alice_idle
              0%nat (set_last_used 5 (UserSession_init 5 "alice")) eq_refl eq_refl)
    as (st' & s' & H1 & H2 & H3 & _).
  by exists st', s'.
Defined.

(** ** random_scrape *)






(** A browser that cannot be opened, on a disk that is full: the
    client gets the exception of the error record, not a 500. *)
Example random_scrape_record_fails :
  exists st',
    random_scrape (L := files_full) every_3
      (mkDriver (Ok tt) (Raise (RuntimeError "no display")) (Ok tt))
      1200 1300 sink_env_ok 0 1 2 "alice" true (SessionManager_init 300)
    = Some (Raise (Exception "OSError" "No space left on device"), st').
Proof. eexists. vm_compute. reflexivity. Qed.
